(** * The FAISS search service of the registry: a shallow embedding

  This development embeds [registry/search/service.py] (class
  [FaissService]) and states its index-management and search properties.

  Conventions of the embedding:
  - Python [str] is [str], a sequence of Unicode code points; the
    whitespace of [str.strip], the regex class [\w] and [str.lower] are
    read in the tables of Unicode 14.0.0, those of CPython 3.11.
  - a key of a payload that the service reads as text may be missing, or
    hold [None], or hold a string ([Field]).
  - Python [int] is [Z]; Python [float] is the kernel's binary64 [float],
    except the tool matcher's [coverage], a quotient of two small
    naturals, which is kept as the exact fraction in [Q] (the float is its
    correctly rounded value, see [float_of_Q]).
  - a [dict] is an insertion-ordered association list ([Dict]).
  - methods of the service are computations in the monad [M]: state
    passing over [FaissService], Python exceptions, and a trace of the
    observable effects (embedder calls, saves, log records).
  - what [initialize] reads from the outside (settings, client factory,
    the two files) is a record, [Startup].

  The two readings of [FederationConfig]
  ([registry/schemas/federation_schema.py]) are embedded as well. *)

From Stdlib Require Import List ZArith NArith QArith Bool Lia.
From Stdlib Require Import Permutation Sorted.
From Stdlib Require Import Floats Uint63.
From Stdlib.Strings Require Import Byte.
Import ListNotations.

Local Close Scope Q_scope.
Local Open Scope list_scope.

(* ================================================================= *)
(** ** Python strings: sequences of Unicode code points *)

Inductive str : Set :=
| EmptyStr
| Str (c : N) (r : str).

Fixpoint str_append (a b : str) : str :=
  match a with
  | EmptyStr => b
  | Str c r => Str c (str_append r b)
  end.

Fixpoint str_of_list (l : list N) : str :=
  match l with
  | [] => EmptyStr
  | c :: r => Str c (str_of_list r)
  end.

Fixpoint list_of_str (s : str) : list N :=
  match s with
  | EmptyStr => []
  | Str c r => c :: list_of_str r
  end.

(** The literals of this development are read as UTF-8. *)
Fixpoint str_of_utf8 (l : list Byte.byte) : option str :=
  let cont (b : Byte.byte) : N := (Byte.to_N b - 128)%N in
  match l with
  | [] => Some EmptyStr
  | b :: l1 =>
      let n := Byte.to_N b in
      if (n <? 128)%N then option_map (Str n) (str_of_utf8 l1)
      else if (n <? 192)%N then None
      else if (n <? 224)%N then
        match l1 with
        | b1 :: l2 =>
            option_map (Str ((n - 192) * 64 + cont b1)%N) (str_of_utf8 l2)
        | _ => None
        end
      else if (n <? 240)%N then
        match l1 with
        | b1 :: b2 :: l3 =>
            option_map
              (Str ((n - 224) * 4096 + cont b1 * 64 + cont b2)%N)
              (str_of_utf8 l3)
        | _ => None
        end
      else
        match l1 with
        | b1 :: b2 :: b3 :: l4 =>
            option_map
              (Str ((n - 240) * 262144 + cont b1 * 4096 + cont b2 * 64
                    + cont b3)%N)
              (str_of_utf8 l4)
        | _ => None
        end
  end.

Definition utf8_of_code_point (c : N) : list N :=
  (if c <? 128 then [c]
   else if c <? 2048 then [192 + c / 64; 128 + c mod 64]
   else if c <? 65536 then
     [224 + c / 4096; 128 + (c / 64) mod 64; 128 + c mod 64]
   else
     [240 + c / 262144; 128 + (c / 4096) mod 64; 128 + (c / 64) mod 64;
      128 + c mod 64])%N.

Fixpoint utf8_of_str (s : str) : option (list Byte.byte) :=
  match s with
  | EmptyStr => Some []
  | Str c r =>
      let bytes :=
        fold_right
          (fun n acc =>
             match Byte.of_N n, acc with
             | Some b, Some l => Some (b :: l)
             | _, _ => None
             end)
          (Some []) (utf8_of_code_point c) in
      match bytes, utf8_of_str r with
      | Some a, Some b => Some (a ++ b)
      | _, _ => None
      end
  end.

Declare Scope str_scope.
Delimit Scope str_scope with str.
Bind Scope str_scope with str.
String Notation str str_of_utf8 utf8_of_str : str_scope.
Infix "++" := str_append (right associativity, at level 60) : str_scope.
Local Open Scope str_scope.

Definition str_eq_dec : forall a b : str, {a = b} + {a <> b}.
Proof. decide equality. apply N.eq_dec. Defined.

(* ================================================================= *)
(** ** The character tables of Python

  The tables are those of Unicode 14.0.0, which CPython 3.11 is built
  with: the whitespace of [str.strip], the word characters of the regex
  class [\w], and what [str.lower] needs (the lowercase mappings, the
  cased and the case-ignorable code points). *)

Module Unicode.
Local Open Scope N_scope.

(** The code points that [str.strip] and [str.isspace] take for whitespace. *)
Definition whitespace_table : list (N * N) :=
  [(9, 13); (28, 32); (133, 133); (160, 160); (5760, 5760); (8192, 8202);
   (8232, 8233); (8239, 8239); (8287, 8287); (12288, 12288)].

(** The code points that the regex class [\w] matches in a [str]: the
    alphanumeric ones and the underscore. *)
Definition word_table : list (N * N) :=
  [(48, 57); (65, 90); (95, 95); (97, 122); (170, 170); (178, 179);
   (181, 181); (185, 186); (188, 190); (192, 214); (216, 246); (248, 705);
   (710, 721); (736, 740); (748, 748); (750, 750); (880, 884); (886, 887);
   (890, 893); (895, 895); (902, 902); (904, 906); (908, 908); (910, 929);
   (931, 1013); (1015, 1153); (1162, 1327); (1329, 1366); (1369, 1369);
   (1376, 1416); (1488, 1514); (1519, 1522); (1568, 1610); (1632, 1641);
   (1646, 1647); (1649, 1747); (1749, 1749); (1765, 1766); (1774, 1788);
   (1791, 1791); (1808, 1808); (1810, 1839); (1869, 1957); (1969, 1969);
   (1984, 2026); (2036, 2037); (2042, 2042); (2048, 2069); (2074, 2074);
   (2084, 2084); (2088, 2088); (2112, 2136); (2144, 2154); (2160, 2183);
   (2185, 2190); (2208, 2249); (2308, 2361); (2365, 2365); (2384, 2384);
   (2392, 2401); (2406, 2415); (2417, 2432); (2437, 2444); (2447, 2448);
   (2451, 2472); (2474, 2480); (2482, 2482); (2486, 2489); (2493, 2493);
   (2510, 2510); (2524, 2525); (2527, 2529); (2534, 2545); (2548, 2553);
   (2556, 2556); (2565, 2570); (2575, 2576); (2579, 2600); (2602, 2608);
   (2610, 2611); (2613, 2614); (2616, 2617); (2649, 2652); (2654, 2654);
   (2662, 2671); (2674, 2676); (2693, 2701); (2703, 2705); (2707, 2728);
   (2730, 2736); (2738, 2739); (2741, 2745); (2749, 2749); (2768, 2768);
   (2784, 2785); (2790, 2799); (2809, 2809); (2821, 2828); (2831, 2832);
   (2835, 2856); (2858, 2864); (2866, 2867); (2869, 2873); (2877, 2877);
   (2908, 2909); (2911, 2913); (2918, 2927); (2929, 2935); (2947, 2947);
   (2949, 2954); (2958, 2960); (2962, 2965); (2969, 2970); (2972, 2972);
   (2974, 2975); (2979, 2980); (2984, 2986); (2990, 3001); (3024, 3024);
   (3046, 3058); (3077, 3084); (3086, 3088); (3090, 3112); (3114, 3129);
   (3133, 3133); (3160, 3162); (3165, 3165); (3168, 3169); (3174, 3183);
   (3192, 3198); (3200, 3200); (3205, 3212); (3214, 3216); (3218, 3240);
   (3242, 3251); (3253, 3257); (3261, 3261); (3293, 3294); (3296, 3297);
   (3302, 3311); (3313, 3314); (3332, 3340); (3342, 3344); (3346, 3386);
   (3389, 3389); (3406, 3406); (3412, 3414); (3416, 3425); (3430, 3448);
   (3450, 3455); (3461, 3478); (3482, 3505); (3507, 3515); (3517, 3517);
   (3520, 3526); (3558, 3567); (3585, 3632); (3634, 3635); (3648, 3654);
   (3664, 3673); (3713, 3714); (3716, 3716); (3718, 3722); (3724, 3747);
   (3749, 3749); (3751, 3760); (3762, 3763); (3773, 3773); (3776, 3780);
   (3782, 3782); (3792, 3801); (3804, 3807); (3840, 3840); (3872, 3891);
   (3904, 3911); (3913, 3948); (3976, 3980); (4096, 4138); (4159, 4169);
   (4176, 4181); (4186, 4189); (4193, 4193); (4197, 4198); (4206, 4208);
   (4213, 4225); (4238, 4238); (4240, 4249); (4256, 4293); (4295, 4295);
   (4301, 4301); (4304, 4346); (4348, 4680); (4682, 4685); (4688, 4694);
   (4696, 4696); (4698, 4701); (4704, 4744); (4746, 4749); (4752, 4784);
   (4786, 4789); (4792, 4798); (4800, 4800); (4802, 4805); (4808, 4822);
   (4824, 4880); (4882, 4885); (4888, 4954); (4969, 4988); (4992, 5007);
   (5024, 5109); (5112, 5117); (5121, 5740); (5743, 5759); (5761, 5786);
   (5792, 5866); (5870, 5880); (5888, 5905); (5919, 5937); (5952, 5969);
   (5984, 5996); (5998, 6000); (6016, 6067); (6103, 6103); (6108, 6108);
   (6112, 6121); (6128, 6137); (6160, 6169); (6176, 6264); (6272, 6276);
   (6279, 6312); (6314, 6314); (6320, 6389); (6400, 6430); (6470, 6509);
   (6512, 6516); (6528, 6571); (6576, 6601); (6608, 6618); (6656, 6678);
   (6688, 6740); (6784, 6793); (6800, 6809); (6823, 6823); (6917, 6963);
   (6981, 6988); (6992, 7001); (7043, 7072); (7086, 7141); (7168, 7203);
   (7232, 7241); (7245, 7293); (7296, 7304); (7312, 7354); (7357, 7359);
   (7401, 7404); (7406, 7411); (7413, 7414); (7418, 7418); (7424, 7615);
   (7680, 7957); (7960, 7965); (7968, 8005); (8008, 8013); (8016, 8023);
   (8025, 8025); (8027, 8027); (8029, 8029); (8031, 8061); (8064, 8116);
   (8118, 8124); (8126, 8126); (8130, 8132); (8134, 8140); (8144, 8147);
   (8150, 8155); (8160, 8172); (8178, 8180); (8182, 8188); (8304, 8305);
   (8308, 8313); (8319, 8329); (8336, 8348); (8450, 8450); (8455, 8455);
   (8458, 8467); (8469, 8469); (8473, 8477); (8484, 8484); (8486, 8486);
   (8488, 8488); (8490, 8493); (8495, 8505); (8508, 8511); (8517, 8521);
   (8526, 8526); (8528, 8585); (9312, 9371); (9450, 9471); (10102, 10131);
   (11264, 11492); (11499, 11502); (11506, 11507); (11517, 11517);
   (11520, 11557); (11559, 11559); (11565, 11565); (11568, 11623);
   (11631, 11631); (11648, 11670); (11680, 11686); (11688, 11694);
   (11696, 11702); (11704, 11710); (11712, 11718); (11720, 11726);
   (11728, 11734); (11736, 11742); (11823, 11823); (12293, 12295);
   (12321, 12329); (12337, 12341); (12344, 12348); (12353, 12438);
   (12445, 12447); (12449, 12538); (12540, 12543); (12549, 12591);
   (12593, 12686); (12690, 12693); (12704, 12735); (12784, 12799);
   (12832, 12841); (12872, 12879); (12881, 12895); (12928, 12937);
   (12977, 12991); (13312, 19903); (19968, 42124); (42192, 42237);
   (42240, 42508); (42512, 42539); (42560, 42606); (42623, 42653);
   (42656, 42735); (42775, 42783); (42786, 42888); (42891, 42954);
   (42960, 42961); (42963, 42963); (42965, 42969); (42994, 43009);
   (43011, 43013); (43015, 43018); (43020, 43042); (43056, 43061);
   (43072, 43123); (43138, 43187); (43216, 43225); (43250, 43255);
   (43259, 43259); (43261, 43262); (43264, 43301); (43312, 43334);
   (43360, 43388); (43396, 43442); (43471, 43481); (43488, 43492);
   (43494, 43518); (43520, 43560); (43584, 43586); (43588, 43595);
   (43600, 43609); (43616, 43638); (43642, 43642); (43646, 43695);
   (43697, 43697); (43701, 43702); (43705, 43709); (43712, 43712);
   (43714, 43714); (43739, 43741); (43744, 43754); (43762, 43764);
   (43777, 43782); (43785, 43790); (43793, 43798); (43808, 43814);
   (43816, 43822); (43824, 43866); (43868, 43881); (43888, 44002);
   (44016, 44025); (44032, 55203); (55216, 55238); (55243, 55291);
   (63744, 64109); (64112, 64217); (64256, 64262); (64275, 64279);
   (64285, 64285); (64287, 64296); (64298, 64310); (64312, 64316);
   (64318, 64318); (64320, 64321); (64323, 64324); (64326, 64433);
   (64467, 64829); (64848, 64911); (64914, 64967); (65008, 65019);
   (65136, 65140); (65142, 65276); (65296, 65305); (65313, 65338);
   (65345, 65370); (65382, 65470); (65474, 65479); (65482, 65487);
   (65490, 65495); (65498, 65500); (65536, 65547); (65549, 65574);
   (65576, 65594); (65596, 65597); (65599, 65613); (65616, 65629);
   (65664, 65786); (65799, 65843); (65856, 65912); (65930, 65931);
   (66176, 66204); (66208, 66256); (66273, 66299); (66304, 66339);
   (66349, 66378); (66384, 66421); (66432, 66461); (66464, 66499);
   (66504, 66511); (66513, 66517); (66560, 66717); (66720, 66729);
   (66736, 66771); (66776, 66811); (66816, 66855); (66864, 66915);
   (66928, 66938); (66940, 66954); (66956, 66962); (66964, 66965);
   (66967, 66977); (66979, 66993); (66995, 67001); (67003, 67004);
   (67072, 67382); (67392, 67413); (67424, 67431); (67456, 67461);
   (67463, 67504); (67506, 67514); (67584, 67589); (67592, 67592);
   (67594, 67637); (67639, 67640); (67644, 67644); (67647, 67669);
   (67672, 67702); (67705, 67742); (67751, 67759); (67808, 67826);
   (67828, 67829); (67835, 67867); (67872, 67897); (67968, 68023);
   (68028, 68047); (68050, 68096); (68112, 68115); (68117, 68119);
   (68121, 68149); (68160, 68168); (68192, 68222); (68224, 68255);
   (68288, 68295); (68297, 68324); (68331, 68335); (68352, 68405);
   (68416, 68437); (68440, 68466); (68472, 68497); (68521, 68527);
   (68608, 68680); (68736, 68786); (68800, 68850); (68858, 68899);
   (68912, 68921); (69216, 69246); (69248, 69289); (69296, 69297);
   (69376, 69415); (69424, 69445); (69457, 69460); (69488, 69505);
   (69552, 69579); (69600, 69622); (69635, 69687); (69714, 69743);
   (69745, 69746); (69749, 69749); (69763, 69807); (69840, 69864);
   (69872, 69881); (69891, 69926); (69942, 69951); (69956, 69956);
   (69959, 69959); (69968, 70002); (70006, 70006); (70019, 70066);
   (70081, 70084); (70096, 70106); (70108, 70108); (70113, 70132);
   (70144, 70161); (70163, 70187); (70272, 70278); (70280, 70280);
   (70282, 70285); (70287, 70301); (70303, 70312); (70320, 70366);
   (70384, 70393); (70405, 70412); (70415, 70416); (70419, 70440);
   (70442, 70448); (70450, 70451); (70453, 70457); (70461, 70461);
   (70480, 70480); (70493, 70497); (70656, 70708); (70727, 70730);
   (70736, 70745); (70751, 70753); (70784, 70831); (70852, 70853);
   (70855, 70855); (70864, 70873); (71040, 71086); (71128, 71131);
   (71168, 71215); (71236, 71236); (71248, 71257); (71296, 71338);
   (71352, 71352); (71360, 71369); (71424, 71450); (71472, 71483);
   (71488, 71494); (71680, 71723); (71840, 71922); (71935, 71942);
   (71945, 71945); (71948, 71955); (71957, 71958); (71960, 71983);
   (71999, 71999); (72001, 72001); (72016, 72025); (72096, 72103);
   (72106, 72144); (72161, 72161); (72163, 72163); (72192, 72192);
   (72203, 72242); (72250, 72250); (72272, 72272); (72284, 72329);
   (72349, 72349); (72368, 72440); (72704, 72712); (72714, 72750);
   (72768, 72768); (72784, 72812); (72818, 72847); (72960, 72966);
   (72968, 72969); (72971, 73008); (73030, 73030); (73040, 73049);
   (73056, 73061); (73063, 73064); (73066, 73097); (73112, 73112);
   (73120, 73129); (73440, 73458); (73648, 73648); (73664, 73684);
   (73728, 74649); (74752, 74862); (74880, 75075); (77712, 77808);
   (77824, 78894); (82944, 83526); (92160, 92728); (92736, 92766);
   (92768, 92777); (92784, 92862); (92864, 92873); (92880, 92909);
   (92928, 92975); (92992, 92995); (93008, 93017); (93019, 93025);
   (93027, 93047); (93053, 93071); (93760, 93846); (93952, 94026);
   (94032, 94032); (94099, 94111); (94176, 94177); (94179, 94179);
   (94208, 100343); (100352, 101589); (101632, 101640); (110576, 110579);
   (110581, 110587); (110589, 110590); (110592, 110882); (110928, 110930);
   (110948, 110951); (110960, 111355); (113664, 113770); (113776, 113788);
   (113792, 113800); (113808, 113817); (119520, 119539); (119648, 119672);
   (119808, 119892); (119894, 119964); (119966, 119967); (119970, 119970);
   (119973, 119974); (119977, 119980); (119982, 119993); (119995, 119995);
   (119997, 120003); (120005, 120069); (120071, 120074); (120077, 120084);
   (120086, 120092); (120094, 120121); (120123, 120126); (120128, 120132);
   (120134, 120134); (120138, 120144); (120146, 120485); (120488, 120512);
   (120514, 120538); (120540, 120570); (120572, 120596); (120598, 120628);
   (120630, 120654); (120656, 120686); (120688, 120712); (120714, 120744);
   (120746, 120770); (120772, 120779); (120782, 120831); (122624, 122654);
   (123136, 123180); (123191, 123197); (123200, 123209); (123214, 123214);
   (123536, 123565); (123584, 123627); (123632, 123641); (124896, 124902);
   (124904, 124907); (124909, 124910); (124912, 124926); (124928, 125124);
   (125127, 125135); (125184, 125251); (125259, 125259); (125264, 125273);
   (126065, 126123); (126125, 126127); (126129, 126132); (126209, 126253);
   (126255, 126269); (126464, 126467); (126469, 126495); (126497, 126498);
   (126500, 126500); (126503, 126503); (126505, 126514); (126516, 126519);
   (126521, 126521); (126523, 126523); (126530, 126530); (126535, 126535);
   (126537, 126537); (126539, 126539); (126541, 126543); (126545, 126546);
   (126548, 126548); (126551, 126551); (126553, 126553); (126555, 126555);
   (126557, 126557); (126559, 126559); (126561, 126562); (126564, 126564);
   (126567, 126570); (126572, 126578); (126580, 126583); (126585, 126588);
   (126590, 126590); (126592, 126601); (126603, 126619); (126625, 126627);
   (126629, 126633); (126635, 126651); (127232, 127244); (130032, 130041);
   (131072, 173791); (173824, 177976); (177984, 178205); (178208, 183969);
   (183984, 191456); (194560, 195101); (196608, 201546)].

(** The simple lowercase mappings: [(lo, hi, step, to)] maps a code point
    [c] with [lo <= c <= hi] and [c - lo] a multiple of [step] to
    [to + (c - lo)]. *)
Definition lowercase_table : list (N * N * N * N) :=
  [(65, 90, 1, 97); (192, 214, 1, 224); (216, 222, 1, 248);
   (256, 302, 2, 257); (306, 310, 2, 307); (313, 327, 2, 314);
   (330, 374, 2, 331); (376, 376, 1, 255); (377, 381, 2, 378);
   (385, 385, 1, 595); (386, 388, 2, 387); (390, 390, 1, 596);
   (391, 391, 1, 392); (393, 394, 1, 598); (395, 395, 1, 396);
   (398, 398, 1, 477); (399, 399, 1, 601); (400, 400, 1, 603);
   (401, 401, 1, 402); (403, 403, 1, 608); (404, 404, 1, 611);
   (406, 406, 1, 617); (407, 407, 1, 616); (408, 408, 1, 409);
   (412, 412, 1, 623); (413, 413, 1, 626); (415, 415, 1, 629);
   (416, 420, 2, 417); (422, 422, 1, 640); (423, 423, 1, 424);
   (425, 425, 1, 643); (428, 428, 1, 429); (430, 430, 1, 648);
   (431, 431, 1, 432); (433, 434, 1, 650); (435, 437, 2, 436);
   (439, 439, 1, 658); (440, 440, 1, 441); (444, 444, 1, 445);
   (452, 452, 1, 454); (453, 453, 1, 454); (455, 455, 1, 457);
   (456, 456, 1, 457); (458, 458, 1, 460); (459, 475, 2, 460);
   (478, 494, 2, 479); (497, 497, 1, 499); (498, 500, 2, 499);
   (502, 502, 1, 405); (503, 503, 1, 447); (504, 542, 2, 505);
   (544, 544, 1, 414); (546, 562, 2, 547); (570, 570, 1, 11365);
   (571, 571, 1, 572); (573, 573, 1, 410); (574, 574, 1, 11366);
   (577, 577, 1, 578); (579, 579, 1, 384); (580, 580, 1, 649);
   (581, 581, 1, 652); (582, 590, 2, 583); (880, 882, 2, 881);
   (886, 886, 1, 887); (895, 895, 1, 1011); (902, 902, 1, 940);
   (904, 906, 1, 941); (908, 908, 1, 972); (910, 911, 1, 973);
   (913, 929, 1, 945); (932, 939, 1, 964); (975, 975, 1, 983);
   (984, 1006, 2, 985); (1012, 1012, 1, 952); (1015, 1015, 1, 1016);
   (1017, 1017, 1, 1010); (1018, 1018, 1, 1019); (1021, 1023, 1, 891);
   (1024, 1039, 1, 1104); (1040, 1071, 1, 1072); (1120, 1152, 2, 1121);
   (1162, 1214, 2, 1163); (1216, 1216, 1, 1231); (1217, 1229, 2, 1218);
   (1232, 1326, 2, 1233); (1329, 1366, 1, 1377); (4256, 4293, 1, 11520);
   (4295, 4295, 1, 11559); (4301, 4301, 1, 11565); (5024, 5103, 1, 43888);
   (5104, 5109, 1, 5112); (7312, 7354, 1, 4304); (7357, 7359, 1, 4349);
   (7680, 7828, 2, 7681); (7838, 7838, 1, 223); (7840, 7934, 2, 7841);
   (7944, 7951, 1, 7936); (7960, 7965, 1, 7952); (7976, 7983, 1, 7968);
   (7992, 7999, 1, 7984); (8008, 8013, 1, 8000); (8025, 8031, 2, 8017);
   (8040, 8047, 1, 8032); (8072, 8079, 1, 8064); (8088, 8095, 1, 8080);
   (8104, 8111, 1, 8096); (8120, 8121, 1, 8112); (8122, 8123, 1, 8048);
   (8124, 8124, 1, 8115); (8136, 8139, 1, 8050); (8140, 8140, 1, 8131);
   (8152, 8153, 1, 8144); (8154, 8155, 1, 8054); (8168, 8169, 1, 8160);
   (8170, 8171, 1, 8058); (8172, 8172, 1, 8165); (8184, 8185, 1, 8056);
   (8186, 8187, 1, 8060); (8188, 8188, 1, 8179); (8486, 8486, 1, 969);
   (8490, 8490, 1, 107); (8491, 8491, 1, 229); (8498, 8498, 1, 8526);
   (8544, 8559, 1, 8560); (8579, 8579, 1, 8580); (9398, 9423, 1, 9424);
   (11264, 11311, 1, 11312); (11360, 11360, 1, 11361);
   (11362, 11362, 1, 619); (11363, 11363, 1, 7549);
   (11364, 11364, 1, 637); (11367, 11371, 2, 11368);
   (11373, 11373, 1, 593); (11374, 11374, 1, 625); (11375, 11375, 1, 592);
   (11376, 11376, 1, 594); (11378, 11378, 1, 11379);
   (11381, 11381, 1, 11382); (11390, 11391, 1, 575);
   (11392, 11490, 2, 11393); (11499, 11501, 2, 11500);
   (11506, 11506, 1, 11507); (42560, 42604, 2, 42561);
   (42624, 42650, 2, 42625); (42786, 42798, 2, 42787);
   (42802, 42862, 2, 42803); (42873, 42875, 2, 42874);
   (42877, 42877, 1, 7545); (42878, 42886, 2, 42879);
   (42891, 42891, 1, 42892); (42893, 42893, 1, 613);
   (42896, 42898, 2, 42897); (42902, 42920, 2, 42903);
   (42922, 42922, 1, 614); (42923, 42923, 1, 604); (42924, 42924, 1, 609);
   (42925, 42925, 1, 620); (42926, 42926, 1, 618); (42928, 42928, 1, 670);
   (42929, 42929, 1, 647); (42930, 42930, 1, 669);
   (42931, 42931, 1, 43859); (42932, 42946, 2, 42933);
   (42948, 42948, 1, 42900); (42949, 42949, 1, 642);
   (42950, 42950, 1, 7566); (42951, 42953, 2, 42952);
   (42960, 42960, 1, 42961); (42966, 42968, 2, 42967);
   (42997, 42997, 1, 42998); (65313, 65338, 1, 65345);
   (66560, 66599, 1, 66600); (66736, 66771, 1, 66776);
   (66928, 66938, 1, 66967); (66940, 66954, 1, 66979);
   (66956, 66962, 1, 66995); (66964, 66965, 1, 67003);
   (68736, 68786, 1, 68800); (71840, 71871, 1, 71872);
   (93760, 93791, 1, 93792); (125184, 125217, 1, 125218)].

(** The case-ignorable code points. *)
Definition case_ignorable_table : list (N * N) :=
  [(39, 39); (46, 46); (58, 58); (94, 94); (96, 96); (168, 168);
   (173, 173); (175, 175); (180, 180); (183, 184); (688, 879); (884, 885);
   (890, 890); (900, 901); (903, 903); (1155, 1161); (1369, 1369);
   (1375, 1375); (1425, 1469); (1471, 1471); (1473, 1474); (1476, 1477);
   (1479, 1479); (1524, 1524); (1536, 1541); (1552, 1562); (1564, 1564);
   (1600, 1600); (1611, 1631); (1648, 1648); (1750, 1757); (1759, 1768);
   (1770, 1773); (1807, 1807); (1809, 1809); (1840, 1866); (1958, 1968);
   (2027, 2037); (2042, 2042); (2045, 2045); (2070, 2093); (2137, 2139);
   (2184, 2184); (2192, 2193); (2200, 2207); (2249, 2306); (2362, 2362);
   (2364, 2364); (2369, 2376); (2381, 2381); (2385, 2391); (2402, 2403);
   (2417, 2417); (2433, 2433); (2492, 2492); (2497, 2500); (2509, 2509);
   (2530, 2531); (2558, 2558); (2561, 2562); (2620, 2620); (2625, 2626);
   (2631, 2632); (2635, 2637); (2641, 2641); (2672, 2673); (2677, 2677);
   (2689, 2690); (2748, 2748); (2753, 2757); (2759, 2760); (2765, 2765);
   (2786, 2787); (2810, 2815); (2817, 2817); (2876, 2876); (2879, 2879);
   (2881, 2884); (2893, 2893); (2901, 2902); (2914, 2915); (2946, 2946);
   (3008, 3008); (3021, 3021); (3072, 3072); (3076, 3076); (3132, 3132);
   (3134, 3136); (3142, 3144); (3146, 3149); (3157, 3158); (3170, 3171);
   (3201, 3201); (3260, 3260); (3263, 3263); (3270, 3270); (3276, 3277);
   (3298, 3299); (3328, 3329); (3387, 3388); (3393, 3396); (3405, 3405);
   (3426, 3427); (3457, 3457); (3530, 3530); (3538, 3540); (3542, 3542);
   (3633, 3633); (3636, 3642); (3654, 3662); (3761, 3761); (3764, 3772);
   (3782, 3782); (3784, 3789); (3864, 3865); (3893, 3893); (3895, 3895);
   (3897, 3897); (3953, 3966); (3968, 3972); (3974, 3975); (3981, 3991);
   (3993, 4028); (4038, 4038); (4141, 4144); (4146, 4151); (4153, 4154);
   (4157, 4158); (4184, 4185); (4190, 4192); (4209, 4212); (4226, 4226);
   (4229, 4230); (4237, 4237); (4253, 4253); (4348, 4348); (4957, 4959);
   (5906, 5908); (5938, 5939); (5970, 5971); (6002, 6003); (6068, 6069);
   (6071, 6077); (6086, 6086); (6089, 6099); (6103, 6103); (6109, 6109);
   (6155, 6159); (6211, 6211); (6277, 6278); (6313, 6313); (6432, 6434);
   (6439, 6440); (6450, 6450); (6457, 6459); (6679, 6680); (6683, 6683);
   (6742, 6742); (6744, 6750); (6752, 6752); (6754, 6754); (6757, 6764);
   (6771, 6780); (6783, 6783); (6823, 6823); (6832, 6862); (6912, 6915);
   (6964, 6964); (6966, 6970); (6972, 6972); (6978, 6978); (7019, 7027);
   (7040, 7041); (7074, 7077); (7080, 7081); (7083, 7085); (7142, 7142);
   (7144, 7145); (7149, 7149); (7151, 7153); (7212, 7219); (7222, 7223);
   (7288, 7293); (7376, 7378); (7380, 7392); (7394, 7400); (7405, 7405);
   (7412, 7412); (7416, 7417); (7468, 7530); (7544, 7544); (7579, 7679);
   (8125, 8125); (8127, 8129); (8141, 8143); (8157, 8159); (8173, 8175);
   (8189, 8190); (8203, 8207); (8216, 8217); (8228, 8228); (8231, 8231);
   (8234, 8238); (8288, 8292); (8294, 8303); (8305, 8305); (8319, 8319);
   (8336, 8348); (8400, 8432); (11388, 11389); (11503, 11505);
   (11631, 11631); (11647, 11647); (11744, 11775); (11823, 11823);
   (12293, 12293); (12330, 12333); (12337, 12341); (12347, 12347);
   (12441, 12446); (12540, 12542); (40981, 40981); (42232, 42237);
   (42508, 42508); (42607, 42610); (42612, 42621); (42623, 42623);
   (42652, 42655); (42736, 42737); (42752, 42785); (42864, 42864);
   (42888, 42890); (42994, 42996); (43000, 43001); (43010, 43010);
   (43014, 43014); (43019, 43019); (43045, 43046); (43052, 43052);
   (43204, 43205); (43232, 43249); (43263, 43263); (43302, 43309);
   (43335, 43345); (43392, 43394); (43443, 43443); (43446, 43449);
   (43452, 43453); (43471, 43471); (43493, 43494); (43561, 43566);
   (43569, 43570); (43573, 43574); (43587, 43587); (43596, 43596);
   (43632, 43632); (43644, 43644); (43696, 43696); (43698, 43700);
   (43703, 43704); (43710, 43711); (43713, 43713); (43741, 43741);
   (43756, 43757); (43763, 43764); (43766, 43766); (43867, 43871);
   (43881, 43883); (44005, 44005); (44008, 44008); (44013, 44013);
   (64286, 64286); (64434, 64450); (65024, 65039); (65043, 65043);
   (65056, 65071); (65106, 65106); (65109, 65109); (65279, 65279);
   (65287, 65287); (65294, 65294); (65306, 65306); (65342, 65342);
   (65344, 65344); (65392, 65392); (65438, 65439); (65507, 65507);
   (65529, 65531); (66045, 66045); (66272, 66272); (66422, 66426);
   (67456, 67461); (67463, 67504); (67506, 67514); (68097, 68099);
   (68101, 68102); (68108, 68111); (68152, 68154); (68159, 68159);
   (68325, 68326); (68900, 68903); (69291, 69292); (69446, 69456);
   (69506, 69509); (69633, 69633); (69688, 69702); (69744, 69744);
   (69747, 69748); (69759, 69761); (69811, 69814); (69817, 69818);
   (69821, 69821); (69826, 69826); (69837, 69837); (69888, 69890);
   (69927, 69931); (69933, 69940); (70003, 70003); (70016, 70017);
   (70070, 70078); (70089, 70092); (70095, 70095); (70191, 70193);
   (70196, 70196); (70198, 70199); (70206, 70206); (70367, 70367);
   (70371, 70378); (70400, 70401); (70459, 70460); (70464, 70464);
   (70502, 70508); (70512, 70516); (70712, 70719); (70722, 70724);
   (70726, 70726); (70750, 70750); (70835, 70840); (70842, 70842);
   (70847, 70848); (70850, 70851); (71090, 71093); (71100, 71101);
   (71103, 71104); (71132, 71133); (71219, 71226); (71229, 71229);
   (71231, 71232); (71339, 71339); (71341, 71341); (71344, 71349);
   (71351, 71351); (71453, 71455); (71458, 71461); (71463, 71467);
   (71727, 71735); (71737, 71738); (71995, 71996); (71998, 71998);
   (72003, 72003); (72148, 72151); (72154, 72155); (72160, 72160);
   (72193, 72202); (72243, 72248); (72251, 72254); (72263, 72263);
   (72273, 72278); (72281, 72283); (72330, 72342); (72344, 72345);
   (72752, 72758); (72760, 72765); (72767, 72767); (72850, 72871);
   (72874, 72880); (72882, 72883); (72885, 72886); (73009, 73014);
   (73018, 73018); (73020, 73021); (73023, 73029); (73031, 73031);
   (73104, 73105); (73109, 73109); (73111, 73111); (73459, 73460);
   (78896, 78904); (92912, 92916); (92976, 92982); (92992, 92995);
   (94031, 94031); (94095, 94111); (94176, 94177); (94179, 94180);
   (110576, 110579); (110581, 110587); (110589, 110590); (113821, 113822);
   (113824, 113827); (118528, 118573); (118576, 118598); (119143, 119145);
   (119155, 119170); (119173, 119179); (119210, 119213); (119362, 119364);
   (121344, 121398); (121403, 121452); (121461, 121461); (121476, 121476);
   (121499, 121503); (121505, 121519); (122880, 122886); (122888, 122904);
   (122907, 122913); (122915, 122916); (122918, 122922); (123184, 123197);
   (123566, 123566); (123628, 123631); (125136, 125142); (125252, 125259);
   (127995, 127999); (917505, 917505); (917536, 917631); (917760, 917999)].

(** The cased code points that are not case-ignorable. *)
Definition cased_table : list (N * N) :=
  [(65, 90); (97, 122); (170, 170); (181, 181); (186, 186); (192, 214);
   (216, 246); (248, 442); (444, 447); (452, 659); (661, 687); (880, 883);
   (886, 887); (891, 893); (895, 895); (902, 902); (904, 906); (908, 908);
   (910, 929); (931, 1013); (1015, 1153); (1162, 1327); (1329, 1366);
   (1376, 1416); (4256, 4293); (4295, 4295); (4301, 4301); (4304, 4346);
   (4349, 4351); (5024, 5109); (5112, 5117); (7296, 7304); (7312, 7354);
   (7357, 7359); (7424, 7467); (7531, 7543); (7545, 7578); (7680, 7957);
   (7960, 7965); (7968, 8005); (8008, 8013); (8016, 8023); (8025, 8025);
   (8027, 8027); (8029, 8029); (8031, 8061); (8064, 8116); (8118, 8124);
   (8126, 8126); (8130, 8132); (8134, 8140); (8144, 8147); (8150, 8155);
   (8160, 8172); (8178, 8180); (8182, 8188); (8450, 8450); (8455, 8455);
   (8458, 8467); (8469, 8469); (8473, 8477); (8484, 8484); (8486, 8486);
   (8488, 8488); (8490, 8493); (8495, 8500); (8505, 8505); (8508, 8511);
   (8517, 8521); (8526, 8526); (8544, 8575); (8579, 8580); (9398, 9449);
   (11264, 11387); (11390, 11492); (11499, 11502); (11506, 11507);
   (11520, 11557); (11559, 11559); (11565, 11565); (42560, 42605);
   (42624, 42651); (42786, 42863); (42865, 42887); (42891, 42894);
   (42896, 42954); (42960, 42961); (42963, 42963); (42965, 42969);
   (42997, 42998); (43002, 43002); (43824, 43866); (43872, 43880);
   (43888, 43967); (64256, 64262); (64275, 64279); (65313, 65338);
   (65345, 65370); (66560, 66639); (66736, 66771); (66776, 66811);
   (66928, 66938); (66940, 66954); (66956, 66962); (66964, 66965);
   (66967, 66977); (66979, 66993); (66995, 67001); (67003, 67004);
   (68736, 68786); (68800, 68850); (71840, 71903); (93760, 93823);
   (119808, 119892); (119894, 119964); (119966, 119967); (119970, 119970);
   (119973, 119974); (119977, 119980); (119982, 119993); (119995, 119995);
   (119997, 120003); (120005, 120069); (120071, 120074); (120077, 120084);
   (120086, 120092); (120094, 120121); (120123, 120126); (120128, 120132);
   (120134, 120134); (120138, 120144); (120146, 120485); (120488, 120512);
   (120514, 120538); (120540, 120570); (120572, 120596); (120598, 120628);
   (120630, 120654); (120656, 120686); (120688, 120712); (120714, 120744);
   (120746, 120770); (120772, 120779); (122624, 122633); (122635, 122654);
   (125184, 125251); (127280, 127305); (127312, 127337); (127344, 127369)].
Definition in_table (table : list (N * N)) (c : N) : bool :=
  existsb (fun r => (fst r <=? c) && (c <=? snd r)) table.

(** The lowercase mapping of one code point; U+0130 is the only one whose
    lowercase has two code points. *)
Fixpoint lowercase_in (table : list (N * N * N * N)) (c : N) : N :=
  match table with
  | [] => c
  | (lo, hi, step, to) :: rest =>
      if (lo <=? c) && (c <=? hi) && ((c - lo) mod step =? 0)
      then to + (c - lo)
      else lowercase_in rest c
  end.

Definition to_lower_full (c : N) : list N :=
  if c =? 304 then [105; 775] else [lowercase_in lowercase_table c].

End Unicode.

Module PyStr.

(** [c.isspace()], the whitespace [s.strip()] removes. *)
Definition is_space (c : N) : bool :=
  Unicode.in_table Unicode.whitespace_table c.

(** The regex class [\w] in a [str] pattern. *)
Definition is_word (c : N) : bool := Unicode.in_table Unicode.word_table c.

Definition case_ignorable (c : N) : bool :=
  Unicode.in_table Unicode.case_ignorable_table c.

(** Read on a code point that is not case-ignorable. *)
Definition cased (c : N) : bool := Unicode.in_table Unicode.cased_table c.

Fixpoint eqb (a b : str) : bool :=
  match a, b with
  | EmptyStr, EmptyStr => true
  | Str c r, Str c' r' => N.eqb c c' && eqb r r'
  | _, _ => false
  end.

(** [len(s)] *)
Fixpoint len (s : str) : nat :=
  match s with
  | EmptyStr => 0
  | Str _ r => S (len r)
  end.

(** [s.startswith(p)] *)
Fixpoint prefix (p s : str) : bool :=
  match p, s with
  | EmptyStr, _ => true
  | Str c r, Str c' r' => N.eqb c c' && prefix r r'
  | Str _ _, EmptyStr => false
  end.

(** The first code point after the case-ignorable ones is cased. *)
Fixpoint followed_by_cased (s : str) : bool :=
  match s with
  | EmptyStr => false
  | Str c r => if case_ignorable c then followed_by_cased r else cased c
  end.

(** [s.lower()]: every code point by its lowercase mapping, except the
    capital sigma U+03A3, which becomes the final sigma U+03C2 when it
    ends a word (the nearest code point before it that is not
    case-ignorable is cased, which [after_cased] records, and the
    nearest one after it is not) and the small sigma U+03C3 otherwise. *)
Fixpoint lower_from (after_cased : bool) (s : str) : str :=
  match s with
  | EmptyStr => EmptyStr
  | Str c r =>
      let mapped :=
        if (c =? 931)%N then
          [if after_cased && negb (followed_by_cased r)
           then 962%N else 963%N]
        else Unicode.to_lower_full c in
      str_of_list mapped
      ++ lower_from (if case_ignorable c then after_cased else cased c) r
  end.

Definition lower (s : str) : str := lower_from false s.

Definition is_empty (s : str) : bool :=
  match s with EmptyStr => true | _ => false end.

Fixpoint lstrip_by (p : N -> bool) (s : str) : str :=
  match s with
  | EmptyStr => EmptyStr
  | Str c r => if p c then lstrip_by p r else s
  end.

Fixpoint rstrip_by (p : N -> bool) (s : str) : str :=
  match s with
  | EmptyStr => EmptyStr
  | Str c r =>
      let r' := rstrip_by p r in
      if p c && is_empty r' then EmptyStr else Str c r'
  end.

(** [s.strip()] *)
Definition strip (s : str) : str :=
  rstrip_by is_space (lstrip_by is_space s).

(** [s.strip("/")] *)
Definition strip_slash (s : str) : str :=
  let p := N.eqb 47 in rstrip_by p (lstrip_by p s).

(** [sep.join(l)] *)
Fixpoint join (sep : str) (l : list str) : str :=
  match l with
  | [] => EmptyStr
  | [s] => s
  | s :: r => s ++ sep ++ join sep r
  end.

(** [sub in s] *)
Fixpoint contains (sub s : str) : bool :=
  prefix sub s
  || match s with
     | EmptyStr => false
     | Str _ r => contains sub r
     end.

(** [s[:n]] *)
Fixpoint take (n : nat) (s : str) : str :=
  match n, s with
  | S n', Str c r => Str c (take n' r)
  | _, _ => EmptyStr
  end.

(** [re.split(r"\W+", s)]: the fields between the maximal runs of
    non-word characters, the empty fields at both ends included.  [cur]
    is the field being read, reversed; [in_sep] tells that the previous
    character belonged to a separator. *)
Fixpoint re_split_W_aux (s : str) (cur : list N) (in_sep : bool)
  : list str :=
  match s with
  | EmptyStr => [str_of_list (rev cur)]
  | Str c r =>
      if is_word c then re_split_W_aux r (c :: cur) false
      else if in_sep then re_split_W_aux r cur true
      else str_of_list (rev cur) :: re_split_W_aux r [] true
  end.

Definition re_split_W (s : str) : list str :=
  re_split_W_aux s [] false.

(** The truth value of a Python value that is a string or [None]. *)
Definition truthy (o : option str) : bool :=
  match o with
  | Some s => negb (is_empty s)
  | None => false
  end.

(** [x or y]: the first operand when it is truthy, the second otherwise. *)
Definition or_else (o : option str) (y : option str) : option str :=
  if truthy o then o else y.

(** The string of a value, [dflt] for [None]. *)
Definition get_or (o : option str) (dflt : str) : str :=
  match o with Some s => s | None => dflt end.

(** [f"{v}"]: [None] is written ["None"]. *)
Definition fmt (v : option str) : str :=
  match v with Some s => s | None => "None" end.

End PyStr.

(* ================================================================= *)
(** ** Python dictionaries: insertion-ordered association lists *)

Module Dict.
Section Dict.
Context {K V : Type} (keq : K -> K -> bool).

Definition t := list (K * V).

(** [d.get(k)] *)
Fixpoint get (k : K) (d : t) : option V :=
  match d with
  | [] => None
  | (k', v) :: r => if keq k k' then Some v else get k r
  end.

(** [k in d] *)
Definition mem (k : K) (d : t) : bool :=
  match get k d with Some _ => true | None => false end.

(** [d[k] = v]: an existing key keeps its position, a new one goes last. *)
Fixpoint set (k : K) (v : V) (d : t) : t :=
  match d with
  | [] => [(k, v)]
  | (k', v') :: r => if keq k k' then (k, v) :: r else (k', v') :: set k v r
  end.

Definition remove (k : K) (d : t) : t :=
  filter (fun kv => negb (keq k (fst kv))) d.

(** [del d[k]]; [None] stands for the [KeyError] of a missing key. *)
Definition del (k : K) (d : t) : option t :=
  if mem k d then Some (remove k d) else None.

Definition keys (d : t) : list K := map fst d.
Definition values (d : t) : list V := map snd d.

End Dict.
End Dict.

(* ================================================================= *)
(** ** [list.sort(key=..., reverse=True)]

  Python's sort is stable and compares keys with [<] only; the stable
  descending order of a list is unique, and insertion computes it. *)

Section PySort.
Context {A K : Type} (key : A -> K) (lt : K -> K -> bool).

Fixpoint insert_desc (x : A) (l : list A) : list A :=
  match l with
  | [] => [x]
  | y :: l' =>
      if lt (key x) (key y) then y :: insert_desc x l' else x :: y :: l'
  end.

Definition sort_desc (l : list A) : list A := fold_right insert_desc [] l.

(** [a] may stand before [b] in a descending list. *)
Definition not_below (a b : A) : Prop := lt (key a) (key b) = false.

End PySort.

(* ================================================================= *)
(** ** Payloads and metadata records *)

(** What a dict holds under a key that the service reads as text: the key
    may be missing, and its value may be [None]. *)
Inductive Field :=
| Missing
| Null
| Text (s : str).

(** [d.get(key, default)] and [d.get(key)]: a string or [None]. *)
Definition field_get (f : Field) (default : option str) : option str :=
  match f with
  | Missing => default
  | Null => None
  | Text s => Some s
  end.

(** [tool["parsed_description"]]: a dict read at "main", "args", "summary". *)
Record ParsedDescription := {
  pd_main : Field;
  pd_args : Field;
  pd_summary : Field
}.

(** One element of [server_info["tool_list"]].  The parsed description is
    [None] when the key is missing or holds [None] or an empty dict; the
    schema is carried around, never inspected. *)
Record Tool := {
  tool_name : Field;
  tool_description : Field;
  tool_parsed_description : option ParsedDescription;
  tool_schema : option str
}.

(** [server_info : Dict[str, Any]], with the keys the service reads.  A
    key other than the three text keys is [None] when it is missing, and
    holds a value of its type otherwise.  The keys the service only copies
    and compares are the dict [si_other]. *)
Record ServerInfo := {
  si_server_name : Field;
  si_description : Field;
  si_tags : option (list str);
  si_tool_list : option (list Tool);
  si_num_tools : option Z;
  si_path : Field;
  si_entity_type : option str;
  si_is_enabled : option bool;
  si_other : list (str * str)
}.

Record Skill := {
  skill_name : str;
  skill_description : str
}.

(** Modelled from the spec: the [AgentCard] model of
    [registry/schemas/agent_models.py], which is not among the sources
    (spec section 3, AgentDescriptor, and the keys [search_mixed] reads from
    the dumped card).  [model_dump] is the identity on this record. *)
Record AgentCard := {
  ac_name : str;
  ac_description : str;
  ac_skills : list Skill;
  ac_tags : list str;
  ac_visibility : option str;
  ac_trust_level : option str;
  ac_is_enabled : option bool;
  ac_other : list (str * str)
}.

(** A value of [metadata_store]: the dict with keys "id", "entity_type",
    "text_for_embedding" and "full_server_info" or "full_agent_card". *)
Record Entry := {
  entry_id : Z;
  entity_type : str;
  text_for_embedding : str;
  full_server_info : option ServerInfo;
  full_agent_card : option AgentCard
}.

Definition option_eq_dec {A} (dec : forall x y : A, {x = y} + {x <> y})
  : forall x y : option A, {x = y} + {x <> y}.
Proof. decide equality. Defined.

Definition pair_eq_dec {A B} (da : forall x y : A, {x = y} + {x <> y})
  (db : forall x y : B, {x = y} + {x <> y})
  : forall x y : A * B, {x = y} + {x <> y}.
Proof. decide equality. Defined.

Definition Field_eq_dec : forall x y : Field, {x = y} + {x <> y}.
Proof. decide equality. apply str_eq_dec. Defined.

Definition ParsedDescription_eq_dec
  : forall x y : ParsedDescription, {x = y} + {x <> y}.
Proof. decide equality; apply Field_eq_dec. Defined.

Definition Tool_eq_dec : forall x y : Tool, {x = y} + {x <> y}.
Proof.
  decide equality;
    first [ apply Field_eq_dec
          | apply option_eq_dec, str_eq_dec
          | apply option_eq_dec, ParsedDescription_eq_dec ].
Defined.

Definition ServerInfo_eq_dec : forall x y : ServerInfo, {x = y} + {x <> y}.
Proof.
  decide equality;
    first [ apply Field_eq_dec
          | apply option_eq_dec, str_eq_dec
          | apply option_eq_dec, Bool.bool_dec
          | apply option_eq_dec, Z.eq_dec
          | apply option_eq_dec, list_eq_dec, str_eq_dec
          | apply option_eq_dec, list_eq_dec, Tool_eq_dec
          | apply list_eq_dec, pair_eq_dec; apply str_eq_dec ].
Defined.

Definition Skill_eq_dec : forall x y : Skill, {x = y} + {x <> y}.
Proof. decide equality; apply str_eq_dec. Defined.

Definition AgentCard_eq_dec : forall x y : AgentCard, {x = y} + {x <> y}.
Proof.
  decide equality;
    first [ apply str_eq_dec
          | apply option_eq_dec, str_eq_dec
          | apply option_eq_dec, Bool.bool_dec
          | apply list_eq_dec, str_eq_dec
          | apply list_eq_dec, Skill_eq_dec
          | apply list_eq_dec, pair_eq_dec; apply str_eq_dec ].
Defined.

(** [a == b] on two dicts from strings to strings: the same keys with the
    same values, whatever the order of the keys. *)
Definition dict_eqb (a b : list (str * str)) : bool :=
  forallb
    (fun k =>
       if option_eq_dec str_eq_dec
            (Dict.get PyStr.eqb k a) (Dict.get PyStr.eqb k b)
       then true else false)
    (Dict.keys a ++ Dict.keys b)%list.

(** The payload with its other keys left out. *)
Definition server_info_read (x : ServerInfo) : ServerInfo :=
  {| si_server_name := si_server_name x;
     si_description := si_description x;
     si_tags := si_tags x;
     si_tool_list := si_tool_list x;
     si_num_tools := si_num_tools x;
     si_path := si_path x;
     si_entity_type := si_entity_type x;
     si_is_enabled := si_is_enabled x;
     si_other := [] |}.

Definition agent_card_read (x : AgentCard) : AgentCard :=
  {| ac_name := ac_name x;
     ac_description := ac_description x;
     ac_skills := ac_skills x;
     ac_tags := ac_tags x;
     ac_visibility := ac_visibility x;
     ac_trust_level := ac_trust_level x;
     ac_is_enabled := ac_is_enabled x;
     ac_other := [] |}.

(** [a == b] on two payloads, as Python compares dicts: key by key. *)
Definition ServerInfo_eqb (a b : ServerInfo) : bool :=
  (if ServerInfo_eq_dec (server_info_read a) (server_info_read b)
   then true else false)
  && dict_eqb (si_other a) (si_other b).

Definition AgentCard_eqb (a b : AgentCard) : bool :=
  (if AgentCard_eq_dec (agent_card_read a) (agent_card_read b)
   then true else false)
  && dict_eqb (ac_other a) (ac_other b).

(** [a != b] on optional payloads ([dict.get] of a missing key is [None]). *)
Definition differs {A} (eqb : A -> A -> bool) (a b : option A) : bool :=
  match a, b with
  | Some x, Some y => negb (eqb x y)
  | None, None => false
  | _, _ => true
  end.

(* ================================================================= *)
(** ** The vector index

    [faiss.IndexIDMap(faiss.IndexFlatL2(d))] is a library object.  Its
    content is the list of the (id, vector) pairs added and not removed;
    [add_with_ids] refuses a vector whose length is not [d]. *)

Definition Vector := list float.

Record Index := {
  index_d : nat;
  index_vectors : list (Z * Vector)
}.

Definition ntotal (ix : Index) : nat := List.length (index_vectors ix).

(** [index.remove_ids([i])]: the number removed and the index left. *)
Definition remove_ids (i : Z) (ix : Index) : nat * Index :=
  let keep := filter (fun iv => negb (Z.eqb (fst iv) i)) (index_vectors ix) in
  (ntotal ix - List.length keep,
   {| index_d := index_d ix; index_vectors := keep |}).

(** [index.add_with_ids([v], [i])]; [None] when the dimension is wrong. *)
Definition add_with_ids (v : Vector) (i : Z) (ix : Index) : option Index :=
  if Nat.eqb (List.length v) (index_d ix)
  then Some {| index_d := index_d ix;
               index_vectors := (index_vectors ix ++ [(i, v)])%list |}
  else None.

(* ================================================================= *)
(** ** The service state and its monad *)

(** [EmbeddingsClient.encode([text])[0]]; [None] when the call raises. *)
Definition EmbeddingsClient := str -> option Vector.

Record FaissService := {
  embedding_model : option EmbeddingsClient;
  faiss_index : option Index;
  metadata_store : list (str * Entry);
  next_id_counter : Z
}.

(** [FaissService()] *)
Definition __init__ : FaissService :=
  {| embedding_model := None; faiss_index := None;
     metadata_store := []; next_id_counter := 0 |}.

Inductive level := INFO | DEBUG | WARNING | ERROR.

(** What a call does to the outside. *)
Inductive event :=
| EvEncode (text : str)
| EvSave (ix : Index) (metadata : list (str * Entry)) (next_id : Z)
| EvLog (lvl : level) (msg : str).

Inductive exn :=
| ValueError (msg : str)
| RuntimeError (msg : str)
| KeyError (key : str)
| AttributeError
| EncodeError
| IndexError
| OSError.

Record Run (A : Type) := mkRun {
  outcome : exn + A;
  post : FaissService;
  effects : list event
}.
Arguments mkRun {A}.
Arguments outcome {A}.
Arguments post {A}.
Arguments effects {A}.

Definition M (A : Type) := FaissService -> Run A.

Definition ret {A} (a : A) : M A := fun s => mkRun (inr a) s [].

Definition raise {A} (e : exn) : M A := fun s => mkRun (inl e) s [].

(** The effects of a run, put after those already made. *)
Definition after {A} (before : list event) (r : Run A) : Run A :=
  match r with
  | mkRun o s' t => mkRun o s' (before ++ t)%list
  end.

Definition bind {A B} (m : M A) (k : A -> M B) : M B :=
  fun s =>
    match m s with
    | mkRun (inl e) s' t => mkRun (inl e) s' t
    | mkRun (inr a) s' t => after t (k a s')
    end.

(** [try: m  except Exception as e: h e] *)
Definition try_except {A} (m : M A) (h : exn -> M A) : M A :=
  fun s =>
    match m s with
    | mkRun (inl e) s' t => after t (h e s')
    | mkRun (inr a) s' t => mkRun (inr a) s' t
    end.

Notation "x <- m ;; k" := (bind m (fun x => k))
  (at level 61, m at next level, right associativity).
Notation "m ;;; k" := (bind m (fun _ => k))
  (at level 61, right associativity).

Definition get_self : M FaissService := fun s => mkRun (inr s) s [].

Definition emit (e : event) : M unit := fun s => mkRun (inr tt) s [e].

Definition log (lvl : level) (msg : str) : M unit := emit (EvLog lvl msg).

Definition set_metadata_store (d : list (str * Entry)) : M unit :=
  fun s => mkRun (inr tt)
    {| embedding_model := embedding_model s; faiss_index := faiss_index s;
       metadata_store := d; next_id_counter := next_id_counter s |} [].

Definition set_next_id_counter (n : Z) : M unit :=
  fun s => mkRun (inr tt)
    {| embedding_model := embedding_model s; faiss_index := faiss_index s;
       metadata_store := metadata_store s; next_id_counter := n |} [].

Definition set_faiss_index (ix : Index) : M unit :=
  fun s => mkRun (inr tt)
    {| embedding_model := embedding_model s; faiss_index := Some ix;
       metadata_store := metadata_store s; next_id_counter := next_id_counter s |} [].

(** [self.embedding_model.encode([text])] followed by [embedding[0]]. *)
Definition encode (text : str) : M Vector :=
  s <- get_self ;;
  match embedding_model s with
  | None => raise AttributeError
  | Some model =>
      emit (EvEncode text) ;;;
      match model text with
      | Some v => ret v
      | None => raise EncodeError
      end
  end.

(** [self.faiss_index.remove_ids(np.array([i]))] *)
Definition index_remove_ids (i : Z) : M nat :=
  s <- get_self ;;
  match faiss_index s with
  | None => raise AttributeError
  | Some ix =>
      let '(n, ix') := remove_ids i ix in
      set_faiss_index ix' ;;; ret n
  end.

(** [self.faiss_index.add_with_ids(v, np.array([i]))] *)
Definition index_add_with_ids (v : Vector) (i : Z) : M unit :=
  s <- get_self ;;
  match faiss_index s with
  | None => raise AttributeError
  | Some ix =>
      match add_with_ids v i ix with
      | Some ix' => set_faiss_index ix'
      | None => raise IndexError
      end
  end.

(* ================================================================= *)
(** ** Rendering the text to embed *)

Definition nl : str := Str 10 EmptyStr.

Definition no_parsed_description : ParsedDescription :=
  {| pd_main := Missing; pd_args := Missing; pd_summary := Missing |}.

(** [tool.get("parsed_description", {}) or {}] *)
Definition parsed_description (tool : Tool) : ParsedDescription :=
  match tool_parsed_description tool with
  | Some pd => pd
  | None => no_parsed_description
  end.

(** The body of the loop over [tool_list] in [_get_text_for_embedding]. *)
Definition tool_snippet (tool : Tool) : str :=
  let tool_name := field_get (tool_name tool) (Some "") in
  let pd := parsed_description tool in
  let tool_desc :=
    PyStr.or_else (field_get (pd_main pd) None)
      (field_get (tool_description tool) (Some "")) in
  let tool_args := field_get (pd_args pd) (Some "") in
  PyStr.strip
    ("Tool: " ++ PyStr.fmt tool_name
     ++ ". Description: " ++ PyStr.fmt tool_desc
     ++ ". Args: " ++ PyStr.fmt tool_args).

(** [server_info.get("tool_list") or []] *)
Definition tools_of (server_info : ServerInfo) : list Tool :=
  match si_tool_list server_info with
  | Some l => l
  | None => []
  end.

Definition _get_text_for_embedding (server_info : ServerInfo) : str :=
  let name := field_get (si_server_name server_info) (Some "") in
  let description := field_get (si_description server_info) (Some "") in
  let tags := match si_tags server_info with Some l => l | None => [] end in
  let tag_string := PyStr.join ", " tags in
  let tool_list := tools_of server_info in
  let tool_snippets := map tool_snippet tool_list in
  let tools_section := PyStr.join nl tool_snippets in
  PyStr.strip
    ("Name: " ++ PyStr.fmt name ++ nl
     ++ "Description: " ++ PyStr.fmt description ++ nl
     ++ "Tags: " ++ tag_string ++ nl
     ++ "Tools:" ++ nl ++ tools_section).

Definition _get_text_for_agent (agent_card : AgentCard) : str :=
  let name := ac_name agent_card in
  let description := ac_description agent_card in
  let skills_text :=
    match ac_skills agent_card with
    | [] => ""
    | skills =>
        let skill_names := map skill_name skills in
        let skill_descriptions :=
          map (fun skill => skill_name skill ++ ": " ++ skill_description skill)
              skills in
        ("Skills: " ++ PyStr.join ", " skill_names)
        ++ nl ++ "Skill Details: " ++ PyStr.join " | " skill_descriptions
    end in
  let tags := ac_tags agent_card in
  let tag_string :=
    match tags with [] => "" | _ => PyStr.join ", " tags end in
  let text_parts :=
    List.app ["Name: " ++ name; "Description: " ++ description]
      (List.app (if PyStr.is_empty skills_text then [] else [skills_text])
         (if PyStr.is_empty tag_string then [] else ["Tags: " ++ tag_string])) in
  PyStr.join nl text_parts.

(* ================================================================= *)
(** ** Index management: upsert, remove, save *)

(** [save_data].  Writing the two files is the [EvSave] effect; a failing
    write is only logged by the source and leaves the state as it is. *)
Definition save_data : M unit :=
  self <- get_self ;;
  match faiss_index self with
  | None => log ERROR "FAISS index is not initialized. Cannot save."
  | Some ix =>
      log INFO "Saving FAISS index" ;;;
      log INFO "Saving FAISS metadata" ;;;
      emit (EvSave ix (metadata_store self) (next_id_counter self)) ;;;
      log INFO "FAISS data saved successfully."
  end.

(** [server_info.copy()] with ["is_enabled"] set. *)
Definition enrich (server_info : ServerInfo) (is_enabled : bool) : ServerInfo :=
  {| si_server_name := si_server_name server_info;
     si_description := si_description server_info;
     si_tags := si_tags server_info;
     si_tool_list := si_tool_list server_info;
     si_num_tools := si_num_tools server_info;
     si_path := si_path server_info;
     si_entity_type := si_entity_type server_info;
     si_is_enabled := Some is_enabled;
     si_other := si_other server_info |}.

Definition is_some {A} (o : option A) : bool :=
  match o with Some _ => true | None => false end.

Definition add_or_update_service (service_path : str)
  (server_info : ServerInfo) (is_enabled : bool) : M unit :=
  self <- get_self ;;
  if negb (is_some (embedding_model self) && is_some (faiss_index self)) then
    log ERROR "Embedding model or FAISS index not initialized. Cannot add/update service in FAISS."
  else
    log INFO "Attempting to add/update service in FAISS." ;;;
    let text_to_embed := _get_text_for_embedding server_info in
    let existing_entry :=
      Dict.get PyStr.eqb service_path (metadata_store self) in
    plan <-
      match existing_entry with
      | Some entry =>
          if PyStr.eqb (text_for_embedding entry) text_to_embed then
            log INFO "Text for embedding has not changed." ;;;
            ret (entry_id entry, false)
          else
            log INFO "Text for embedding has changed. Re-embedding required." ;;;
            ret (entry_id entry, true)
      | None =>
          let current := next_id_counter self in
          set_next_id_counter (next_id_counter self + 1) ;;;
          log INFO "New service. Assigning new FAISS ID." ;;;
          ret (current, true)
      end ;;
    let '(current_faiss_id, needs_new_embedding) := plan in
    embedded <-
      (if needs_new_embedding then
         try_except
           (embedding <- encode text_to_embed ;;
            (if is_some existing_entry then
               try_except
                 (num_removed <- index_remove_ids current_faiss_id ;;
                  if (0 <? num_removed)%nat
                  then log INFO "Removed old vector(s)."
                  else log INFO "No old vector found during update.")
                 (fun _ => log WARNING "Issue removing FAISS ID. Proceeding to add.")
             else ret tt) ;;;
            index_add_with_ids embedding current_faiss_id ;;;
            log INFO "Added/Updated vector." ;;;
            ret true)
           (fun _ =>
              log ERROR "Error encoding or adding embedding." ;;;
              ret false)
       else ret true) ;;
    if negb embedded then ret tt
    else
      let enriched_server_info := enrich server_info is_enabled in
      if negb (is_some existing_entry)
         || needs_new_embedding
         || differs ServerInfo_eqb
              (match existing_entry with
               | Some entry => full_server_info entry
               | None => None
               end)
              (Some enriched_server_info)
      then
        now_self <- get_self ;;
        set_metadata_store
          (Dict.set PyStr.eqb service_path
             {| entry_id := current_faiss_id;
                entity_type :=
                  PyStr.get_or (si_entity_type server_info) "mcp_server";
                text_for_embedding := text_to_embed;
                full_server_info := Some enriched_server_info;
                full_agent_card := None |}
             (metadata_store now_self)) ;;;
        log DEBUG "Updated faiss_metadata_store." ;;;
        save_data
      else
        log DEBUG "No changes to FAISS vector or enriched full_server_info. Skipping save.".

Definition remove_service (service_path : str) : M unit :=
  try_except
    (self <- get_self ;;
     if negb (Dict.mem PyStr.eqb service_path (metadata_store self)) then
       log WARNING "Service not found in FAISS metadata store"
     else
       (if is_some (faiss_index self)
        then log INFO "Removing service from index"
        else ret tt) ;;;
       match Dict.del PyStr.eqb service_path (metadata_store self) with
       | None => raise (KeyError service_path)
       | Some d => set_metadata_store d
       end ;;;
       log INFO "Removed service from FAISS metadata store" ;;;
       save_data)
    (fun _ => log ERROR "Failed to remove service from FAISS").

Definition add_or_update_agent (agent_path : str)
  (agent_card : AgentCard) (is_enabled : bool) : M unit :=
  self <- get_self ;;
  if negb (is_some (embedding_model self) && is_some (faiss_index self)) then
    log ERROR "Embedding model or FAISS index not initialized. Cannot add/update agent in FAISS."
  else
    log INFO "Attempting to add/update agent in FAISS." ;;;
    let text_to_embed := _get_text_for_agent agent_card in
    let existing_entry :=
      Dict.get PyStr.eqb agent_path (metadata_store self) in
    plan <-
      match existing_entry with
      | Some entry =>
          if PyStr.eqb (text_for_embedding entry) text_to_embed then
            log INFO "Text for embedding has not changed." ;;;
            ret (entry_id entry, false)
          else
            log INFO "Text for embedding has changed. Re-embedding required." ;;;
            ret (entry_id entry, true)
      | None =>
          let current := next_id_counter self in
          set_next_id_counter (next_id_counter self + 1) ;;;
          log INFO "New agent. Assigning new FAISS ID." ;;;
          ret (current, true)
      end ;;
    let '(current_faiss_id, needs_new_embedding) := plan in
    embedded <-
      (if needs_new_embedding then
         try_except
           (embedding <- encode text_to_embed ;;
            (if is_some existing_entry then
               try_except
                 (num_removed <- index_remove_ids current_faiss_id ;;
                  if (0 <? num_removed)%nat
                  then log INFO "Removed old vector(s)."
                  else log INFO "No old vector found during update.")
                 (fun _ => log WARNING "Issue removing FAISS ID. Proceeding to add.")
             else ret tt) ;;;
            index_add_with_ids embedding current_faiss_id ;;;
            log INFO "Added/Updated vector." ;;;
            ret true)
           (fun _ =>
              log ERROR "Error encoding or adding embedding." ;;;
              ret false)
       else ret true) ;;
    if negb embedded then ret tt
    else
      let agent_card_dict := agent_card in
      if negb (is_some existing_entry)
         || needs_new_embedding
         || differs AgentCard_eqb
              (match existing_entry with
               | Some entry => full_agent_card entry
               | None => None
               end)
              (Some agent_card_dict)
      then
        now_self <- get_self ;;
        set_metadata_store
          (Dict.set PyStr.eqb agent_path
             {| entry_id := current_faiss_id;
                entity_type := "a2a_agent";
                text_for_embedding := text_to_embed;
                full_server_info := None;
                full_agent_card := Some agent_card_dict |}
             (metadata_store now_self)) ;;;
        log DEBUG "Updated faiss_metadata_store for agent." ;;;
        save_data
      else
        log DEBUG "No changes to FAISS vector or agent card. Skipping save.".

Definition remove_agent (agent_path : str) : M unit :=
  try_except
    (self <- get_self ;;
     if negb (Dict.mem PyStr.eqb agent_path (metadata_store self)) then
       log WARNING "Agent not found in FAISS metadata store"
     else
       (if is_some (faiss_index self)
        then log INFO "Removing agent from index"
        else ret tt) ;;;
       match Dict.del PyStr.eqb agent_path (metadata_store self) with
       | None => raise (KeyError agent_path)
       | Some d => set_metadata_store d
       end ;;;
       log INFO "Removed agent from FAISS metadata store" ;;;
       save_data)
    (fun _ => log ERROR "Failed to remove agent from FAISS").

(** [remove_entity]: the agent removal first, the service removal when it
    raises. *)
Definition remove_entity (entity_path : str) : M unit :=
  try_except
    (remove_agent entity_path)
    (fun _ =>
       try_except
         (remove_service entity_path)
         (fun _ => log WARNING "Could not remove entity")).

(* ================================================================= *)
(** ** Relevance and the tool matcher *)

(** The builtins [min(a, b)] and [max(a, b)]: the first argument unless
    the second is strictly smaller (resp. larger). *)
Definition py_min (a b : float) : float := if (b <? a)%float then b else a.
Definition py_max (a b : float) : float := if (a <? b)%float then b else a.

(** [_distance_to_relevance]: a zero denominator raises
    [ZeroDivisionError], which the [except] turns into [0.0]. *)
Definition _distance_to_relevance (distance : float) : float :=
  let denominator := (1 + distance)%float in
  if (denominator =? 0)%float then 0%float
  else
    let relevance := (1 / denominator)%float in
    py_max 0 (py_min 1 relevance).

(** One element of the list [_extract_matching_tools] returns.  The name
    is [None] when the tool holds [None] under "name". *)
Record ToolMatch := {
  tm_tool_name : option str;
  tm_description : str;
  tm_match_context : str;
  tm_schema : option str;
  tm_raw_score : Q
}.

(** [[token for token in re.split(r"\W+", query.lower()) if token]] *)
Definition query_tokens (query : str) : list str :=
  filter (fun token => negb (PyStr.is_empty token))
         (PyStr.re_split_W (PyStr.lower query)).

(** [main or description or summary or ""] *)
Definition matcher_tool_desc (tool : Tool) : str :=
  let pd := parsed_description tool in
  PyStr.get_or
    (PyStr.or_else (field_get (pd_main pd) None)
       (PyStr.or_else (field_get (tool_description tool) None)
          (PyStr.or_else (field_get (pd_summary pd) None) (Some ""))))
    "".

Definition searchable_text (tool : Tool) : str :=
  let tool_name := field_get (tool_name tool) (Some "") in
  let tool_desc := matcher_tool_desc tool in
  let tool_args :=
    field_get (pd_args (parsed_description tool)) (Some "") in
  PyStr.lower
    (PyStr.fmt tool_name ++ " " ++ tool_desc ++ " " ++ PyStr.fmt tool_args).

(** [sum(1 for token in tokens if token in searchable_text)] *)
Definition matches_found (tokens : list str) (text : str) : nat :=
  List.length (filter (fun token => PyStr.contains token text) tokens).

(** [matches_found / len(tokens)], as the exact fraction. *)
Definition coverage_of (found total : nat) : Q :=
  Qmake (Z.of_nat found) (Pos.of_nat total).

Definition Qltb (a b : Q) : bool := negb (Qle_bool b a).

(** The body of the loop over the tools: the pair appended to [matches],
    or nothing when the tool is skipped. *)
Definition match_tool (tokens : list str) (tool : Tool)
  : list (Q * ToolMatch) :=
  let tool_desc := matcher_tool_desc tool in
  let tool_args :=
    field_get (pd_args (parsed_description tool)) (Some "") in
  let text := searchable_text tool in
  if PyStr.is_empty (PyStr.strip text) then []
  else
    let found := matches_found tokens text in
    if (found =? 0)%nat then []
    else
      let coverage := coverage_of found (List.length tokens) in
      [(coverage,
        {| tm_tool_name := field_get (tool_name tool) (Some "");
           tm_description := tool_desc;
           tm_match_context :=
             PyStr.take 180
               (PyStr.get_or
                  (PyStr.or_else (Some tool_desc)
                     (PyStr.or_else tool_args (Some ""))) "");
           tm_schema := tool_schema tool;
           tm_raw_score := coverage |})].

Definition _extract_matching_tools (query : str) (server_info : ServerInfo)
  : list ToolMatch :=
  match tools_of server_info with
  | [] => []
  | tools =>
      match query_tokens query with
      | [] => []
      | tokens =>
          let matches := flat_map (match_tool tokens) tools in
          map snd (sort_desc fst Qltb matches)
      end
  end.

(* ================================================================= *)
(** ** Mixed search *)

Record MatchingTool := {
  mt_tool_name : option str;
  mt_description : str;
  mt_relevance_score : float;
  mt_match_context : str
}.

Record ServerResult := {
  sr_entity_type : str;
  sr_path : str;
  sr_server_name : option str;
  sr_description : option str;
  sr_tags : list str;
  sr_num_tools : Z;
  sr_is_enabled : bool;
  sr_relevance_score : float;
  sr_match_context : option str;
  sr_matching_tools : list MatchingTool
}.

Record ToolResult := {
  tr_entity_type : str;
  tr_server_path : str;
  tr_server_name : option str;
  tr_tool_name : option str;
  tr_description : str;
  tr_match_context : str;
  tr_relevance_score : float
}.

Record AgentResult := {
  ar_entity_type : str;
  ar_path : str;
  ar_agent_name : str;
  ar_description : str;
  ar_tags : list str;
  ar_skills : list str;
  ar_visibility : str;
  ar_trust_level : option str;
  ar_is_enabled : bool;
  ar_relevance_score : float;
  ar_match_context : str;
  ar_agent_card : AgentCard
}.

(** The dict [search_mixed] returns. *)
Record SearchResults := {
  servers : list ServerResult;
  tools : list ToolResult;
  agents : list AgentResult
}.

(** The float a coverage stands for: the quotient of its two integers. *)
Definition float_of_Q (q : Q) : float :=
  (PrimFloat.of_uint63 (Uint63.of_Z (Qnum q))
   / PrimFloat.of_uint63 (Uint63.of_Z (Zpos (Qden q))))%float.

(** [min(1.0, (relevance + tool["raw_score"]) / 2)] *)
Definition composite_score (relevance : float) (raw_score : Q) : float :=
  py_min 1 ((relevance + float_of_Q raw_score) / 2)%float.

Definition allowed_entity_types : list str :=
  ["mcp_server"; "tool"; "a2a_agent"].

(** [set(entity_types or [...]) & allowed], all three when that is empty. *)
Definition entity_filter_of (entity_types : option (list str)) : list str :=
  let requested :=
    match entity_types with
    | Some (t :: l) => t :: l
    | _ => allowed_entity_types
    end in
  match filter (fun t => existsb (PyStr.eqb t) requested) allowed_entity_types with
  | [] => allowed_entity_types
  | f => f
  end.

Definition in_filter (t : str) (entity_filter : list str) : bool :=
  existsb (PyStr.eqb t) entity_filter.

(** [{entry.get("id"): path for path, entry in self.metadata_store.items()}] *)
Definition id_to_path_of (metadata : list (str * Entry)) : list (Z * str) :=
  fold_left (fun acc pe => Dict.set Z.eqb (entry_id (snd pe)) (fst pe) acc)
            metadata [].

Definition Collected : Type :=
  list ServerResult * list ToolResult * list AgentResult.

(** The body of the loop over the hits of the index search. *)
Definition visit_hit (query : str) (entity_filter : list str)
  (metadata : list (str * Entry)) (id_to_path : list (Z * str))
  (acc : Collected) (hit : float * Z) : Collected :=
  let '(server_results, tool_results, agent_results) := acc in
  let '(distance, faiss_id) := hit in
  if Z.eqb faiss_id (-1) then acc
  else
    match Dict.get Z.eqb faiss_id id_to_path with
    | None => acc
    | Some path =>
        if PyStr.is_empty path then acc
        else
          match Dict.get PyStr.eqb path metadata with
          | None => acc
          | Some metadata_entry =>
              let relevance := _distance_to_relevance distance in
              if PyStr.eqb (entity_type metadata_entry) "mcp_server" then
                match full_server_info metadata_entry with
                | None => acc
                | Some server_info =>
                    let tags :=
                      match si_tags server_info with
                      | Some l => l
                      | None => []
                      end in
                    let match_context :=
                      PyStr.or_else
                        (field_get (si_description server_info) None)
                        (PyStr.or_else (Some (PyStr.join ", " tags))
                           (field_get (si_path server_info) None)) in
                    let matching_tools :=
                      if in_filter "tool" entity_filter
                      then firstn 5 (_extract_matching_tools query server_info)
                      else [] in
                    let server_name :=
                      field_get (si_server_name server_info)
                        (Some (PyStr.strip_slash path)) in
                    let server_results :=
                      if in_filter "mcp_server" entity_filter then
                        (server_results ++
                         [{| sr_entity_type := "mcp_server";
                             sr_path := path;
                             sr_server_name := server_name;
                             sr_description :=
                               field_get (si_description server_info)
                                 (Some "");
                             sr_tags := tags;
                             sr_num_tools :=
                               match si_num_tools server_info with
                               | Some n => n
                               | None => 0%Z
                               end;
                             sr_is_enabled :=
                               match si_is_enabled server_info with
                               | Some b => b
                               | None => false
                               end;
                             sr_relevance_score := relevance;
                             sr_match_context := match_context;
                             sr_matching_tools :=
                               map (fun tool =>
                                      {| mt_tool_name := tm_tool_name tool;
                                         mt_description := tm_description tool;
                                         mt_relevance_score :=
                                           composite_score relevance
                                             (tm_raw_score tool);
                                         mt_match_context :=
                                           tm_match_context tool |})
                                   matching_tools |}])%list
                      else server_results in
                    let tool_results :=
                      if in_filter "tool" entity_filter then
                        (tool_results ++
                         map (fun tool =>
                                {| tr_entity_type := "tool";
                                   tr_server_path := path;
                                   tr_server_name := server_name;
                                   tr_tool_name := tm_tool_name tool;
                                   tr_description := tm_description tool;
                                   tr_match_context := tm_match_context tool;
                                   tr_relevance_score :=
                                     composite_score relevance
                                       (tm_raw_score tool) |})
                             matching_tools)%list
                      else tool_results in
                    (server_results, tool_results, agent_results)
                end
              else if PyStr.eqb (entity_type metadata_entry) "a2a_agent" then
                if negb (in_filter "a2a_agent" entity_filter) then acc
                else
                  match full_agent_card metadata_entry with
                  | None => acc
                  | Some agent_card =>
                      let skills := map skill_name (ac_skills agent_card) in
                      let match_context :=
                        PyStr.get_or
                          (PyStr.or_else (Some (ac_description agent_card))
                             (PyStr.or_else (Some (PyStr.join ", " skills))
                                (Some (PyStr.join ", " (ac_tags agent_card)))))
                          "" in
                      (server_results, tool_results,
                       (agent_results ++
                        [{| ar_entity_type := "a2a_agent";
                            ar_path := path;
                            ar_agent_name := ac_name agent_card;
                            ar_description := ac_description agent_card;
                            ar_tags := ac_tags agent_card;
                            ar_skills := skills;
                            ar_visibility :=
                              PyStr.get_or (ac_visibility agent_card) "public";
                            ar_trust_level := ac_trust_level agent_card;
                            ar_is_enabled :=
                              match ac_is_enabled agent_card with
                              | Some b => b
                              | None => false
                              end;
                            ar_relevance_score := relevance;
                            ar_match_context := match_context;
                            ar_agent_card := agent_card |}])%list)
                  end
              else acc
          end
    end.

Section QueryEngine.

(** [faiss_index.search(query_np, top_k)], zipped: the (distance, id)
    pairs of the nearest neighbours.  The search is the library's; nothing
    is assumed about what it returns. *)
Variable index_search : Index -> Vector -> nat -> list (float * Z).

Definition search_mixed (query : str) (entity_types : option (list str))
  (max_results : Z) : M SearchResults :=
  if PyStr.is_empty query || PyStr.is_empty (PyStr.strip query) then
    raise (ValueError "Query text is required for semantic search")
  else
    self <- get_self ;;
    match embedding_model self, faiss_index self with
    | Some _, Some ix =>
        let max_results := Z.max 1 (Z.min max_results 50) in
        let entity_filter := entity_filter_of entity_types in
        let total_vectors := Z.of_nat (ntotal ix) in
        if Z.eqb total_vectors 0 then
          ret {| servers := []; tools := []; agents := [] |}
        else
          let top_k := Z.min max_results total_vectors in
          query_embedding <- encode (PyStr.strip query) ;;
          let hits := index_search ix query_embedding (Z.to_nat top_k) in
          let id_to_path := id_to_path_of (metadata_store self) in
          let '(server_results, tool_results, agent_results) :=
            fold_left
              (visit_hit query entity_filter (metadata_store self) id_to_path)
              hits ([], [], []) in
          let limit := Z.to_nat max_results in
          ret {| servers :=
                   firstn limit
                     (sort_desc sr_relevance_score PrimFloat.ltb server_results);
                 tools :=
                   firstn limit
                     (sort_desc tr_relevance_score PrimFloat.ltb tool_results);
                 agents :=
                   firstn limit
                     (sort_desc ar_relevance_score PrimFloat.ltb agent_results) |}
    | _, _ => raise (RuntimeError "FAISS search service is not initialized")
    end.

(** [search_agents] *)
Definition search_agents (query : str) (max_results : Z)
  : M (list AgentResult) :=
  results <- search_mixed query (Some ["a2a_agent"]) max_results ;;
  ret (agents results).

End QueryEngine.

(* ================================================================= *)
(** ** Observations on runs, and sequences of calls *)

Definition is_save (e : event) : bool :=
  match e with EvSave _ _ _ => true | _ => false end.

Definition is_encode (e : event) : bool :=
  match e with EvEncode _ => true | _ => false end.

(** The saves of a trace, and its calls of the embedder. *)
Definition saves (t : list event) : list event := filter is_save t.
Definition embedder_calls (t : list event) : list event := filter is_encode t.

(** A mutating call of the public interface. *)
Inductive op :=
| AddService (path : str) (server_info : ServerInfo) (is_enabled : bool)
| AddAgent (path : str) (agent_card : AgentCard) (is_enabled : bool)
| RemoveService (path : str)
| RemoveAgent (path : str)
| RemoveEntity (path : str).

Definition run_op (o : op) : M unit :=
  match o with
  | AddService path server_info is_enabled =>
      add_or_update_service path server_info is_enabled
  | AddAgent path agent_card is_enabled =>
      add_or_update_agent path agent_card is_enabled
  | RemoveService path => remove_service path
  | RemoveAgent path => remove_agent path
  | RemoveEntity path => remove_entity path
  end.

(** The state after a sequence of calls, one after the other. *)
Definition run_ops (ops : list op) (s : FaissService) : FaissService :=
  fold_left (fun s o => post (run_op o s)) ops s.

(** The path an upsert writes, the text it embeds. *)
Definition upsert_path (o : op) : option str :=
  match o with
  | AddService path _ _ | AddAgent path _ _ => Some path
  | _ => None
  end.

Definition upsert_text (o : op) : option str :=
  match o with
  | AddService _ server_info _ => Some (_get_text_for_embedding server_info)
  | AddAgent _ agent_card _ => Some (_get_text_for_agent agent_card)
  | _ => None
  end.

(** The store with no entry, whatever the embedder and the index. *)
Definition empty_store (model : option EmbeddingsClient) (ix : option Index)
  : FaissService :=
  {| embedding_model := model; faiss_index := ix;
     metadata_store := []; next_id_counter := 0 |}.

Definition with_metadata (s : FaissService) (d : list (str * Entry))
  : FaissService :=
  {| embedding_model := embedding_model s; faiss_index := faiss_index s;
     metadata_store := d; next_id_counter := next_id_counter s |}.

(** The "id" of every live entry, in the order of the store. *)
Definition live_ids (s : FaissService) : list Z :=
  map (fun pe => entry_id (snd pe)) (metadata_store s).

(** The invariant of the id lifecycle. *)
Definition ids_consistent (s : FaissService) : Prop :=
  NoDup (Dict.keys (metadata_store s))
  /\ NoDup (live_ids s)
  /\ Forall (fun i => (0 <= i < next_id_counter s)%Z) (live_ids s)
  /\ (0 <= next_id_counter s)%Z.

(* ================================================================= *)
(** ** Auxiliary notions of the statements *)

(** What an upsert of [path] may do to the store and the counter. *)
Definition upsert_shape (path : str) (s : FaissService) (r : Run unit)
  : Prop :=
  outcome r = inr tt
  /\ embedding_model (post r) = embedding_model s
  /\ match Dict.get PyStr.eqb path (metadata_store s) with
     | Some e =>
         next_id_counter (post r) = next_id_counter s
         /\ (metadata_store (post r) = metadata_store s
             \/ exists e', entry_id e' = entry_id e
                  /\ metadata_store (post r)
                     = Dict.set PyStr.eqb path e' (metadata_store s))
     | None =>
         (next_id_counter (post r) = next_id_counter s
          /\ metadata_store (post r) = metadata_store s)
         \/ (next_id_counter (post r) = (next_id_counter s + 1)%Z
             /\ (metadata_store (post r) = metadata_store s
                 \/ exists e', entry_id e' = next_id_counter s
                      /\ metadata_store (post r)
                         = Dict.set PyStr.eqb path e' (metadata_store s)))
     end.

(** The (path, id) pairs of the store, in its order. *)
Definition path_ids (s : FaissService) : list (str * Z) :=
  map (fun pe => (fst pe, entry_id (snd pe))) (metadata_store s).

(** The ids in the vector index, in the order they were added. *)
Definition index_ids (s : FaissService) : list Z :=
  match faiss_index s with
  | Some ix => map fst (index_vectors ix)
  | None => []
  end.

(** [n] consecutive integers from [start]. *)
Definition ids_from (start : Z) (n : nat) : list Z :=
  map (fun i => (start + Z.of_nat i)%Z) (seq 0 n).

(** Every result collected so far names a path of the store. *)
Definition listed (md : list (str * Entry)) (acc : Collected) : Prop :=
  let '(server_results, tool_results, agent_results) := acc in
  (forall r, In r server_results -> Dict.mem PyStr.eqb (sr_path r) md = true)
  /\ (forall r, In r tool_results ->
        Dict.mem PyStr.eqb (tr_server_path r) md = true)
  /\ (forall r, In r agent_results -> Dict.mem PyStr.eqb (ar_path r) md = true).

(** The id [i] is retired: no live entry has it and the counter is past it. *)
Definition id_retired (i : Z) (s : FaissService) : Prop :=
  ~ In i (live_ids s) /\ (i < next_id_counter s)%Z.

(** Two dicts hold the same items: every key reads the same in both. *)
Definition same_dict (a b : list (str * str)) : Prop :=
  forall k, Dict.get PyStr.eqb k a = Dict.get PyStr.eqb k b.

(** Two payloads are equal as Python dicts: they agree on the keys the
    service reads and hold the same other items, in any order. *)
Definition same_server_info (a b : ServerInfo) : Prop :=
  server_info_read a = server_info_read b
  /\ same_dict (si_other a) (si_other b).

Definition same_agent_card (a b : AgentCard) : Prop :=
  agent_card_read a = agent_card_read b
  /\ same_dict (ac_other a) (ac_other b).

(** [s] is made of whitespace only (the empty string included). *)
Definition blank (s : str) : bool :=
  forallb PyStr.is_space (list_of_str s).

(** The query tokens found in the text of a tool, each occurrence of a
    token in the query counted. *)
Definition token_hits (tokens : list str) (tool : Tool) : nat :=
  matches_found tokens (searchable_text tool).

(** The record the matcher returns for a tool it keeps. *)
Definition matched_tool (tokens : list str) (tool : Tool) : ToolMatch :=
  let tool_desc := matcher_tool_desc tool in
  let tool_args :=
    field_get (pd_args (parsed_description tool)) (Some "") in
  {| tm_tool_name := field_get (tool_name tool) (Some "");
     tm_description := tool_desc;
     tm_match_context :=
       PyStr.take 180
         (PyStr.get_or
            (PyStr.or_else (Some tool_desc)
               (PyStr.or_else tool_args (Some ""))) "");
     tm_schema := tool_schema tool;
     tm_raw_score := coverage_of (token_hits tokens tool) (List.length tokens) |}.

(** The score in the words of the specification: the distinct tokens found,
    over the number of tokens. *)
Definition coverage_distinct (tokens : list str) (text : str) : Q :=
  Qmake
    (Z.of_nat
       (List.length
          (nodup str_eq_dec
             (filter (fun token => PyStr.contains token text) tokens))))
    (Pos.of_nat (List.length tokens)).

Definition chars (s : str) : list N := list_of_str s.

(** The code points of a table, one by one. *)
Definition table_points (table : list (N * N)) : list N :=
  flat_map
    (fun r =>
       map (fun i => (fst r + N.of_nat i)%N)
           (seq 0 (S (N.to_nat (snd r - fst r)))))
    table.

(** A store with entries has an index: entries are written by the
    upserts only, which do nothing without one. *)
Definition index_ready (s : FaissService) : Prop :=
  metadata_store s <> [] -> faiss_index s <> None.

(** A binary64 value that is neither a zero nor a NaN. *)
Definition nonzero (x : spec_float) : Prop :=
  match x with
  | S754_finite _ _ _ | S754_infinity _ => True
  | _ => False
  end.

(* ================================================================= *)
(** ** Sample data *)

Definition failing_model : EmbeddingsClient := fun _ => None.

Definition sample_server : ServerInfo :=
  {| si_server_name := Text "WeatherAPI";
     si_description := Text "get forecasts";
     si_tags := Some ["weather"];
     si_tool_list :=
       Some [{| tool_name := Text "get_forecast";
                tool_description := Text "returns forecast";
                tool_parsed_description := None;
                tool_schema := None |}];
     si_num_tools := Some 1%Z;
     si_path := Text "/weather";
     si_entity_type := None;
     si_is_enabled := None;
     si_other := [] |}.

Definition empty_index (d : nat) : Index :=
  {| index_d := d; index_vectors := [] |}.

Definition working_model : EmbeddingsClient :=
  fun _ => Some [1%float; 0%float].

Definition sample_agent : AgentCard :=
  {| ac_name := "Bot1";
     ac_description := "schedules meetings";
     ac_skills :=
       [{| skill_name := "calendar"; skill_description := "manage calendar" |}];
     ac_tags := [];
     ac_visibility := None;
     ac_trust_level := None;
     ac_is_enabled := None;
     ac_other := [] |}.

(** The store after [/weather] has been upserted into the empty one. *)
Definition sample_store : FaissService :=
  post (add_or_update_service "/weather" sample_server true
          (empty_store (Some working_model) (Some (empty_index 2)))).

(** A server with the single tool ["a"]. *)
Definition tool_a : Tool :=
  {| tool_name := Text "a"; tool_description := Missing;
     tool_parsed_description := None; tool_schema := None |}.

Definition server_a : ServerInfo :=
  {| si_server_name := Text "A"; si_description := Missing; si_tags := None;
     si_tool_list := Some [tool_a]; si_num_tools := None; si_path := Missing;
     si_entity_type := None; si_is_enabled := None; si_other := [] |}.

(** The entry of [/weather] in [sample_store]. *)
Definition sample_entry : Entry :=
  {| entry_id := 0;
     entity_type := "mcp_server";
     text_for_embedding := _get_text_for_embedding sample_server;
     full_server_info := Some (enrich sample_server true);
     full_agent_card := None |}.






(** Two upserts of two new paths. *)
Definition sample_ops : list op :=
  [AddService "/weather" sample_server true;
   AddAgent "/agents/bot1" sample_agent false].

(** An index search that finds every stored vector at distance 0.5. *)
Definition sample_search (ix : Index) (query : Vector) (k : nat)
  : list (float * Z) :=
  firstn k (map (fun iv => (0.5%float, fst iv)) (index_vectors ix)).

(* ================================================================= *)
(** ** The upserts as functions on the state *)

(** The entry [add_or_update_service] writes under the id [i]. *)
Definition service_entry (server_info : ServerInfo) (is_enabled : bool)
  (i : Z) : Entry :=
  {| entry_id := i;
     entity_type := PyStr.get_or (si_entity_type server_info) "mcp_server";
     text_for_embedding := _get_text_for_embedding server_info;
     full_server_info := Some (enrich server_info is_enabled);
     full_agent_card := None |}.

(** The entry [add_or_update_agent] writes under the id [i]. *)
Definition agent_entry (agent_card : AgentCard) (i : Z) : Entry :=
  {| entry_id := i;
     entity_type := "a2a_agent";
     text_for_embedding := _get_text_for_agent agent_card;
     full_server_info := None;
     full_agent_card := Some agent_card |}.

Definition with_index (s : FaissService) (ix : Index) : FaissService :=
  {| embedding_model := embedding_model s; faiss_index := Some ix;
     metadata_store := metadata_store s;
     next_id_counter := next_id_counter s |}.

Definition with_counter (s : FaissService) (n : Z) : FaissService :=
  {| embedding_model := embedding_model s; faiss_index := faiss_index s;
     metadata_store := metadata_store s; next_id_counter := n |}.

(** What an upsert leaves, by cases: [text] is the text to embed, [entry]
    the entry to write under an id, [changed] tells whether the stored
    payload differs from the new one. *)
Definition upsert_post (path text : str) (entry : Z -> Entry)
  (changed : Entry -> bool) (s : FaissService) : FaissService :=
  match embedding_model s, faiss_index s with
  | Some model, Some ix =>
      match Dict.get PyStr.eqb path (metadata_store s) with
      | Some old =>
          if PyStr.eqb (text_for_embedding old) text then
            if changed old
            then with_metadata s
                   (Dict.set PyStr.eqb path (entry (entry_id old))
                      (metadata_store s))
            else s
          else
            match model text with
            | None => s
            | Some v =>
                let ix' := snd (remove_ids (entry_id old) ix) in
                match add_with_ids v (entry_id old) ix' with
                | None => with_index s ix'
                | Some ix'' =>
                    with_metadata (with_index s ix'')
                      (Dict.set PyStr.eqb path (entry (entry_id old))
                         (metadata_store s))
                end
            end
      | None =>
          let s' := with_counter s (next_id_counter s + 1) in
          match model text with
          | None => s'
          | Some v =>
              match add_with_ids v (next_id_counter s) ix with
              | None => s'
              | Some ix' =>
                  with_metadata (with_index s' ix')
                    (Dict.set PyStr.eqb path (entry (next_id_counter s))
                       (metadata_store s))
              end
          end
      end
  | _, _ => s
  end.

(** The state an op leaves, without the monad. *)
Definition op_post (o : op) (s : FaissService) : FaissService :=
  match o with
  | AddService path server_info is_enabled =>
      upsert_post path (_get_text_for_embedding server_info)
        (service_entry server_info is_enabled)
        (fun old =>
           differs ServerInfo_eqb (full_server_info old)
             (Some (enrich server_info is_enabled)))
        s
  | AddAgent path agent_card _ =>
      upsert_post path (_get_text_for_agent agent_card)
        (agent_entry agent_card)
        (fun old =>
           differs AgentCard_eqb (full_agent_card old) (Some agent_card))
        s
  | RemoveService path | RemoveAgent path | RemoveEntity path =>
      with_metadata s (Dict.remove PyStr.eqb path (metadata_store s))
  end.

(** The save a run makes when it changes the state [s] into [s'] and
    writes the store: one, of [s'], or none without an index. *)
Definition save_of (s' : FaissService) : list event :=
  match faiss_index s' with
  | Some ix => [EvSave ix (metadata_store s') (next_id_counter s')]
  | None => []
  end.

(** The service has an embedder and an index. *)
Definition initialised (s : FaissService) : bool :=
  is_some (embedding_model s) && is_some (faiss_index s).

(** An upsert of [text] under [path] has to embed: the path is new or its
    stored text is another one. *)
Definition needs_embedding (path text : str) (s : FaissService) : bool :=
  match Dict.get PyStr.eqb path (metadata_store s) with
  | Some old => negb (PyStr.eqb (text_for_embedding old) text)
  | None => true
  end.

(** The vectors the index holds under the id [i]. *)
Definition vectors_under (i : Z) (ix : Index) : list (Z * Vector) :=
  filter (fun iv => Z.eqb (fst iv) i) (index_vectors ix).

(** The embedder answers with vectors of [d] coordinates only. *)
Definition well_dimensioned (model : EmbeddingsClient) (d : nat) : Prop :=
  forall text v, model text = Some v -> List.length v = d.

(** Index and store agree: every id in the index has been drawn from the
    counter, and every live entry has one vector, under its id. *)
Definition vectors_match (d : nat) (s : FaissService) : Prop :=
  exists ix,
    faiss_index s = Some ix
    /\ index_d ix = d
    /\ (forall iv, In iv (index_vectors ix) ->
          (0 <= fst iv < next_id_counter s)%Z)
    /\ (forall path e, In (path, e) (metadata_store s) ->
          List.length (vectors_under (entry_id e) ix) = 1%nat).


(** The invariant of the upserts and removals with the embedder [model]:
    the ids are consistent, and index and store agree. *)
Definition synchronised (model : EmbeddingsClient) (d : nat)
  (s : FaissService) : Prop :=
  embedding_model s = Some model /\ ids_consistent s /\ vectors_match d s.

(* ================================================================= *)
(** ** The results of a search, hit by hit *)

(** What one hit of the index adds to the three result lists. *)
Definition hit_results (query : str) (entity_filter : list str)
  (metadata : list (str * Entry)) (hit : float * Z) : Collected :=
  visit_hit query entity_filter metadata (id_to_path_of metadata)
    ([], [], []) hit.

Definition hit_servers query entity_filter metadata hit : list ServerResult :=
  fst (fst (hit_results query entity_filter metadata hit)).

Definition hit_tools query entity_filter metadata hit : list ToolResult :=
  snd (fst (hit_results query entity_filter metadata hit)).

Definition hit_agents query entity_filter metadata hit : list AgentResult :=
  snd (hit_results query entity_filter metadata hit).

(** [max(1, min(max_results, 50))] *)
Definition clamp_limit (max_results : Z) : nat :=
  Z.to_nat (Z.max 1 (Z.min max_results 50)).

(** The value [search_mixed] returns for the hits of the index. *)
Definition results_of (query : str) (entity_types : option (list str))
  (max_results : Z) (metadata : list (str * Entry))
  (hits : list (float * Z)) : SearchResults :=
  let entity_filter := entity_filter_of entity_types in
  let limit := clamp_limit max_results in
  {| servers :=
       firstn limit
         (sort_desc sr_relevance_score PrimFloat.ltb
            (flat_map (hit_servers query entity_filter metadata) hits));
     tools :=
       firstn limit
         (sort_desc tr_relevance_score PrimFloat.ltb
            (flat_map (hit_tools query entity_filter metadata) hits));
     agents :=
       firstn limit
         (sort_desc ar_relevance_score PrimFloat.ltb
            (flat_map (hit_agents query entity_filter metadata) hits)) |}.

(** The tools of a server that the matcher keeps for a search. *)
Definition matching_tools_of (query : str) (entity_filter : list str)
  (server_info : ServerInfo) : list ToolMatch :=
  if in_filter "tool" entity_filter
  then firstn 5 (_extract_matching_tools query server_info)
  else [].

(** The server record a hit on [path] yields. *)
Definition server_result_of (query : str) (entity_filter : list str)
  (path : str) (server_info : ServerInfo) (relevance : float)
  : ServerResult :=
  let tags := match si_tags server_info with Some l => l | None => [] end in
  {| sr_entity_type := "mcp_server";
     sr_path := path;
     sr_server_name :=
       field_get (si_server_name server_info)
         (Some (PyStr.strip_slash path));
     sr_description := field_get (si_description server_info) (Some "");
     sr_tags := tags;
     sr_num_tools :=
       match si_num_tools server_info with Some n => n | None => 0%Z end;
     sr_is_enabled :=
       match si_is_enabled server_info with Some b => b | None => false end;
     sr_relevance_score := relevance;
     sr_match_context :=
       PyStr.or_else (field_get (si_description server_info) None)
         (PyStr.or_else (Some (PyStr.join ", " tags))
            (field_get (si_path server_info) None));
     sr_matching_tools :=
       map (fun tool =>
              {| mt_tool_name := tm_tool_name tool;
                 mt_description := tm_description tool;
                 mt_relevance_score :=
                   composite_score relevance (tm_raw_score tool);
                 mt_match_context := tm_match_context tool |})
           (matching_tools_of query entity_filter server_info) |}.

(** The tool records a hit on [path] yields. *)
Definition tool_results_of (query : str) (entity_filter : list str)
  (path : str) (server_info : ServerInfo) (relevance : float)
  : list ToolResult :=
  map (fun tool =>
         {| tr_entity_type := "tool";
            tr_server_path := path;
            tr_server_name :=
              field_get (si_server_name server_info)
                (Some (PyStr.strip_slash path));
            tr_tool_name := tm_tool_name tool;
            tr_description := tm_description tool;
            tr_match_context := tm_match_context tool;
            tr_relevance_score :=
              composite_score relevance (tm_raw_score tool) |})
      (matching_tools_of query entity_filter server_info).

(** The agent record a hit on [path] yields. *)
Definition agent_result_of (path : str) (agent_card : AgentCard)
  (relevance : float) : AgentResult :=
  let skills := map skill_name (ac_skills agent_card) in
  {| ar_entity_type := "a2a_agent";
     ar_path := path;
     ar_agent_name := ac_name agent_card;
     ar_description := ac_description agent_card;
     ar_tags := ac_tags agent_card;
     ar_skills := skills;
     ar_visibility := PyStr.get_or (ac_visibility agent_card) "public";
     ar_trust_level := ac_trust_level agent_card;
     ar_is_enabled :=
       match ac_is_enabled agent_card with Some b => b | None => false end;
     ar_relevance_score := relevance;
     ar_match_context :=
       PyStr.get_or
         (PyStr.or_else (Some (ac_description agent_card))
            (PyStr.or_else (Some (PyStr.join ", " skills))
               (Some (PyStr.join ", " (ac_tags agent_card))))) "";
     ar_agent_card := agent_card |}.

(** The hit on [faiss_id] resolves to the live entry [entry] at [path]. *)
Definition resolves (metadata : list (str * Entry)) (faiss_id : Z)
  (path : str) (entry : Entry) : Prop :=
  Dict.get Z.eqb faiss_id (id_to_path_of metadata) = Some path
  /\ PyStr.is_empty path = false
  /\ Dict.get PyStr.eqb path metadata = Some entry.

(* ================================================================= *)
(** ** The order of the binary64 numbers *)

(** A key that orders the binary64 values other than NaN as [<] does:
    the class of the value, then its exponent, then its mantissa. *)
Definition sf_rank (f : spec_float) : Z * Z * Z :=
  match f with
  | S754_zero _ => (0, 0, 0)%Z
  | S754_infinity s => ((if s then -2 else 2), 0, 0)%Z
  | S754_nan => (0, 0, 0)%Z
  | S754_finite s m e => if s then (-1, - e, Zneg m)%Z else (1, e, Zpos m)%Z
  end.

(** The lexicographic comparison of two keys. *)
Definition lex3 (a b : Z * Z * Z) : comparison :=
  let '(a1, a2, a3) := a in
  let '(b1, b2, b3) := b in
  match (a1 ?= b1)%Z with
  | Eq => match (a2 ?= b2)%Z with
          | Eq => (a3 ?= b3)%Z
          | Lt => Lt
          | Gt => Gt
          end
  | Lt => Lt
  | Gt => Gt
  end.

(** [x] is a number: not NaN. *)
Definition is_number (x : float) : Prop := Prim2SF x <> S754_nan.

(** [b] does not rank above [a]: [b <= a] on the scores. *)
Definition ranked {A} (score : A -> float) (a b : A) : Prop :=
  (score b <=? score a)%float = true.

(** [f] does not carry the sign bit (NaN is let through). *)
Definition unsigned_sf (f : spec_float) : Prop :=
  match f with
  | S754_nan => True
  | S754_zero s | S754_infinity s | S754_finite s _ _ => s = false
  end.

(** [mrs] locates the rational [a / b]: its integer part, whether the
    rest reaches a half, and whether the rest is neither nothing nor a
    half.  This is what a [shr_record] of [SpecFloat] stands for. *)
Definition located (a b : Z) (mrs : shr_record) : Prop :=
  (0 < b /\ 0 <= shr_m mrs
   /\ b * shr_m mrs <= a < b * shr_m mrs + b
   /\ (shr_r mrs = true <-> b <= 2 * (a - b * shr_m mrs))
   /\ (shr_s mrs = true
       <-> 2 * (a - b * shr_m mrs) <> 0 /\ 2 * (a - b * shr_m mrs) <> b))%Z.

(** The integer that [binary_round_aux] makes of a located number. *)
Definition rne (mrs : shr_record) : Z :=
  round_nearest_even (shr_m mrs) (loc_of_shr_record mrs).

(** What [binary_round_aux] makes of the rounded integer [k] at the
    exponent [e], for [0 <= k <= 2 ^ 53]: a carry into the exponent at
    [2 ^ 53], infinity above the largest exponent. *)
Definition finish (k e : Z) : spec_float :=
  (if k =? 0 then S754_zero false
   else if k =? 9007199254740992 then
     if e + 1 <=? 971 then S754_finite false 4503599627370496 (e + 1)
     else S754_infinity false
   else if e <=? 971 then S754_finite false (Z.to_pos k) e
   else S754_infinity false)%Z.

(** [f] is the binary64 rounding of [n / d * 2 ^ -1074]: a mantissa
    located at the exponent the format gives that number, rounded to
    nearest even. *)
Definition rounds_to (n d : Z) (f : spec_float) : Prop :=
  exists a b e mrs,
    (located a b mrs
     /\ -1074 <= e
     /\ a < 9007199254740992 * b
     /\ (-1074 < e -> 4503599627370496 * b <= a)
     /\ 0 < d
     /\ a * 2 ^ (e + 1074) * d = b * n
     /\ f = finish (rne mrs) e)%Z.

(** The binary64 number [1.0]. *)
Definition sf_one : spec_float := S754_finite false 4503599627370496 (-52).

(* ================================================================= *)
(** ** [search_entities] *)

(** One element of the list [search_entities] returns: the agent, server
    and tool records are put in the same list. *)
Inductive EntityResult :=
| AgentEntity (agent : AgentResult)
| ServerEntity (server : ServerResult)
| ToolEntity (tool : ToolResult).

(** [l[:n]]: a negative [n] counts from the end. *)
Definition slice_to {A} (l : list A) (n : Z) : list A :=
  if (n <? 0)%Z then firstn (List.length l - Z.to_nat (- n)) l
  else firstn (Z.to_nat n) l.

(** The list [combined] before it is cut.  The three keys are always in
    the dictionary [search_mixed] returns. *)
Definition combined_of (requested : list str) (enabled_only : bool)
  (results : SearchResults) : list EntityResult :=
  let combined := [] in
  let combined :=
    if in_filter "a2a_agent" requested then
      (combined ++
       map AgentEntity
         (filter (fun agent => negb (enabled_only && negb (ar_is_enabled agent)))
                 (agents results)))%list
    else combined in
  let combined :=
    if in_filter "mcp_server" requested then
      (combined ++
       map ServerEntity
         (filter (fun server =>
                    negb (enabled_only && negb (sr_is_enabled server)))
                 (servers results)))%list
    else combined in
  if in_filter "tool" requested then
    (combined ++ map ToolEntity (tools results))%list
  else combined.

Section EntitySearch.
Variable index_search : Index -> Vector -> nat -> list (float * Z).

Definition search_entities (query : str)
  (entity_types : option (list str)) (enabled_only : bool)
  (max_results : Z) : M (list EntityResult) :=
  let entity_types :=
    match entity_types with
    | None => ["a2a_agent"; "mcp_server"; "tool"]
    | Some l => l
    end in
  results <- search_mixed index_search query (Some entity_types) max_results ;;
  ret (slice_to (combined_of entity_types enabled_only results) max_results).

End EntitySearch.

(* ================================================================= *)
(** ** Federation configuration ([federation_schema.py]) *)

Record AnthropicServerConfig := { asc_name : str }.

Record AnthropicFederationConfig := {
  afc_enabled : bool;
  afc_endpoint : str;
  afc_sync_on_startup : bool;
  afc_servers : list AnthropicServerConfig
}.

Record AsorAgentConfig := { aac_id : str }.

Record AsorFederationConfig := {
  asor_enabled : bool;
  asor_endpoint : str;
  asor_auth_env_var : option str;
  asor_sync_on_startup : bool;
  asor_agents : list AsorAgentConfig
}.

Record FederationConfig := {
  anthropic : AnthropicFederationConfig;
  asor : AsorFederationConfig
}.

(** The configuration the field defaults give. *)
Definition default_federation : FederationConfig :=
  {| anthropic :=
       {| afc_enabled := false;
          afc_endpoint := "https://registry.modelcontextprotocol.io";
          afc_sync_on_startup := false;
          afc_servers := [] |};
     asor :=
       {| asor_enabled := false;
          asor_endpoint := "";
          asor_auth_env_var := None;
          asor_sync_on_startup := false;
          asor_agents := [] |} |}.

Definition is_any_federation_enabled (self : FederationConfig) : bool :=
  afc_enabled (anthropic self) || asor_enabled (asor self).

Definition get_enabled_federations (self : FederationConfig) : list str :=
  let enabled := [] in
  let enabled :=
    if afc_enabled (anthropic self) then (enabled ++ ["anthropic"])%list
    else enabled in
  if asor_enabled (asor self) then (enabled ++ ["asor"])%list else enabled.

(* ================================================================= *)
(** ** Start-up: [initialize]

  What the service reads when it starts is gathered in one record: the
  dimension in the settings, what the client factory gives, and the two
  files.  [settings.embeddings_model_dimensions], which loading the model
  may overwrite, is passed from one step to the next as a value. *)

(** What [json.load] gives for the metadata file: a dictionary in which
    each of the two keys may be missing. *)
Record LoadedMetadata := {
  lm_metadata : option (list (str * Entry));
  lm_next_id : option Z
}.

(** A file that does not exist is [None]; a file that exists and whose
    read raises is [Some None] (for the metadata file this covers a
    content that is not a dictionary, on which [.get] raises inside the
    same [try]).  The client comes with what its
    [get_embedding_dimension] returns, [None] when that call raises; the
    client itself is [None] when the factory raises.  The two flags tell
    whether the [mkdir] of the servers directory and of the model cache
    succeed. *)
Record Startup := {
  embeddings_model_dimensions : nat;
  servers_dir_mkdir : bool;
  model_cache_mkdir : bool;
  create_embeddings_client : option (EmbeddingsClient * option nat);
  faiss_index_file : option (option Index);
  faiss_metadata_file : option (option LoadedMetadata)
}.

Definition set_embedding_model (model : option EmbeddingsClient) : M unit :=
  fun s => mkRun (inr tt)
    {| embedding_model := model; faiss_index := faiss_index s;
       metadata_store := metadata_store s;
       next_id_counter := next_id_counter s |} [].

(** [_load_embedding_model]; the result is the dimension the settings
    hold afterwards.  The first [mkdir] stands before the [try]: its
    failure is raised to the caller.  Which exception the second [mkdir],
    the factory or the client raises does not matter: the handler catches
    every one. *)
Definition _load_embedding_model (env : Startup) : M nat :=
  let configured := embeddings_model_dimensions env in
  log INFO "Loading embedding model" ;;;
  (if servers_dir_mkdir env then ret tt else raise OSError) ;;;
  try_except
    ((if model_cache_mkdir env then ret tt else raise OSError) ;;;
     match create_embeddings_client env with
     | None => raise (RuntimeError "create_embeddings_client")
     | Some (client, dimension) =>
         set_embedding_model (Some client) ;;;
         match dimension with
         | None => raise (RuntimeError "get_embedding_dimension")
         | Some embedding_dim =>
             log INFO "Embedding model loaded successfully." ;;;
             if negb (Nat.eqb embedding_dim configured) then
               log WARNING "Embedding dimension mismatch. Using actual dimension." ;;;
               ret embedding_dim
             else ret configured
         end
     end)
    (fun _ =>
       log ERROR "Failed to load embedding model" ;;;
       set_embedding_model None ;;;
       ret configured).

(** [_initialize_new_index], for the dimension in the settings. *)
Definition _initialize_new_index (dimension : nat) : M unit :=
  set_faiss_index (empty_index dimension) ;;;
  set_metadata_store [] ;;;
  set_next_id_counter 0.

(** [_load_faiss_data], for the dimension in the settings. *)
Definition _load_faiss_data (env : Startup) (dimension : nat) : M unit :=
  match faiss_index_file env, faiss_metadata_file env with
  | Some index_file, Some metadata_file =>
      try_except
        (log INFO "Loading FAISS index" ;;;
         match index_file with
         | None => raise (RuntimeError "read_index")
         | Some ix =>
             set_faiss_index ix ;;;
             log INFO "Loading FAISS metadata" ;;;
             match metadata_file with
             | None => raise (ValueError "json.load")
             | Some loaded_metadata =>
                 set_metadata_store
                   (match lm_metadata loaded_metadata with
                    | Some d => d
                    | None => []
                    end) ;;;
                 set_next_id_counter
                   (match lm_next_id loaded_metadata with
                    | Some n => n
                    | None => 0%Z
                    end) ;;;
                 log INFO "FAISS data loaded." ;;;
                 if negb (Nat.eqb (index_d ix) dimension) then
                   log WARNING "Loaded FAISS index dimension differs from expected. Re-initializing." ;;;
                   _initialize_new_index dimension
                 else ret tt
             end
         end)
        (fun _ =>
           log ERROR "Error loading FAISS data. Re-initializing." ;;;
           _initialize_new_index dimension)
  | _, _ =>
      log INFO "FAISS index or metadata not found. Initializing new." ;;;
      _initialize_new_index dimension
  end.

(** [initialize] *)
Definition initialize (env : Startup) : M unit :=
  dimension <- _load_embedding_model env ;;
  _load_faiss_data env dimension.

(** The embedder the service has after start-up, and the dimension the
    settings then hold: those of the client when the cache directory is
    made and the factory and the client answer. *)
Definition loaded_model (env : Startup) : option EmbeddingsClient :=
  if model_cache_mkdir env then
    match create_embeddings_client env with
    | Some (client, Some _) => Some client
    | _ => None
    end
  else None.

Definition effective_dimension (env : Startup) : nat :=
  if model_cache_mkdir env then
    match create_embeddings_client env with
    | Some (_, Some embedding_dim) => embedding_dim
    | _ => embeddings_model_dimensions env
    end
  else embeddings_model_dimensions env.

(** The files are both there, readable, and the index in them has the
    dimension the settings hold after the model is loaded. *)
Definition files_usable (env : Startup) : bool :=
  match faiss_index_file env, faiss_metadata_file env with
  | Some (Some ix), Some (Some _) =>
      Nat.eqb (index_d ix) (effective_dimension env)
  | _, _ => false
  end.

(* ================================================================= *)
(** ** More sample data *)

(** An embedder whose vectors have one coordinate. *)
Definition short_model : EmbeddingsClient := fun _ => Some [1%float].

(** [sample_store] with that embedder. *)
Definition short_store : FaissService :=
  {| embedding_model := Some short_model;
     faiss_index := faiss_index sample_store;
     metadata_store := metadata_store sample_store;
     next_id_counter := next_id_counter sample_store |}.

(** The index of [sample_store]. *)
Definition sample_index : Index :=
  {| index_d := 2; index_vectors := [(0%Z, [1%float; 0%float])] |}.

(** A start without files, with an embedder of dimension 2 where the
    settings say 3. *)
Definition sample_startup : Startup :=
  {| embeddings_model_dimensions := 3;
     servers_dir_mkdir := true;
     model_cache_mkdir := true;
     create_embeddings_client := Some (working_model, Some 2%nat);
     faiss_index_file := None;
     faiss_metadata_file := None |}.

(* ================================================================= *)

(** * Properties *)

#[local] Arguments PyStr.is_space : simpl never.
#[local] Arguments PyStr.is_word : simpl never.
#[local] Arguments PyStr.lower : simpl never.
#[local] Arguments Unicode.in_table : simpl never.

(** ** Equality of strings *)

Lemma str_eqb_eq (a b : str) : PyStr.eqb a b = true <-> a = b.
Proof.
  revert b. induction a as [|c a IH]; intros [|c' b]; cbn;
    try (split; [discriminate | congruence]); [tauto|].
  rewrite andb_true_iff, N.eqb_eq, IH. split.
  - intros [-> ->]. reflexivity.
  - intros [= -> ->]. auto.
Qed.

Lemma str_eqb_refl (a : str) : PyStr.eqb a a = true.
Proof. now apply str_eqb_eq. Qed.

Lemma str_eqb_spec (a b : str) : reflect (a = b) (PyStr.eqb a b).
Proof.
  destruct (PyStr.eqb a b) eqn:E; constructor.
  - now apply str_eqb_eq.
  - intros ->. rewrite str_eqb_refl in E. discriminate.
Qed.

(** ** Dictionaries *)

Section DictFacts.
Context {V : Type}.
Implicit Types (d : list (str * V)) (k : str) (v : V).

Lemma get_In k d v : Dict.get PyStr.eqb k d = Some v -> In (k, v) d.
Proof.
  induction d as [|[k' v'] d IH]; cbn; [discriminate|].
  destruct (str_eqb_spec k k') as [->|ne].
  - intros [= ->]. now left.
  - intros H. right. auto.
Qed.

Lemma get_None_keys k d :
  Dict.get PyStr.eqb k d = None <-> ~ In k (Dict.keys d).
Proof.
  induction d as [|[k' v'] d IH]; cbn.
  - tauto.
  - destruct (str_eqb_spec k k') as [->|ne].
    + split; [discriminate | intros H; exfalso; apply H; now left].
    + rewrite IH. split; intros H.
      * intros [e|i]; [congruence | tauto].
      * tauto.
Qed.

Lemma mem_false_get k d :
  Dict.mem PyStr.eqb k d = false <-> Dict.get PyStr.eqb k d = None.
Proof. unfold Dict.mem. destruct (Dict.get _ k d); split; congruence. Qed.

Lemma mem_true_get k d :
  Dict.mem PyStr.eqb k d = true <-> exists v, Dict.get PyStr.eqb k d = Some v.
Proof.
  unfold Dict.mem. destruct (Dict.get _ k d) as [v|]; split.
  - eauto.
  - reflexivity.
  - discriminate.
  - intros [v H]. discriminate.
Qed.

Lemma get_remove_same k d : Dict.get PyStr.eqb k (Dict.remove PyStr.eqb k d) = None.
Proof.
  induction d as [|[k' v'] d IH]; cbn; [reflexivity|].
  destruct (str_eqb_spec k k') as [->|ne]; cbn; [assumption|].
  destruct (str_eqb_spec k k'); [contradiction | assumption].
Qed.

Lemma get_remove_other k q d :
  q <> k ->
  Dict.get PyStr.eqb q (Dict.remove PyStr.eqb k d) = Dict.get PyStr.eqb q d.
Proof.
  intros ne. induction d as [|[k' v'] d IH]; cbn; [reflexivity|].
  destruct (str_eqb_spec k k') as [->|nk]; cbn.
  - destruct (str_eqb_spec q k'); [contradiction | assumption].
  - destruct (str_eqb_spec q k'); [reflexivity | assumption].
Qed.

Lemma remove_absent k d :
  Dict.get PyStr.eqb k d = None -> Dict.remove PyStr.eqb k d = d.
Proof.
  induction d as [|[k' v'] d IH]; cbn; [reflexivity|].
  destruct (str_eqb_spec k k') as [->|nk]; cbn; [discriminate|].
  intros H. f_equal. now apply IH.
Qed.

Lemma remove_incl k d : incl (Dict.remove PyStr.eqb k d) d.
Proof. intros x H. apply filter_In in H. tauto. Qed.

Lemma keys_remove k d :
  Dict.keys (Dict.remove PyStr.eqb k d)
  = filter (fun q => negb (PyStr.eqb k q)) (Dict.keys d).
Proof.
  unfold Dict.keys, Dict.remove.
  induction d as [|[k' v'] d IH]; cbn; [reflexivity|].
  destruct (PyStr.eqb k k'); cbn; now rewrite IH.
Qed.

Lemma remove_length k d :
  NoDup (Dict.keys d) -> Dict.mem PyStr.eqb k d = true ->
  S (List.length (Dict.remove PyStr.eqb k d)) = List.length d.
Proof.
  induction d as [|[k' v'] d IH]; cbn.
  - intros _. unfold Dict.mem. cbn. discriminate.
  - intros nd. inversion nd as [|? ? notin nd']; subst.
    unfold Dict.mem. cbn. destruct (str_eqb_spec k k') as [->|nk]; cbn.
    + intros _. f_equal. f_equal. apply remove_absent.
      now apply get_None_keys.
    + intros H. f_equal. apply IH; assumption.
Qed.

Lemma get_set_same k v d : Dict.get PyStr.eqb k (Dict.set PyStr.eqb k v d) = Some v.
Proof.
  induction d as [|[k' v'] d IH]; cbn.
  - now rewrite str_eqb_refl.
  - destruct (str_eqb_spec k k') as [->|nk]; cbn.
    + now rewrite str_eqb_refl.
    + destruct (str_eqb_spec k k'); [contradiction | assumption].
Qed.

Lemma get_set_other k q v d :
  q <> k ->
  Dict.get PyStr.eqb q (Dict.set PyStr.eqb k v d) = Dict.get PyStr.eqb q d.
Proof.
  intros ne. induction d as [|[k' v'] d IH]; cbn.
  - destruct (str_eqb_spec q k); [contradiction | reflexivity].
  - destruct (str_eqb_spec k k') as [->|nk]; cbn.
    + destruct (str_eqb_spec q k'); [contradiction | reflexivity].
    + destruct (str_eqb_spec q k'); [reflexivity | assumption].
Qed.

Lemma set_absent k v d :
  Dict.get PyStr.eqb k d = None -> Dict.set PyStr.eqb k v d = (d ++ [(k, v)])%list.
Proof.
  induction d as [|[k' v'] d IH]; cbn; [reflexivity|].
  destruct (str_eqb_spec k k') as [->|nk]; [discriminate|].
  intros H. now rewrite IH.
Qed.

Lemma keys_set_present k v d :
  Dict.mem PyStr.eqb k d = true ->
  Dict.keys (Dict.set PyStr.eqb k v d) = Dict.keys d.
Proof.
  unfold Dict.mem.
  induction d as [|[k' v'] d IH]; cbn; [discriminate|].
  destruct (str_eqb_spec k k') as [->|nk]; cbn; [reflexivity|].
  intros H. f_equal. now apply IH.
Qed.

End DictFacts.

(** ** Running the monad *)

#[local] Arguments _get_text_for_embedding : simpl never.
#[local] Arguments _get_text_for_agent : simpl never.
#[local] Arguments differs : simpl never.
#[local] Arguments enrich : simpl never.
#[local] Arguments Dict.get : simpl never.
#[local] Arguments Dict.set : simpl never.
#[local] Arguments Dict.remove : simpl never.
#[local] Arguments Dict.mem : simpl never.
#[local] Arguments PyStr.get_or : simpl never.
#[local] Arguments Nat.eqb : simpl never.
#[local] Arguments Nat.ltb : simpl never.
#[local] Arguments Nat.sub : simpl never.
#[local] Arguments PyStr.eqb : simpl never.

Ltac run_monad :=
  unfold try_except, bind, after, ret, raise, get_self, emit, log,
    set_metadata_store, set_next_id_counter, set_faiss_index; cbn.

Lemma with_metadata_same s : with_metadata s (metadata_store s) = s.
Proof. now destruct s. Qed.

(** ** Removal *)

(** What [remove_service] does, case by case. *)
Lemma remove_service_run path s :
  remove_service path s =
  if Dict.mem PyStr.eqb path (metadata_store s) then
    let s' := with_metadata s (Dict.remove PyStr.eqb path (metadata_store s)) in
    match faiss_index s with
    | Some ix =>
        mkRun (inr tt) s'
          [EvLog INFO "Removing service from index";
           EvLog INFO "Removed service from FAISS metadata store";
           EvLog INFO "Saving FAISS index";
           EvLog INFO "Saving FAISS metadata";
           EvSave ix (metadata_store s') (next_id_counter s);
           EvLog INFO "FAISS data saved successfully."]
    | None =>
        mkRun (inr tt) s'
          [EvLog INFO "Removed service from FAISS metadata store";
           EvLog ERROR "FAISS index is not initialized. Cannot save."]
    end
  else
    mkRun (inr tt) s [EvLog WARNING "Service not found in FAISS metadata store"].
Proof.
  unfold remove_service, save_data, Dict.del, with_metadata.
  destruct s as [model ix md next]; run_monad.
  destruct (Dict.mem PyStr.eqb path md); cbn; [|reflexivity].
  destruct ix; reflexivity.
Qed.

Lemma remove_agent_run path s :
  remove_agent path s =
  if Dict.mem PyStr.eqb path (metadata_store s) then
    let s' := with_metadata s (Dict.remove PyStr.eqb path (metadata_store s)) in
    match faiss_index s with
    | Some ix =>
        mkRun (inr tt) s'
          [EvLog INFO "Removing agent from index";
           EvLog INFO "Removed agent from FAISS metadata store";
           EvLog INFO "Saving FAISS index";
           EvLog INFO "Saving FAISS metadata";
           EvSave ix (metadata_store s') (next_id_counter s);
           EvLog INFO "FAISS data saved successfully."]
    | None =>
        mkRun (inr tt) s'
          [EvLog INFO "Removed agent from FAISS metadata store";
           EvLog ERROR "FAISS index is not initialized. Cannot save."]
    end
  else
    mkRun (inr tt) s [EvLog WARNING "Agent not found in FAISS metadata store"].
Proof.
  unfold remove_agent, save_data, Dict.del, with_metadata.
  destruct s as [model ix md next]; run_monad.
  destruct (Dict.mem PyStr.eqb path md); cbn; [|reflexivity].
  destruct ix; reflexivity.
Qed.

Lemma remove_agent_returns path s : outcome (remove_agent path s) = inr tt.
Proof.
  rewrite remove_agent_run.
  destruct (Dict.mem _ _ _); [destruct (faiss_index s)|]; reflexivity.
Qed.

Lemma remove_entity_run path s : remove_entity path s = remove_agent path s.
Proof.
  unfold remove_entity, try_except.
  pose proof (remove_agent_returns path s) as H.
  destruct (remove_agent path s) as [[e|[]] s' t]; cbn in H; [discriminate | reflexivity].
Qed.

(** The post-state of any of the three removals. *)
Lemma remove_post path s :
  post (remove_service path s)
  = with_metadata s (Dict.remove PyStr.eqb path (metadata_store s))
  /\ post (remove_agent path s) = post (remove_service path s)
  /\ post (remove_entity path s) = post (remove_service path s).
Proof.
  rewrite remove_entity_run, remove_agent_run, remove_service_run.
  destruct (Dict.mem PyStr.eqb path (metadata_store s)) eqn:E.
  - destruct (faiss_index s); cbn; auto.
  - cbn. apply mem_false_get in E. rewrite (remove_absent _ _ E).
    now rewrite with_metadata_same.
Qed.

(** C10.  [remove_agent] and [remove_service] end in the same state, with
    the same outcome and the same saves: the entry at the path is dropped
    whatever its "entity_type", an absent path changes nothing; and
    [remove_entity] is [remove_agent], logs included, so that its fallback
    to [remove_service] is never taken. *)
Theorem remove_agent_service_entity (path : str) (s : FaissService) :
  let md := metadata_store s in
  post (remove_agent path s) = post (remove_service path s)
  /\ outcome (remove_agent path s) = outcome (remove_service path s)
  /\ saves (effects (remove_agent path s))
     = saves (effects (remove_service path s))
  /\ post (remove_agent path s)
     = (if Dict.mem PyStr.eqb path md
        then with_metadata s (Dict.remove PyStr.eqb path md)
        else s)
  /\ saves (effects (remove_agent path s))
     = (if Dict.mem PyStr.eqb path md
        then match faiss_index s with
             | Some ix =>
                 [EvSave ix (Dict.remove PyStr.eqb path md) (next_id_counter s)]
             | None => []
             end
        else [])
  /\ (forall e, Dict.get PyStr.eqb path md = Some e ->
      Dict.get PyStr.eqb path (metadata_store (post (remove_agent path s)))
      = None
      /\ Dict.get PyStr.eqb path (metadata_store (post (remove_service path s)))
         = None)
  /\ remove_entity path s = remove_agent path s.
Proof.
  intros md. subst md.
  destruct (remove_post path s) as (Hs & Ha & _).
  refine (conj Ha (conj _ (conj _ (conj _ (conj _
            (conj _ (remove_entity_run path s))))))).
  - rewrite remove_agent_run, remove_service_run.
    destruct (Dict.mem _ _ _); [destruct (faiss_index s)|]; reflexivity.
  - rewrite remove_agent_run, remove_service_run.
    destruct (Dict.mem _ _ _); [destruct (faiss_index s)|]; reflexivity.
  - rewrite Ha, Hs.
    destruct (Dict.mem PyStr.eqb path (metadata_store s)) eqn:E;
      [reflexivity|].
    apply mem_false_get in E. rewrite (remove_absent _ _ E).
    apply with_metadata_same.
  - rewrite remove_agent_run.
    destruct (Dict.mem _ _ _); [destruct (faiss_index s)|]; reflexivity.
  - intros e _. rewrite Ha, Hs. cbn. split; apply get_remove_same.
Qed.

(** ** Upserts *)

Ltac run_upsert :=
  unfold encode, index_remove_ids, index_add_with_ids, save_data,
    remove_ids, add_with_ids;
  run_monad.

Ltac upsert_cases model ix md path :=
  destruct model as [model|], ix as [ix|]; run_upsert;
  try (destruct (Dict.get PyStr.eqb path md); now auto);
  destruct (Dict.get PyStr.eqb path md) as [e|] eqn:G; run_upsert;
  [ destruct (PyStr.eqb (text_for_embedding e) _) eqn:T; run_upsert;
    [ destruct (differs _ _ _) eqn:D; run_upsert
    | destruct (model _) as [v|] eqn:V; run_upsert;
      [ destruct (Nat.ltb _ _); run_upsert;
        destruct (Nat.eqb _ _) eqn:L; run_upsert
      | ] ]
  | destruct (model _) as [v|] eqn:V; run_upsert;
    [ destruct (Nat.eqb _ _) eqn:L; run_upsert | ] ].

Ltac shape_done :=
  first
    [ now auto 6
    | now (repeat split; auto; right; eexists; (split; [|reflexivity]);
           reflexivity)
    | now (repeat split; auto; right; split; [reflexivity|];
           right; eexists; (split; [|reflexivity]); reflexivity) ].

Lemma add_or_update_service_shape path info en s :
  upsert_shape path s (add_or_update_service path info en s).
Proof.
  unfold upsert_shape, add_or_update_service.
  destruct s as [model ix md next].
  upsert_cases model ix md path; shape_done.
Qed.

Lemma add_or_update_agent_shape path card en s :
  upsert_shape path s (add_or_update_agent path card en s).
Proof.
  unfold upsert_shape, add_or_update_agent.
  destruct s as [model ix md next].
  upsert_cases model ix md path; shape_done.
Qed.


Lemma add_or_update_service_index path info en s :
  let r := add_or_update_service path info en s in
  (faiss_index s = None -> post r = s)
  /\ (faiss_index s <> None -> faiss_index (post r) <> None).
Proof.
  unfold add_or_update_service.
  destruct s as [model ix md next].
  upsert_cases model ix md path;
    (split; [intros H; first [discriminate H | reflexivity]
            | intros H; first [discriminate | assumption]]).
Qed.

Lemma add_or_update_agent_index path card en s :
  let r := add_or_update_agent path card en s in
  (faiss_index s = None -> post r = s)
  /\ (faiss_index s <> None -> faiss_index (post r) <> None).
Proof.
  unfold add_or_update_agent.
  destruct s as [model ix md next].
  upsert_cases model ix md path;
    (split; [intros H; first [discriminate H | reflexivity]
            | intros H; first [discriminate | assumption]]).
Qed.

Lemma run_op_index_ready o s : index_ready s -> index_ready (post (run_op o s)).
Proof.
  unfold index_ready. intros H.
  assert (Hrm : forall p,
            metadata_store
              (with_metadata s (Dict.remove PyStr.eqb p (metadata_store s)))
            <> [] ->
            faiss_index
              (with_metadata s (Dict.remove PyStr.eqb p (metadata_store s)))
            <> None).
  { intros p Hne. cbn in *. apply H. intros E. rewrite E in Hne. now apply Hne. }
  assert (Hup : forall r : Run unit,
            (faiss_index s = None -> post r = s)
            /\ (faiss_index s <> None -> faiss_index (post r) <> None) ->
            metadata_store (post r) <> [] -> faiss_index (post r) <> None).
  { intros r [Hnone Hsome] Hne.
    destruct (faiss_index s) as [ix|] eqn:F.
    - apply Hsome. discriminate.
    - rewrite (Hnone eq_refl) in Hne |- *. rewrite F. now apply H. }
  destruct o as [q info en | q card en | q | q | q]; cbn [run_op];
    try (destruct (remove_post q s) as (Hs & Ha & He);
         rewrite ?He, ?Ha, Hs; now apply Hrm).
  - apply Hup. apply add_or_update_service_index.
  - apply Hup. apply add_or_update_agent_index.
Qed.

Lemma run_ops_index_ready ops s : index_ready s -> index_ready (run_ops ops s).
Proof.
  revert s. induction ops as [|o ops IH]; cbn; intros s H; [assumption|].
  apply IH. now apply run_op_index_ready.
Qed.

Lemma reachable_index_ready model ix ops :
  index_ready (run_ops ops (empty_store model ix)).
Proof. apply run_ops_index_ready. intros H. now elim H. Qed.

(** C6.  [Remove(path)], by [remove_service] or [remove_agent]: never an
    error; the embedder, the vector index (the vector of the removed entry
    included) and [next_id_counter] are left as they were.  An absent path
    changes nothing and saves nothing.  A present path loses its entry and
    no other one, and the store so obtained is saved, once, when there is
    an index to save, as there is in every state reached from an empty
    store. *)
Theorem remove_frame (remove : str -> M unit) (path : str)
  (s : FaissService) :
  remove = remove_service \/ remove = remove_agent ->
  let r := remove path s in
  let md := metadata_store s in
  let md' := metadata_store (post r) in
  outcome r = inr tt
  /\ embedding_model (post r) = embedding_model s
  /\ faiss_index (post r) = faiss_index s
  /\ next_id_counter (post r) = next_id_counter s
  /\ (Dict.get PyStr.eqb path md = None ->
      post r = s /\ saves (effects r) = [])
  /\ (forall e, Dict.get PyStr.eqb path md = Some e ->
      md' = Dict.remove PyStr.eqb path md
      /\ Dict.get PyStr.eqb path md' = None
      /\ (forall q, q <> path ->
            Dict.get PyStr.eqb q md' = Dict.get PyStr.eqb q md)
      /\ (NoDup (Dict.keys md) -> S (List.length md') = List.length md)
      /\ (forall ix, faiss_index s = Some ix ->
            saves (effects r) = [EvSave ix md' (next_id_counter s)])
      /\ (forall model ix0 ops, s = run_ops ops (empty_store model ix0) ->
            exists ix,
              faiss_index s = Some ix
              /\ saves (effects r) = [EvSave ix md' (next_id_counter s)])).
Proof.
  intros Hr r md md'. subst md md'.
  assert (Hrun :
    (Dict.mem PyStr.eqb path (metadata_store s) = false
     /\ post r = s /\ outcome r = inr tt /\ saves (effects r) = [])
    \/ (Dict.mem PyStr.eqb path (metadata_store s) = true
        /\ post r
           = with_metadata s (Dict.remove PyStr.eqb path (metadata_store s))
        /\ outcome r = inr tt
        /\ forall ix, faiss_index s = Some ix ->
             saves (effects r)
             = [EvSave ix (Dict.remove PyStr.eqb path (metadata_store s))
                  (next_id_counter s)])).
  { subst r. destruct Hr as [-> | ->];
      [rewrite remove_service_run | rewrite remove_agent_run];
      (destruct (Dict.mem PyStr.eqb path (metadata_store s)) eqn:E;
       [right | left; cbn; auto]);
      (destruct (faiss_index s) as [ix|]; cbn; repeat split; auto;
       intros ix' [= <-] || intros ix' [=]; reflexivity). }
  destruct Hrun as [(E & Hp & Ho & Hs) | (E & Hp & Ho & Hs)].
  - apply mem_false_get in E. rewrite Hp.
    split; [assumption|]. split; [reflexivity|]. split; [reflexivity|].
    split; [reflexivity|]. split; [auto|].
    intros e0 He. congruence.
  - rewrite Hp. cbn.
    split; [assumption|]. split; [reflexivity|]. split; [reflexivity|].
    split; [reflexivity|]. split.
    + intros N. apply mem_false_get in N. congruence.
    + intros e0 _. split; [reflexivity|].
      split; [apply get_remove_same|].
      split; [intros q ne; now apply get_remove_other|].
      split; [intros nd; now apply remove_length|].
      split; [assumption|].
      intros model ix0 ops Hreach.
      pose proof (reachable_index_ready model ix0 ops) as Hready.
      rewrite <- Hreach in Hready.
      destruct (faiss_index s) as [ix|] eqn:F.
      * exists ix. split; [reflexivity | now apply Hs].
      * exfalso. apply Hready; [|exact F].
        intros Hnil. apply mem_true_get in E as (e1 & He1).
        rewrite Hnil in He1. discriminate He1.
Qed.

(** C1 (amended).  An upsert that has to embed, and whose [encode] call
    raises, returns without an error after that one call: the metadata
    mapping, the vector index and the embedder are what they were and
    nothing is saved.  [next_id_counter] is what it was for a path already
    in the store; for a new path it has been advanced by one, the id drawn
    before the call being lost. *)
Theorem encode_failure_aborts (o : op) (s : FaissService)
  (model : EmbeddingsClient) (ix : Index) (path text : str) :
  upsert_path o = Some path ->
  upsert_text o = Some text ->
  embedding_model s = Some model ->
  faiss_index s = Some ix ->
  (forall e, Dict.get PyStr.eqb path (metadata_store s) = Some e ->
             text_for_embedding e <> text) ->
  model text = None ->
  let r := run_op o s in
  outcome r = inr tt
  /\ metadata_store (post r) = metadata_store s
  /\ faiss_index (post r) = faiss_index s
  /\ embedding_model (post r) = embedding_model s
  /\ saves (effects r) = []
  /\ embedder_calls (effects r) = [EvEncode text]
  /\ next_id_counter (post r)
     = (if Dict.mem PyStr.eqb path (metadata_store s)
        then next_id_counter s
        else (next_id_counter s + 1)%Z).
Proof.
  intros Hp Ht Hm Hi Hneed Hfail r. subst r.
  destruct s as [model' ix' md next]. cbn in Hm, Hi, Hneed |- *.
  subst model' ix'.
  unfold Dict.mem.
  destruct o as [p info en | p card en | p | p | p]; cbn in Hp, Ht;
    try discriminate; injection Hp as ->; injection Ht as <-;
    cbn [run_op]; [unfold add_or_update_service | unfold add_or_update_agent];
    run_upsert;
    (destruct (Dict.get PyStr.eqb path md) as [e|] eqn:G; run_upsert;
     [ match goal with
       | |- context [PyStr.eqb (text_for_embedding e) ?text] =>
           destruct (str_eqb_spec (text_for_embedding e) text) as [Heq|Hne]
       end;
       [ exfalso; exact (Hneed e eq_refl Heq) | run_upsert ]
     | ]);
    rewrite Hfail; run_upsert; repeat split; reflexivity.
Qed.

Lemma encode_failure_aborts_witness :
  let s := empty_store (Some failing_model) (Some (empty_index 2)) in
  let r := run_op (AddService "/weather" sample_server true) s in
  outcome r = inr tt
  /\ metadata_store (post r) = metadata_store s
  /\ faiss_index (post r) = faiss_index s
  /\ embedding_model (post r) = embedding_model s
  /\ saves (effects r) = []
  /\ embedder_calls (effects r)
     = [EvEncode (_get_text_for_embedding sample_server)]
  /\ next_id_counter (post r) = 1%Z.
Proof.
  apply (encode_failure_aborts
           (AddService "/weather" sample_server true)
           (empty_store (Some failing_model) (Some (empty_index 2)))
           failing_model (empty_index 2) "/weather"
           (_get_text_for_embedding sample_server)).
  - reflexivity.
  - reflexivity.
  - reflexivity.
  - reflexivity.
  - intros e H. discriminate H.
  - reflexivity.
Defined.

(** C1 as stated fails: for a new path the failed call leaves
    [next_id_counter] changed. *)
Lemma encode_failure_moves_counter :
  let s := empty_store (Some failing_model) (Some (empty_index 2)) in
  let r := add_or_update_service "/weather" sample_server true s in
  Dict.get PyStr.eqb "/weather" (metadata_store s) = None
  /\ embedder_calls (effects r)
     = [EvEncode (_get_text_for_embedding sample_server)]
  /\ metadata_store (post r) = metadata_store s
  /\ next_id_counter (post r) <> next_id_counter s.
Proof.
  vm_compute. repeat split; try reflexivity. discriminate.
Qed.

Lemma dict_eqb_same (a b : list (str * str)) :
  dict_eqb a b = true <-> same_dict a b.
Proof.
  unfold dict_eqb, same_dict. rewrite forallb_forall. split.
  - intros H k.
    destruct (in_dec str_eq_dec k (Dict.keys a ++ Dict.keys b)%list)
      as [Hin|Hout].
    + specialize (H k Hin).
      now destruct (option_eq_dec str_eq_dec _ _).
    + assert (Ha : ~ In k (Dict.keys a))
        by (intros Hk; apply Hout, in_or_app; now left).
      assert (Hb : ~ In k (Dict.keys b))
        by (intros Hk; apply Hout, in_or_app; now right).
      apply get_None_keys in Ha, Hb. congruence.
  - intros H k _. rewrite (H k).
    now destruct (option_eq_dec str_eq_dec _ _).
Qed.

Lemma ServerInfo_eqb_same (a b : ServerInfo) :
  ServerInfo_eqb a b = true <-> same_server_info a b.
Proof.
  unfold ServerInfo_eqb, same_server_info.
  rewrite andb_true_iff, dict_eqb_same.
  destruct (ServerInfo_eq_dec _ _); intuition discriminate.
Qed.

Lemma AgentCard_eqb_same (a b : AgentCard) :
  AgentCard_eqb a b = true <-> same_agent_card a b.
Proof.
  unfold AgentCard_eqb, same_agent_card.
  rewrite andb_true_iff, dict_eqb_same.
  destruct (AgentCard_eq_dec _ _); intuition discriminate.
Qed.

Lemma ServerInfo_eqb_refl (a : ServerInfo) : ServerInfo_eqb a a = true.
Proof. apply ServerInfo_eqb_same. split; [reflexivity | now intros k]. Qed.

Lemma AgentCard_eqb_refl (a : AgentCard) : AgentCard_eqb a a = true.
Proof. apply AgentCard_eqb_same. split; [reflexivity | now intros k]. Qed.

Lemma differs_same {A} (eqb : A -> A -> bool) (a : option A) :
  (forall x, eqb x x = true) -> differs eqb a a = false.
Proof.
  intros H. unfold differs. destruct a as [x|]; [now rewrite H | reflexivity].
Qed.



(** ** The id lifecycle *)

Lemma NoDup_map_filter {A B} (keep : A -> bool) (image : A -> B) xs :
  NoDup (map image xs) -> NoDup (map image (filter keep xs)).
Proof.
  induction xs as [|a xs IH]; cbn; [auto|].
  intros nd. inversion nd as [|? ? notin nd']; subst.
  destruct (keep a); cbn; [|auto].
  constructor; [|auto].
  intros H. apply notin. apply in_map_iff in H as (x & <- & Hx).
  apply filter_In in Hx as [Hx _]. now apply in_map.
Qed.

Lemma NoDup_snoc {A} (l : list A) (x : A) :
  NoDup l -> ~ In x l -> NoDup (l ++ [x]).
Proof.
  induction l as [|a l IH]; cbn; intros nd notin.
  - constructor; [tauto | constructor].
  - inversion nd as [|? ? na nd']; subst. constructor.
    + rewrite in_app_iff. cbn. intros [H|[H|[]]]; [tauto | subst; tauto].
    + apply IH; tauto.
Qed.

Lemma ids_set_present path (e e' : Entry) (md : list (str * Entry)) :
  Dict.get PyStr.eqb path md = Some e ->
  entry_id e' = entry_id e ->
  map (fun pe => entry_id (snd pe)) (Dict.set PyStr.eqb path e' md)
  = map (fun pe => entry_id (snd pe)) md.
Proof.
  unfold Dict.get, Dict.set.
  induction md as [|[k v] md IH]; cbn; [discriminate|].
  destruct (PyStr.eqb path k); cbn.
  - intros [= ->] ->. reflexivity.
  - intros G E. f_equal. now apply IH.
Qed.

Lemma consistent_remove path s :
  ids_consistent s ->
  ids_consistent
    (with_metadata s (Dict.remove PyStr.eqb path (metadata_store s))).
Proof.
  unfold ids_consistent, live_ids, Dict.keys, Dict.remove. cbn.
  intros (nk & ni & bound & pos). repeat split; try assumption.
  - now apply NoDup_map_filter.
  - now apply NoDup_map_filter.
  - rewrite Forall_forall in *. intros i Hi. apply bound.
    apply in_map_iff in Hi as (x & <- & Hx).
    apply filter_In in Hx as [Hx _]. apply in_map_iff. eauto.
Qed.

(** An upsert of the shape [upsert_shape] keeps the ids consistent. *)
Lemma consistent_upsert path s r :
  upsert_shape path s r -> ids_consistent s -> ids_consistent (post r).
Proof.
  unfold upsert_shape, ids_consistent, live_ids.
  intros (_ & _ & H) (nk & ni & bound & pos).
  destruct (Dict.get PyStr.eqb path (metadata_store s)) as [e|] eqn:G.
  - destruct H as (-> & [-> | (e' & He' & ->)]); [auto|].
    rewrite keys_set_present
      by (apply mem_true_get; eauto).
    rewrite (ids_set_present _ _ _ _ G He'). auto.
  - assert (wider : Forall (fun i => (0 <= i < next_id_counter s + 1)%Z)
                      (map (fun pe => entry_id (snd pe)) (metadata_store s))).
    { eapply Forall_impl; [|exact bound]. cbn. intros; lia. }
    destruct H as [(-> & ->) | (-> & [-> | (e' & He' & ->)])];
      [auto | repeat split; auto; lia |].
    rewrite (set_absent _ _ _ G). unfold Dict.keys.
    rewrite !map_app. cbn. rewrite He'. repeat split.
    + apply NoDup_snoc; [assumption|]. now apply get_None_keys.
    + apply NoDup_snoc; [assumption|].
      intros Hin. rewrite Forall_forall in bound.
      apply bound in Hin. lia.
    + apply Forall_app. split; [assumption|].
      constructor; [lia | constructor].
    + lia.
Qed.

Lemma run_op_consistent o s : ids_consistent s -> ids_consistent (post (run_op o s)).
Proof.
  intros H. destruct (remove_post (match o with
                                   | RemoveService p | RemoveAgent p
                                   | RemoveEntity p => p
                                   | _ => "" end) s) as (Hs & Ha & He).
  destruct o as [p info en | p card en | p | p | p]; cbn [run_op].
  - eapply consistent_upsert; [apply add_or_update_service_shape | assumption].
  - eapply consistent_upsert; [apply add_or_update_agent_shape | assumption].
  - rewrite Hs. now apply consistent_remove.
  - rewrite Ha, Hs. now apply consistent_remove.
  - rewrite He, Hs. now apply consistent_remove.
Qed.

Lemma run_ops_consistent ops s : ids_consistent s -> ids_consistent (run_ops ops s).
Proof.
  revert s. induction ops as [|o ops IH]; cbn; intros s H; [assumption|].
  apply IH. now apply run_op_consistent.
Qed.

(** C2.  In every state reached from the empty store by upserts and
    removals, whatever the embedder and the index do, the ids of the live
    entries are pairwise distinct and [next_id_counter] is greater than
    each of them. *)
Theorem live_ids_distinct_below_counter (model : option EmbeddingsClient)
  (ix : option Index) (ops : list op) :
  let s := run_ops ops (empty_store model ix) in
  NoDup (live_ids s)
  /\ Forall (fun i => (i < next_id_counter s)%Z) (live_ids s).
Proof.
  intros s.
  assert (H : ids_consistent s).
  { apply run_ops_consistent. unfold ids_consistent, live_ids. cbn.
    repeat split; try constructor; lia. }
  destruct H as (_ & nd & bound & _). split; [assumption|].
  eapply Forall_impl; [|exact bound]. cbn. intros; lia.
Qed.

(** A successful upsert of a new path: it takes the id [next_id_counter],
    puts its vector in the index and its entry last in the store. *)
Lemma upsert_new_path o s model ix path text v :
  upsert_path o = Some path ->
  upsert_text o = Some text ->
  embedding_model s = Some model ->
  faiss_index s = Some ix ->
  Dict.get PyStr.eqb path (metadata_store s) = None ->
  model text = Some v ->
  List.length v = index_d ix ->
  exists e,
    entry_id e = next_id_counter s
    /\ text_for_embedding e = text
    /\ post (run_op o s)
       = {| embedding_model := Some model;
            faiss_index :=
              Some {| index_d := index_d ix;
                      index_vectors :=
                        (index_vectors ix ++ [(next_id_counter s, v)])%list |};
            metadata_store := (metadata_store s ++ [(path, e)])%list;
            next_id_counter := (next_id_counter s + 1)%Z |}.
Proof.
  intros Hp Ht Hm Hi G V L.
  destruct s as [model' ix' md next]. cbn in Hm, Hi, G |- *. subst model' ix'.
  destruct o as [p info en | p card en | p | p | p]; cbn in Hp, Ht;
    try discriminate; injection Hp as ->; injection Ht as <-;
    cbn [run_op]; [unfold add_or_update_service | unfold add_or_update_agent];
    run_upsert; rewrite G; run_upsert; rewrite V; run_upsert;
    rewrite L, Nat.eqb_refl; run_upsert;
    rewrite (set_absent _ _ _ G);
    eexists; (split; [|split; [|reflexivity]]); reflexivity.
Qed.


Lemma ids_from_S start n :
  ids_from start (S n) = start :: ids_from (start + 1) n.
Proof.
  unfold ids_from. cbn [seq map]. rewrite Z.add_0_r. f_equal.
  rewrite <- seq_shift, map_map. apply map_ext. intros i. lia.
Qed.

Lemma fresh_ids_from (model : EmbeddingsClient) (ops : list op) :
  forall (paths : list str) (s : FaissService) (ix : Index),
  map upsert_path ops = map Some paths ->
  NoDup paths ->
  (forall p, In p paths -> Dict.get PyStr.eqb p (metadata_store s) = None) ->
  embedding_model s = Some model ->
  faiss_index s = Some ix ->
  (forall o text, In o ops -> upsert_text o = Some text ->
     exists v, model text = Some v /\ List.length v = index_d ix) ->
  let s' := run_ops ops s in
  next_id_counter s' = (next_id_counter s + Z.of_nat (List.length ops))%Z
  /\ path_ids s'
     = (path_ids s
        ++ combine paths (ids_from (next_id_counter s) (List.length ops)))%list
  /\ index_ids s'
     = (index_ids s ++ ids_from (next_id_counter s) (List.length ops))%list.
Proof.
  induction ops as [|o ops IH]; intros paths s ix Hp nd fresh Hm Hi ok.
  - cbn. destruct paths; [|discriminate]. cbn.
    rewrite !app_nil_r. repeat split. lia.
  - destruct paths as [|path paths]; [discriminate|].
    cbn in Hp. injection Hp as Hpo Hps.
    inversion nd as [|? ? notin nd']; subst.
    assert (exists text, upsert_text o = Some text) as [text Ht].
    { destruct o; cbn in Hpo |- *; try discriminate; eauto. }
    destruct (ok o text (or_introl eq_refl) Ht) as (v & V & L).
    destruct (upsert_new_path o s model ix path text v Hpo Ht Hm Hi
                (fresh path (or_introl eq_refl)) V L) as (e & He & _ & Hpost).
    cbn [run_ops fold_left]. fold (run_ops ops (post (run_op o s))).
    specialize (IH paths (post (run_op o s))
                  {| index_d := index_d ix;
                     index_vectors :=
                       (index_vectors ix ++ [(next_id_counter s, v)])%list |}
                  Hps nd').
    rewrite Hpost in IH |- *. cbn in IH.
    destruct IH as (Hc & Hpi & Hii).
    + intros p Hin.
      assert (Hne : p <> path) by (intros ->; contradiction).
      rewrite <- (set_absent path e (metadata_store s))
        by (apply fresh; now left).
      rewrite get_set_other by assumption. apply fresh. now right.
    + reflexivity.
    + reflexivity.
    + intros o' text' Hin. apply ok. now right.
    + cbv zeta. rewrite Hc, Hpi, Hii.
      cbn [List.length]. rewrite ids_from_S. unfold path_ids, index_ids.
      cbn. rewrite Hi. rewrite !map_app. cbn. rewrite He.
      rewrite <- !app_assoc. cbn. repeat split. lia.
Qed.

(** C5.  From the empty store, [N] upserts of [N] distinct paths that all
    succeed (the embedder returns a vector of the dimension of the index)
    leave [next_id_counter = N] and give the paths the ids [0 .. N-1] in
    the order of the calls; the vectors carry the same ids. *)
Theorem fresh_ids_in_order (model : EmbeddingsClient) (d : nat)
  (ops : list op) (paths : list str) :
  map upsert_path ops = map Some paths ->
  NoDup paths ->
  (forall o text, In o ops -> upsert_text o = Some text ->
     exists v, model text = Some v /\ List.length v = d) ->
  let s := run_ops ops (empty_store (Some model) (Some (empty_index d))) in
  let N := List.length ops in
  next_id_counter s = Z.of_nat N
  /\ path_ids s = combine paths (ids_from 0 N)
  /\ index_ids s = ids_from 0 N
  /\ ids_from 0 N = map Z.of_nat (seq 0 N).
Proof.
  intros Hp nd ok s N.
  destruct (fresh_ids_from model ops paths
              (empty_store (Some model) (Some (empty_index d)))
              (empty_index d) Hp nd) as (Hc & Hpi & Hii);
    try reflexivity; try assumption.
  split; [exact Hc|]. split; [exact Hpi|]. split; [exact Hii|].
  reflexivity.
Qed.

(** ** Sorting and truncation *)

Section SortFacts.
Context {A K : Type} (key : A -> K) (lt : K -> K -> bool).

Lemma insert_desc_perm x l : Permutation (insert_desc key lt x l) (x :: l).
Proof.
  induction l as [|y l IH]; cbn; [reflexivity|].
  destruct (lt (key x) (key y)); [|reflexivity].
  rewrite IH. apply perm_swap.
Qed.

Lemma sort_desc_perm l : Permutation (sort_desc key lt l) l.
Proof.
  induction l as [|x l IH]; cbn; [reflexivity|].
  rewrite insert_desc_perm. now constructor.
Qed.

Lemma sort_desc_In x l : In x (sort_desc key lt l) <-> In x l.
Proof.
  split; apply Permutation_in;
    [apply sort_desc_perm | symmetry; apply sort_desc_perm].
Qed.

End SortFacts.

Lemma firstn_In {A} (n : nat) (l : list A) x : In x (firstn n l) -> In x l.
Proof.
  revert l. induction n as [|n IH]; intros [|a l]; cbn; try tauto.
  intros [->|H]; auto.
Qed.

(** ** Search *)

#[local] Arguments _extract_matching_tools : simpl never.
#[local] Arguments _distance_to_relevance : simpl never.
#[local] Arguments composite_score : simpl never.
#[local] Arguments in_filter : simpl never.
#[local] Arguments PyStr.or_else : simpl never.
#[local] Arguments PyStr.join : simpl never.
#[local] Arguments PyStr.strip_slash : simpl never.
#[local] Arguments PyStr.is_empty : simpl never.
#[local] Arguments firstn : simpl never.


Lemma visit_hit_listed query entity_filter md id_to_path acc hit :
  listed md acc ->
  listed md (visit_hit query entity_filter md id_to_path acc hit).
Proof.
  destruct acc as [[sr tr] ar], hit as [distance faiss_id].
  intros (Hs & Ht & Ha). unfold visit_hit.
  destruct (Z.eqb faiss_id (-1)); [cbn; auto|].
  destruct (Dict.get Z.eqb faiss_id id_to_path) as [path|]; [|cbn; auto].
  destruct (PyStr.is_empty path); [cbn; auto|].
  destruct (Dict.get PyStr.eqb path md) as [entry|] eqn:G; [|cbn; auto].
  assert (M : Dict.mem PyStr.eqb path md = true)
    by (apply mem_true_get; eauto).
  destruct (PyStr.eqb (entity_type entry) "mcp_server").
  - destruct (full_server_info entry) as [info|]; [|cbn; auto].
    cbn. repeat split.
    + destruct (in_filter "mcp_server" entity_filter); [|assumption].
      intros r Hr. apply in_app_iff in Hr as [Hr|[<-|[]]]; auto.
    + destruct (in_filter "tool" entity_filter); [|assumption].
      intros r Hr. apply in_app_iff in Hr as [Hr|Hr]; [auto|].
      apply in_map_iff in Hr as (t & <- & _). exact M.
    + assumption.
  - destruct (PyStr.eqb (entity_type entry) "a2a_agent"); [|cbn; auto].
    destruct (negb (in_filter "a2a_agent" entity_filter)); [cbn; auto|].
    destruct (full_agent_card entry) as [card|]; [|cbn; auto].
    cbn. repeat split; try assumption.
    intros r Hr. apply in_app_iff in Hr as [Hr|[<-|[]]]; auto.
Qed.

Lemma visit_hits_listed query entity_filter md id_to_path hits acc :
  listed md acc ->
  listed md
    (fold_left (visit_hit query entity_filter md id_to_path) hits acc).
Proof.
  revert acc. induction hits as [|hit hits IH]; cbn; intros acc H; [assumption|].
  apply IH. now apply visit_hit_listed.
Qed.

Section QueryFacts.
Variable index_search : Index -> Vector -> nat -> list (float * Z).

(** Whatever the index returns, a search lists paths of the store only. *)
Lemma search_mixed_lists_store query entity_types max_results s results :
  outcome (search_mixed index_search query entity_types max_results s)
  = inr results ->
  (forall r, In r (servers results) ->
     Dict.mem PyStr.eqb (sr_path r) (metadata_store s) = true)
  /\ (forall r, In r (tools results) ->
        Dict.mem PyStr.eqb (tr_server_path r) (metadata_store s) = true)
  /\ (forall r, In r (agents results) ->
        Dict.mem PyStr.eqb (ar_path r) (metadata_store s) = true).
Proof.
  unfold search_mixed.
  destruct (_ || _); [discriminate|].
  destruct s as [model ix md next]. run_monad.
  destruct model as [model|]; [|discriminate].
  destruct ix as [ix|]; [|discriminate].
  destruct (Z.eqb _ 0).
  { cbn. intros [= <-]. cbn. repeat split; intros r []. }
  unfold encode. run_monad.
  destruct (model _) as [v|]; [|discriminate]. cbn.
  pose proof (visit_hits_listed query (entity_filter_of entity_types) md
                (id_to_path_of md)
                (index_search ix v
                   (Z.to_nat (Z.min (Z.max 1 (Z.min max_results 50))
                                (Z.of_nat (ntotal ix)))))
                ([], [], [])) as H.
  destruct (fold_left _ _ _) as [[sr tr] ar]. cbn.
  intros [= <-]. cbn.
  destruct H as (Hs & Ht & Ha); [cbn; repeat split; intros r []|].
  repeat split; intros r Hr; apply firstn_In, sort_desc_In in Hr; auto.
Qed.

End QueryFacts.

(** ** A removed path stays out of the results *)

Lemma upsert_keeps_absent path s r p :
  upsert_shape path s r -> p <> path ->
  Dict.get PyStr.eqb p (metadata_store s) = None ->
  Dict.get PyStr.eqb p (metadata_store (post r)) = None.
Proof.
  intros (_ & _ & H) ne G.
  destruct (Dict.get PyStr.eqb path (metadata_store s)).
  - destruct H as (_ & [-> | (e' & _ & ->)]); [assumption|].
    now rewrite get_set_other.
  - destruct H as [(_ & ->) | (_ & [-> | (e' & _ & ->)])]; try assumption.
    now rewrite get_set_other.
Qed.

Lemma remove_keeps_absent path s p :
  Dict.get PyStr.eqb p (metadata_store s) = None ->
  Dict.get PyStr.eqb p
    (metadata_store
       (with_metadata s (Dict.remove PyStr.eqb path (metadata_store s))))
  = None.
Proof.
  intros G. cbn. destruct (str_eqb_spec p path) as [->|ne].
  - apply get_remove_same.
  - now rewrite get_remove_other.
Qed.

Lemma run_op_keeps_absent o s p :
  upsert_path o <> Some p ->
  Dict.get PyStr.eqb p (metadata_store s) = None ->
  Dict.get PyStr.eqb p (metadata_store (post (run_op o s))) = None.
Proof.
  intros Hp G.
  destruct o as [q info en | q card en | q | q | q]; cbn [run_op];
    cbn in Hp;
    try (destruct (remove_post q s) as (Hs & Ha & He);
         rewrite ?He, ?Ha, Hs; now apply remove_keeps_absent).
  - eapply upsert_keeps_absent;
      [apply add_or_update_service_shape | congruence | assumption].
  - eapply upsert_keeps_absent;
      [apply add_or_update_agent_shape | congruence | assumption].
Qed.

Lemma run_ops_keep_absent ops s p :
  (forall o, In o ops -> upsert_path o <> Some p) ->
  Dict.get PyStr.eqb p (metadata_store s) = None ->
  Dict.get PyStr.eqb p (metadata_store (run_ops ops s)) = None.
Proof.
  revert s. induction ops as [|o ops IH]; cbn; intros s Hp G; [assumption|].
  apply IH; [auto|]. apply run_op_keeps_absent; auto.
Qed.

Lemma removal_drops_path rm path s :
  rm = RemoveService path \/ rm = RemoveAgent path \/ rm = RemoveEntity path ->
  Dict.get PyStr.eqb path (metadata_store (post (run_op rm s))) = None.
Proof.
  destruct (remove_post path s) as (Hs & Ha & He).
  intros [-> | [-> | ->]]; cbn [run_op]; rewrite ?He, ?Ha, Hs;
    apply get_remove_same.
Qed.


Lemma NoDup_map_inj {A B} (image : A -> B) xs x y :
  NoDup (map image xs) -> In x xs -> In y xs -> image x = image y -> x = y.
Proof.
  induction xs as [|a xs IH]; cbn; [tauto|].
  intros nd. inversion nd as [|? ? notin nd']; subst.
  intros [->|Hx] [->|Hy] E; auto.
  - exfalso. apply notin. rewrite E. now apply in_map.
  - exfalso. apply notin. rewrite <- E. now apply in_map.
Qed.

Lemma live_ids_remove_incl path s i :
  In i (live_ids (with_metadata s (Dict.remove PyStr.eqb path (metadata_store s)))) ->
  In i (live_ids s).
Proof.
  unfold live_ids. cbn. intros H.
  apply in_map_iff in H as (x & <- & Hx). apply remove_incl in Hx.
  apply in_map_iff. eauto.
Qed.

Lemma retired_after_removal rm path s e :
  rm = RemoveService path \/ rm = RemoveAgent path \/ rm = RemoveEntity path ->
  ids_consistent s ->
  Dict.get PyStr.eqb path (metadata_store s) = Some e ->
  id_retired (entry_id e) (post (run_op rm s)).
Proof.
  intros Hrm (nk & ni & bound & pos) G.
  assert (Hpost : post (run_op rm s)
                  = with_metadata s (Dict.remove PyStr.eqb path (metadata_store s))).
  { destruct (remove_post path s) as (Hs & Ha & He).
    destruct Hrm as [-> | [-> | ->]]; cbn [run_op]; congruence. }
  rewrite Hpost. apply get_In in G. split.
  - unfold live_ids. cbn. intros H.
    apply in_map_iff in H as ([q e2] & E & Hx). cbn in E.
    apply filter_In in Hx as [Hx Hq]. cbn in Hq.
    assert (Heq : (q, e2) = (path, e)).
    { eapply (NoDup_map_inj (fun pe => entry_id (snd pe))); eauto. }
    injection Heq as -> ->. rewrite str_eqb_refl in Hq. discriminate.
  - cbn. rewrite Forall_forall in bound.
    apply (bound (entry_id e)). unfold live_ids.
    apply in_map_iff. exists (path, e). auto.
Qed.

Lemma upsert_keeps_retired path s r i :
  upsert_shape path s r -> id_retired i s -> id_retired i (post r).
Proof.
  unfold id_retired, live_ids.
  intros (_ & _ & H) (notin & below).
  destruct (Dict.get PyStr.eqb path (metadata_store s)) as [e|] eqn:G.
  - destruct H as (-> & [-> | (e' & He' & ->)]); [auto|].
    rewrite (ids_set_present _ _ _ _ G He'). auto.
  - destruct H as [(-> & ->) | (-> & [-> | (e' & He' & ->)])];
      [auto | split; [assumption | lia] |].
    rewrite (set_absent _ _ _ G), map_app. cbn. rewrite He'.
    split; [|lia]. rewrite in_app_iff. cbn. intros [H|[H|[]]]; [auto | lia].
Qed.

Lemma run_op_keeps_retired o s i : id_retired i s -> id_retired i (post (run_op o s)).
Proof.
  intros H.
  assert (Hrm : forall p, id_retired i
            (with_metadata s (Dict.remove PyStr.eqb p (metadata_store s)))).
  { intros p. destruct H as (notin & below). split; [|exact below].
    intros Hin. apply notin. eapply live_ids_remove_incl. exact Hin. }
  destruct o as [q info en | q card en | q | q | q]; cbn [run_op];
    try (destruct (remove_post q s) as (Hs & Ha & He);
         rewrite ?He, ?Ha, Hs; now apply Hrm).
  - eapply upsert_keeps_retired; [apply add_or_update_service_shape | assumption].
  - eapply upsert_keeps_retired; [apply add_or_update_agent_shape | assumption].
Qed.

Lemma run_ops_keep_retired ops s i : id_retired i s -> id_retired i (run_ops ops s).
Proof.
  revert s. induction ops as [|o ops IH]; cbn; intros s H; [assumption|].
  apply IH. now apply run_op_keeps_retired.
Qed.

(** The reverse index of [search_mixed] knows live ids only. *)
Lemma get_set_Z (i j : Z) (p : str) (d : list (Z * str)) :
  Dict.get Z.eqb i (Dict.set Z.eqb j p d)
  = if Z.eqb i j then Some p else Dict.get Z.eqb i d.
Proof.
  unfold Dict.get, Dict.set.
  induction d as [|[k v] d IH]; cbn.
  - reflexivity.
  - destruct (Z.eqb_spec j k) as [->|njk]; cbn.
    + destruct (Z.eqb i k); reflexivity.
    + destruct (Z.eqb_spec i k) as [->|nik].
      * destruct (Z.eqb_spec k j); [congruence | reflexivity].
      * exact IH.
Qed.

Lemma id_to_path_live_aux (md : list (str * Entry)) :
  forall (acc : list (Z * str)) i p,
  Dict.get Z.eqb i
    (fold_left (fun acc pe => Dict.set Z.eqb (entry_id (snd pe)) (fst pe) acc)
               md acc) = Some p ->
  Dict.get Z.eqb i acc = Some p
  \/ In i (map (fun pe => entry_id (snd pe)) md).
Proof.
  induction md as [|[q e] md IH]; cbn; intros acc i p H; [auto|].
  apply IH in H as [H|H]; [|auto].
  rewrite get_set_Z in H. destruct (Z.eqb_spec i (entry_id e)); auto.
Qed.

Lemma id_to_path_live s i p :
  Dict.get Z.eqb i (id_to_path_of (metadata_store s)) = Some p ->
  In i (live_ids s).
Proof.
  intros H. apply id_to_path_live_aux in H as [H|H]; [discriminate | exact H].
Qed.

Lemma retired_unresolved i s :
  id_retired i s -> Dict.get Z.eqb i (id_to_path_of (metadata_store s)) = None.
Proof.
  intros (notin & _).
  destruct (Dict.get Z.eqb i (id_to_path_of (metadata_store s))) eqn:G;
    [|reflexivity].
  exfalso. apply notin. eapply id_to_path_live. exact G.
Qed.


Lemma strip_blank s : blank s = true -> PyStr.strip s = "".
Proof.
  unfold blank, PyStr.strip.
  induction s as [|c s IH]; cbn; [reflexivity|].
  intros H. apply andb_true_iff in H as [Hc Hs]. rewrite Hc. auto.
Qed.

Section SearchProperties.
Variable index_search : Index -> Vector -> nat -> list (float * Z).

(** C7.  After [path] has been removed (by any of the three removals) and
    as long as no upsert names it again, the vector index still holds what
    it held, yet no search returns a server, a tool or an agent under
    [path]; and in a store with consistent ids the id of the removed entry
    resolves to no path, so that a hit on its vector is skipped. *)
Theorem removed_path_not_found (path : str) (s : FaissService) (rm : op)
  (ops : list op) (query : str) (entity_types : option (list str))
  (max_results : Z) :
  rm = RemoveService path \/ rm = RemoveAgent path \/ rm = RemoveEntity path ->
  (forall o, In o ops -> upsert_path o <> Some path) ->
  let s' := run_ops ops (post (run_op rm s)) in
  faiss_index (post (run_op rm s)) = faiss_index s
  /\ (forall results,
        outcome (search_mixed index_search query entity_types max_results s')
        = inr results ->
        (forall r, In r (servers results) -> sr_path r <> path)
        /\ (forall r, In r (tools results) -> tr_server_path r <> path)
        /\ (forall r, In r (agents results) -> ar_path r <> path))
  /\ (forall e,
        ids_consistent s ->
        Dict.get PyStr.eqb path (metadata_store s) = Some e ->
        Dict.get Z.eqb (entry_id e) (id_to_path_of (metadata_store s')) = None).
Proof.
  intros Hrm Hops s'.
  assert (Habsent : Dict.get PyStr.eqb path (metadata_store s') = None).
  { apply run_ops_keep_absent; [assumption|]. now apply removal_drops_path. }
  split; [|split].
  - destruct (remove_post path s) as (Hs & Ha & He).
    destruct Hrm as [-> | [-> | ->]]; cbn [run_op]; rewrite ?He, ?Ha, Hs;
      reflexivity.
  - intros results Hres.
    apply search_mixed_lists_store in Hres as (Hsr & Htr & Har).
    apply mem_false_get in Habsent.
    repeat split; intros r Hr E.
    + apply Hsr in Hr. congruence.
    + apply Htr in Hr. congruence.
    + apply Har in Hr. congruence.
  - intros e Hcons G. apply retired_unresolved.
    apply run_ops_keep_retired. eapply retired_after_removal; eauto.
Qed.

(** C8.  A query that is empty or made of whitespace only is refused with
    the [ValueError], whatever the filter, the limit and the state (an
    uninitialised service included): the state is untouched and the run
    has no effect at all, so the embedder is not called. *)
Theorem blank_query_rejected (query : str)
  (entity_types : option (list str)) (max_results : Z) (s : FaissService) :
  blank query = true ->
  search_mixed index_search query entity_types max_results s
  = mkRun (inl (ValueError "Query text is required for semantic search")) s [].
Proof.
  intros H. unfold search_mixed. rewrite (strip_blank _ H).
  rewrite orb_true_r. reflexivity.
Qed.

End SearchProperties.

(** ** Binary64 addition does not cancel non-negative numbers *)

Section Binary64.
Local Open Scope Z_scope.

Lemma digits2_size p : digits2_pos p = Pos.size p.
Proof. induction p; cbn; congruence. Qed.

Lemma size_lower p : 2 ^ (Zpos (Pos.size p) - 1) <= Zpos p.
Proof.
  pose proof (Pos.size_le p) as H.
  apply Pos2Z.pos_le_pos in H. rewrite Pos2Z.inj_pow in H.
  replace (Zpos (Pos.size p)) with (Z.succ (Zpos (Pos.size p) - 1)) in H by lia.
  rewrite Z.pow_succ_r in H by lia.
  change (Zpos p~0) with (2 * Zpos p) in H. lia.
Qed.

Lemma size_upper p : Zpos p < 2 ^ Zpos (Pos.size p).
Proof.
  pose proof (Pos.size_gt p) as H.
  apply Pos2Z.pos_lt_pos in H. now rewrite Pos2Z.inj_pow in H.
Qed.

(** [k] digits at least, for a number of at least [2 ^ (k - 1)]. *)
Lemma size_at_least p k : 2 ^ (k - 1) <= Zpos p -> k <= Zpos (Pos.size p).
Proof.
  intros H. pose proof (size_upper p) as U.
  destruct (Z_le_gt_dec k (Zpos (Pos.size p))) as [L|G]; [assumption|].
  exfalso.
  assert (2 ^ Zpos (Pos.size p) <= 2 ^ (k - 1))
    by (apply Z.pow_le_mono_r; lia).
  lia.
Qed.

Lemma shr_1_div2 mrs : 0 <= shr_m mrs -> shr_m (shr_1 mrs) = Z.div2 (shr_m mrs).
Proof.
  destruct mrs as [m r s]. cbn.
  destruct m as [|[p|p|]|p]; cbn; intros H; try reflexivity; lia.
Qed.

Lemma iter_shr_1 n : forall mrs,
  0 <= shr_m mrs ->
  shr_m (iter_pos shr_1 n mrs) = Z.shiftr (shr_m mrs) (Zpos n).
Proof.
  induction n as [n IH|n IH|]; intros mrs H; cbn [iter_pos].
  - assert (H1 : 0 <= shr_m (shr_1 mrs))
      by (rewrite shr_1_div2 by assumption; now apply Z.div2_nonneg).
    assert (H2 : 0 <= shr_m (iter_pos shr_1 n (shr_1 mrs)))
      by (rewrite IH by assumption; now apply Z.shiftr_nonneg).
    rewrite IH, IH, shr_1_div2 by assumption.
    rewrite Z.div2_spec, !Z.shiftr_shiftr by lia.
    f_equal. lia.
  - assert (H2 : 0 <= shr_m (iter_pos shr_1 n mrs))
      by (rewrite IH by assumption; now apply Z.shiftr_nonneg).
    rewrite IH, IH by assumption.
    rewrite Z.shiftr_shiftr by lia. f_equal. lia.
  - rewrite shr_1_div2 by assumption. apply Z.div2_spec.
Qed.

Lemma fexp_normal k : 1 <= k -> fexp prec emax k = k - 53.
Proof. intros H. unfold fexp, emin, prec, emax. lia. Qed.

(** Shifting a number of magnitude at least 1 to its format keeps a
    positive mantissa, and the magnitude. *)
Lemma shr_fexp_pos q e l :
  1 <= Zpos (Pos.size q) + e ->
  exists q' e',
    shr_fexp prec emax (Zpos q) e l = (q', e')
    /\ (exists p', shr_m q' = Zpos p' /\ 1 <= Zpos (Pos.size p') + e').
Proof.
  intros H. unfold shr_fexp, Zdigits2. rewrite digits2_size.
  rewrite fexp_normal by assumption.
  replace (Zpos (Pos.size q) + e - 53 - e) with (Zpos (Pos.size q) - 53) by lia.
  unfold shr.
  destruct (Zpos (Pos.size q) - 53) as [|n|n] eqn:N.
  - eexists _, _. split; [reflexivity|]. exists q.
    split; [now destruct l as [|[]]|assumption].
  - eexists _, _. split; [reflexivity|].
    rewrite iter_shr_1 by (destruct l as [|[]]; cbn; lia).
    replace (shr_m (shr_record_of_loc (Zpos q) l)) with (Zpos q)
      by now destruct l as [|[]].
    rewrite Z.shiftr_div_pow2 by lia.
    pose proof (size_lower q) as Lq.
    assert (Hpow : 2 ^ (Zpos (Pos.size q) - 1)
                   = 2 ^ (Zpos (Pos.size q) - 1 - Zpos n) * 2 ^ Zpos n)
      by (rewrite <- Z.pow_add_r by lia; f_equal; lia).
    assert (Hdiv : 2 ^ (Zpos (Pos.size q) - 1 - Zpos n)
                   <= Zpos q / 2 ^ Zpos n).
    { apply Z.div_le_lower_bound; [apply Z.pow_pos_nonneg; lia|]. lia. }
    assert (Hpos : 0 < 2 ^ (Zpos (Pos.size q) - 1 - Zpos n))
      by (apply Z.pow_pos_nonneg; lia).
    destruct (Zpos q / 2 ^ Zpos n) as [|p'|p'] eqn:D; try lia.
    exists p'. split; [reflexivity|].
    assert (Zpos (Pos.size q) - Zpos n <= Zpos (Pos.size p')).
    { apply size_at_least.
      replace (Zpos (Pos.size q) - Zpos n - 1)
        with (Zpos (Pos.size q) - 1 - Zpos n) by lia.
      assumption. }
    lia.
  - eexists _, _. split; [reflexivity|]. exists q.
    split; [now destruct l as [|[]]|assumption].
Qed.

Lemma size_mono p q : (p <= q)%positive -> Zpos (Pos.size p) <= Zpos (Pos.size q).
Proof.
  intros H. apply size_at_least.
  pose proof (size_lower p). lia.
Qed.

Lemma binary_round_aux_nonzero s q e l :
  1 <= Zpos (Pos.size q) + e ->
  nonzero (binary_round_aux prec emax s (Zpos q) e l).
Proof.
  intros H. unfold binary_round_aux.
  destruct (shr_fexp_pos q e l H) as (mrs1 & e1 & -> & p1 & Hm1 & H1).
  rewrite Hm1.
  assert (exists p2, round_nearest_even (Zpos p1) (loc_of_shr_record mrs1)
                     = Zpos p2 /\ (p1 <= p2)%positive) as (p2 & -> & Hp2).
  { unfold round_nearest_even.
    destruct (loc_of_shr_record mrs1) as [|[]];
      try (exists p1; split; [reflexivity | lia]);
      try (exists (p1 + 1)%positive; split; [reflexivity | lia]).
    destruct (Z.even (Zpos p1));
      [exists p1 | exists (p1 + 1)%positive]; split; try reflexivity; lia. }
  assert (H2 : 1 <= Zpos (Pos.size p2) + e1)
    by (pose proof (size_mono p1 p2 Hp2); lia).
  destruct (shr_fexp_pos p2 e1 loc_Exact H2) as (mrs2 & e2 & -> & p3 & -> & _).
  now destruct (e2 <=? emax - prec).
Qed.

Lemma size_iter_xO p d : Pos.size (Pos.iter xO p d) = (Pos.size p + d)%positive.
Proof.
  induction d as [|d IH] using Pos.peano_ind.
  - cbn. lia.
  - rewrite Pos.iter_succ. cbn. rewrite IH. lia.
Qed.

Lemma binary_round_nonzero s p e :
  1 <= Zpos (Pos.size p) + e ->
  nonzero (binary_round prec emax s p e).
Proof.
  intros H. unfold binary_round. rewrite digits2_size.
  rewrite fexp_normal by assumption. unfold shl_align.
  destruct (Zpos (Pos.size p) + e - 53 - e) as [|d|d] eqn:D.
  - now apply binary_round_aux_nonzero.
  - now apply binary_round_aux_nonzero.
  - apply binary_round_aux_nonzero. rewrite size_iter_xO. lia.
Qed.

Lemma nonzero_not_zero x : nonzero x -> SFeqb x (S754_zero false) = false.
Proof. destruct x as [s|s| |s m e]; cbn; try tauto; now destruct s. Qed.

Lemma nonneg_cases (x : spec_float) :
  SFleb (S754_zero false) x = true ->
  (exists s, x = S754_zero s) \/ x = S754_infinity false
  \/ exists m e, x = S754_finite false m e.
Proof.
  destruct x as [s|[]| |[] m e]; cbn; try discriminate; eauto.
Qed.

Lemma add_one_nonzero (m : positive) (e : Z) :
  nonzero (SFadd prec emax (S754_finite false 4503599627370496 (-52))
             (S754_finite false m e)).
Proof.
  unfold SFadd, cond_Zopp. set (ez := Z.min (-52) e).
  set (a := fst (shl_align 4503599627370496 (-52) ez)).
  set (b := fst (shl_align m e ez)).
  change (Zpos a + Zpos b) with (Zpos (a + b)).
  unfold binary_normalize. apply binary_round_nonzero.
  assert (Ha : Zpos (Pos.size a) = 1 - ez).
  { unfold a, shl_align.
    destruct (ez - -52) as [|dd|dd] eqn:D; cbn [fst].
    - change (Zpos (Pos.size 4503599627370496)) with 53. lia.
    - lia.
    - rewrite size_iter_xO.
      change (Pos.size 4503599627370496) with 53%positive. lia. }
  pose proof (size_mono a (a + b) ltac:(lia)). lia.
Qed.

(** For a distance that is not negative, [1.0 + distance] is not zero:
    [_distance_to_relevance] does not divide by zero. *)
Lemma one_plus_nonneg (d : float) :
  (0 <=? d)%float = true -> (1 + d =? 0)%float = false.
Proof.
  rewrite FloatAxioms.leb_spec, FloatAxioms.eqb_spec, FloatAxioms.add_spec.
  change (Prim2SF 0) with (S754_zero false).
  change (Prim2SF 1) with (S754_finite false 4503599627370496 (-52)).
  intros H. apply nonzero_not_zero.
  destruct (nonneg_cases _ H) as [[s ->] | [-> | (m & e & ->)]].
  - exact I.
  - exact I.
  - apply add_one_nonzero.
Qed.

End Binary64.

Lemma float_ltb_leb (a b : float) : (a <? b)%float = true -> (a <=? b)%float = true.
Proof.
  rewrite FloatAxioms.ltb_spec, FloatAxioms.leb_spec. unfold SFltb, SFleb.
  destruct (SFcompare _ _) as [[]|]; congruence.
Qed.

(** ** The order of the binary64 numbers *)

Lemma SFcompare_rank f g :
  f <> S754_nan -> g <> S754_nan ->
  SFcompare f g = Some (lex3 (sf_rank f) (sf_rank g)).
Proof.
  destruct f as [s|s| |s m e], g as [s'|s'| |s' m' e'];
    try congruence; intros _ _; cbn;
    try (destruct s; try destruct s'; reflexivity);
    try (destruct s'; reflexivity).
  destruct s, s'; cbn; try reflexivity;
    try rewrite Z.compare_opp, (Z.compare_antisym e e');
    destruct (e ?= e')%Z; reflexivity.
Qed.

Ltac lex3_cases :=
  unfold lex3;
  repeat match goal with
         | |- context [(?x ?= ?y)%Z] => destruct (Z.compare_spec x y)
         end;
  intros; try congruence; try (exfalso; lia).

Lemma lex3_negtrans a b c :
  lex3 a b <> Lt -> lex3 b c <> Lt -> lex3 a c <> Lt.
Proof.
  destruct a as [[a1 a2] a3], b as [[b1 b2] b3], c as [[c1 c2] c3].
  lex3_cases.
Qed.

Lemma lex3_asym a b : lex3 a b = Lt -> lex3 b a <> Lt.
Proof.
  destruct a as [[a1 a2] a3], b as [[b1 b2] b3]. lex3_cases.
Qed.

Lemma lex3_le_trans a b c :
  lex3 a b <> Gt -> lex3 b c <> Gt -> lex3 a c <> Gt.
Proof.
  destruct a as [[a1 a2] a3], b as [[b1 b2] b3], c as [[c1 c2] c3].
  lex3_cases.
Qed.

Lemma lex3_total a b : lex3 a b <> Lt -> lex3 b a <> Gt.
Proof.
  destruct a as [[a1 a2] a3], b as [[b1 b2] b3]. lex3_cases.
Qed.

Lemma float_ltb_rank (a b : float) :
  is_number a -> is_number b ->
  (a <? b)%float = true
  <-> lex3 (sf_rank (Prim2SF a)) (sf_rank (Prim2SF b)) = Lt.
Proof.
  intros Ha Hb. rewrite FloatAxioms.ltb_spec. unfold SFltb.
  rewrite (SFcompare_rank _ _ Ha Hb).
  destruct (lex3 _ _); split; congruence.
Qed.

Lemma float_leb_rank (a b : float) :
  is_number a -> is_number b ->
  (a <=? b)%float = true
  <-> lex3 (sf_rank (Prim2SF a)) (sf_rank (Prim2SF b)) <> Gt.
Proof.
  intros Ha Hb. rewrite FloatAxioms.leb_spec. unfold SFleb.
  rewrite (SFcompare_rank _ _ Ha Hb).
  destruct (lex3 _ _); split; congruence.
Qed.

Lemma float_ltb_negtrans (a b c : float) :
  is_number a -> is_number b -> is_number c ->
  (a <? b)%float = false -> (b <? c)%float = false -> (a <? c)%float = false.
Proof.
  intros Ha Hb Hc Hab Hbc.
  apply not_true_iff_false. rewrite (float_ltb_rank _ _ Ha Hc).
  apply lex3_negtrans with (b := sf_rank (Prim2SF b)).
  - rewrite <- (float_ltb_rank _ _ Ha Hb). congruence.
  - rewrite <- (float_ltb_rank _ _ Hb Hc). congruence.
Qed.

Lemma float_leb_number (a b : float) :
  (a <=? b)%float = true -> is_number a /\ is_number b.
Proof.
  rewrite FloatAxioms.leb_spec. unfold SFleb, is_number.
  destruct (Prim2SF a), (Prim2SF b); cbn; try discriminate;
    intros _; split; discriminate.
Qed.

Lemma float_ltb_asym (a b : float) :
  (a <? b)%float = true -> (b <? a)%float = false.
Proof.
  intros H. destruct (float_leb_number _ _ (float_ltb_leb _ _ H)) as [Ha Hb].
  apply not_true_iff_false. rewrite (float_ltb_rank _ _ Hb Ha).
  apply lex3_asym. now apply float_ltb_rank.
Qed.

Lemma float_not_ltb (a b : float) :
  is_number a -> is_number b ->
  (a <? b)%float = false -> (b <=? a)%float = true.
Proof.
  intros Ha Hb H. apply (float_leb_rank _ _ Hb Ha). apply lex3_total.
  rewrite <- (float_ltb_rank _ _ Ha Hb). congruence.
Qed.

Lemma float_leb_trans (a b c : float) :
  (a <=? b)%float = true -> (b <=? c)%float = true -> (a <=? c)%float = true.
Proof.
  intros Hab Hbc.
  destruct (float_leb_number _ _ Hab) as [Ha Hb].
  destruct (float_leb_number _ _ Hbc) as [_ Hc].
  apply (float_leb_rank _ _ Ha Hc).
  apply lex3_le_trans with (b := sf_rank (Prim2SF b)).
  - now apply (float_leb_rank _ _ Ha Hb).
  - now apply (float_leb_rank _ _ Hb Hc).
Qed.

(** ** Rounding to binary64 keeps the order *)

Section Monotone.
Local Open Scope Z_scope.

Ltac use_bits :=
  repeat match goal with
         | H : true = true <-> ?P |- _ =>
             assert P by (apply H; reflexivity); clear H
         | H : false = true <-> ?P |- _ =>
             assert (~ P) by (let X := fresh in
                              intros X; apply H in X; discriminate); clear H
         end.

Ltac show_bits :=
  repeat match goal with
         | |- _ /\ _ => split
         | |- true = true <-> _ => split; [intros _ | reflexivity]
         | |- false = true <-> _ =>
             split; [discriminate | let X := fresh in intros X; exfalso]
         end.

Lemma shr_1_located a b mrs : located a b mrs -> located a (2 * b) (shr_1 mrs).
Proof.
  destruct mrs as [m r s]. unfold located. cbn [shr_m shr_r shr_s].
  intros (Hb & Hm & Hf & Hr & Hs).
  destruct m as [|[p|p|]|p]; try lia; cbn [shr_1 shr_m shr_r shr_s];
    try rewrite (Pos2Z.inj_xI p) in *; try rewrite (Pos2Z.inj_xO p) in *;
    destruct r, s; cbn [orb]; use_bits; show_bits; lia.
Qed.

Lemma pow2_double n : 2 ^ (2 * n) = 2 ^ n * 2 ^ n.
Proof.
  destruct (Z_le_gt_dec 0 n) as [H|H].
  - replace (2 * n) with (n + n) by lia. now rewrite Z.pow_add_r.
  - rewrite !Z.pow_neg_r by lia. reflexivity.
Qed.

Lemma iter_shr_1_located n : forall a b mrs,
  located a b mrs -> located a (b * 2 ^ Zpos n) (iter_pos shr_1 n mrs).
Proof.
  induction n as [n IH|n IH|]; intros a b mrs H; cbn [iter_pos].
  - apply shr_1_located, IH, IH in H.
    replace (b * 2 ^ Zpos n~1) with (2 * b * 2 ^ Zpos n * 2 ^ Zpos n);
      [assumption|].
    rewrite (Pos2Z.inj_xI n), Z.pow_add_r, pow2_double by lia.
    change (2 ^ 1) with 2. ring.
  - apply IH, IH in H.
    replace (b * 2 ^ Zpos n~0) with (b * 2 ^ Zpos n * 2 ^ Zpos n);
      [assumption|].
    rewrite (Pos2Z.inj_xO n), pow2_double. ring.
  - apply shr_1_located in H. change (2 ^ 1) with 2.
    now replace (b * 2) with (2 * b) by lia.
Qed.

Lemma located_scale a b c mrs :
  0 < c -> located a b mrs -> located (a * c) (b * c) mrs.
Proof.
  unfold located. intros Hc (Hb & Hm & Hf & Hr & Hs).
  set (m := shr_m mrs) in *.
  assert (E : a * c - b * c * m = (a - b * m) * c) by ring.
  assert (F : b * c * m + b * c = (b * m + b) * c) by ring.
  assert (G : b * c * m = b * m * c) by ring.
  repeat split.
  - now apply Z.mul_pos_pos.
  - assumption.
  - rewrite G. apply Z.mul_le_mono_nonneg_r; lia.
  - rewrite F. apply Z.mul_lt_mono_pos_r; lia.
  - intros X. apply Hr in X. rewrite E.
    replace (2 * ((a - b * m) * c)) with (2 * (a - b * m) * c) by ring.
    apply Z.mul_le_mono_nonneg_r; lia.
  - intros X. apply Hr. rewrite E in X.
    replace (2 * ((a - b * m) * c)) with (2 * (a - b * m) * c) in X by ring.
    now apply Z.mul_le_mono_pos_r in X.
  - apply Hs in H. rewrite E. destruct H as [H _]. intros X. apply H.
    assert (Y : (a - b * m) * c = 0) by lia.
    apply Z.mul_eq_0 in Y. lia.
  - apply Hs in H. rewrite E. destruct H as [_ H]. intros X. apply H.
    replace (2 * ((a - b * m) * c)) with (2 * (a - b * m) * c) in X by ring.
    now apply Z.mul_cancel_r in X; [|lia].
  - intros [X Y]. apply Hs. rewrite E in X, Y. split.
    + intros Z0. apply X. replace (a - b * m) with 0 by lia. reflexivity.
    + intros Z0. apply Y.
      replace (2 * ((a - b * m) * c)) with (2 * (a - b * m) * c) by ring.
      now rewrite Z0.
Qed.

Lemma rne_bounds mrs : shr_m mrs <= rne mrs <= shr_m mrs + 1.
Proof.
  unfold rne, round_nearest_even.
  destruct (loc_of_shr_record mrs) as [|[]]; try lia.
  destruct (Z.even (shr_m mrs)); lia.
Qed.

Lemma located_floor_le a1 a2 b mrs1 mrs2 :
  located a1 b mrs1 -> located a2 b mrs2 -> a1 <= a2 ->
  shr_m mrs1 <= shr_m mrs2.
Proof.
  intros (Hb & _ & Hf1 & _) (_ & _ & Hf2 & _) H.
  destruct (Z_le_gt_dec (shr_m mrs1) (shr_m mrs2)) as [L|G]; [assumption|].
  exfalso.
  assert (b * (shr_m mrs2 + 1) <= b * shr_m mrs1)
    by (apply Z.mul_le_mono_nonneg_l; lia).
  lia.
Qed.

(** Rounding to nearest even keeps the order of two located numbers. *)
Lemma rne_mono a1 a2 b mrs1 mrs2 :
  located a1 b mrs1 -> located a2 b mrs2 -> a1 <= a2 ->
  rne mrs1 <= rne mrs2.
Proof.
  intros H1 H2 H.
  pose proof (located_floor_le _ _ _ _ _ H1 H2 H) as L.
  pose proof (rne_bounds mrs1) as B1. pose proof (rne_bounds mrs2) as B2.
  destruct (Z.eq_dec (shr_m mrs1) (shr_m mrs2)) as [E|N]; [|lia].
  clear L B1 B2. revert H1 H2.
  destruct mrs1 as [m r1 s1], mrs2 as [m2 r2 s2].
  cbn [shr_m] in E. subst m2.
  unfold located, rne, round_nearest_even. cbn [shr_m shr_r shr_s].
  intros (Hb & Hm & Hf1 & Hr1 & Hs1) (_ & _ & Hf2 & Hr2 & Hs2).
  destruct r1, s1, r2, s2; cbn [loc_of_shr_record]; use_bits;
    destruct (Z.even m); lia.
Qed.

Lemma located_floor_lt a b c mrs :
  located a b mrs -> a < c * b -> shr_m mrs < c.
Proof.
  intros (Hb & _ & Hf & _) H.
  destruct (Z_lt_le_dec (shr_m mrs) c) as [L|G]; [assumption|]. exfalso.
  assert (b * c <= b * shr_m mrs) by (apply Z.mul_le_mono_nonneg_l; lia).
  lia.
Qed.

Lemma located_floor_ge a b c mrs :
  located a b mrs -> c * b <= a -> c <= shr_m mrs.
Proof.
  intros (Hb & _ & Hf & _) H.
  destruct (Z_le_gt_dec c (shr_m mrs)) as [L|G]; [assumption|]. exfalso.
  assert (b * (shr_m mrs + 1) <= b * c)
    by (apply Z.mul_le_mono_nonneg_l; lia).
  lia.
Qed.

Lemma shr_located a b mrs e n :
  0 <= n -> located a b mrs ->
  exists mrs', shr mrs e n = (mrs', e + n) /\ located a (b * 2 ^ n) mrs'.
Proof.
  intros Hn H. destruct n as [|n|n]; [| |lia]; cbn [shr].
  - exists mrs. rewrite Z.add_0_r, Z.mul_1_r. now split.
  - eexists. split; [reflexivity|]. now apply iter_shr_1_located.
Qed.

Lemma size_at_most p k : Zpos p < 2 ^ k -> Zpos (Pos.size p) <= k.
Proof.
  intros H. pose proof (size_lower p) as L.
  destruct (Z_le_gt_dec (Zpos (Pos.size p)) k) as [G|G]; [assumption|].
  exfalso.
  assert (2 ^ k <= 2 ^ (Zpos (Pos.size p) - 1))
    by (apply Z.pow_le_mono_r; lia).
  lia.
Qed.

(** The second half of [binary_round_aux]: the rounded integer is made
    a float, with a carry into the exponent at [2 ^ 53] and infinity
    above the largest exponent. *)
Lemma finish_tail k e :
  0 <= k <= 9007199254740992 -> -1074 <= e ->
  (let '(mrs, e') := shr_fexp prec emax k e loc_Exact in
   match shr_m mrs with
   | 0 => S754_zero false
   | Zpos m =>
       if e' <=? emax - prec then S754_finite false m e'
       else S754_infinity false
   | Zneg _ => S754_nan
   end) = finish k e.
Proof.
  intros Hk He. unfold shr_fexp, fexp, emin, prec, emax, finish.
  cbn [shr_record_of_loc].
  destruct k as [|p|p]; [| |lia].
  - cbn [Zdigits2 Z.eqb]. unfold shr.
    destruct (Z.max (0 + e - 53) (3 - 1024 - 53) - e) eqn:D; try lia;
      reflexivity.
  - cbn [Zdigits2]. rewrite digits2_size.
    change (Zpos p =? 0) with false. cbv iota.
    destruct (Z.eqb_spec (Zpos p) 9007199254740992) as [E|N].
    + injection E as ->.
      change (Zpos (Pos.size 9007199254740992)) with 54.
      replace (Z.max (54 + e - 53) (3 - 1024 - 53) - e) with 1 by lia.
      reflexivity.
    + assert (S : Zpos (Pos.size p) <= 53).
      { apply size_at_most. change (2 ^ 53) with 9007199254740992. lia. }
      unfold shr.
      destruct (Z.max (Zpos (Pos.size p) + e - 53) (3 - 1024 - 53) - e) eqn:D;
        try lia; reflexivity.
Qed.

(** [binary_round_aux] rounds the number it is given, when that number
    is located at least as finely as the format asks. *)
Lemma round_aux_rounds a b p e l :
  located a b (shr_record_of_loc (Zpos p) l) ->
  -1074 <= e ->
  e <= fexp prec emax (Zpos (Pos.size p) + e) ->
  rounds_to (a * 2 ^ (e + 1074)) b
    (binary_round_aux prec emax false (Zpos p) e l).
Proof.
  intros H He Hn.
  set (E := fexp prec emax (Zpos (Pos.size p) + e)) in *.
  assert (HE : -1074 <= E /\ Zpos (Pos.size p) + e - 53 <= E
               /\ (-1074 < E -> E = Zpos (Pos.size p) + e - 53))
    by (unfold E, fexp, emin, prec, emax; lia).
  destruct HE as (HE1 & HE2 & HE3).
  assert (Hm : shr_m (shr_record_of_loc (Zpos p) l) = Zpos p)
    by now destruct l as [|[]].
  pose proof H as (Hb & _ & Hf & _). rewrite Hm in Hf.
  destruct (shr_located a b _ e (E - e) ltac:(lia) H) as (mrs & Hs & Hl).
  replace (e + (E - e)) with E in Hs by lia.
  pose proof (size_lower p) as Lp. pose proof (size_upper p) as Up.
  assert (P0 : 0 < 2 ^ (E - e)) by (apply Z.pow_pos_nonneg; lia).
  assert (Hup : a < 9007199254740992 * (b * 2 ^ (E - e))).
  { assert (X : 2 ^ Zpos (Pos.size p) <= 2 ^ (E - e) * 9007199254740992).
    { change 9007199254740992 with (2 ^ 53). rewrite <- Z.pow_add_r by lia.
      apply Z.pow_le_mono_r; lia. }
    assert (Y : b * (Zpos p + 1) <= b * (2 ^ (E - e) * 9007199254740992))
      by (apply Z.mul_le_mono_nonneg_l; lia).
    lia. }
  assert (Hlow : -1074 < E -> 4503599627370496 * (b * 2 ^ (E - e)) <= a).
  { intros X. apply HE3 in X.
    assert (Y : 4503599627370496 * 2 ^ (E - e) = 2 ^ (Zpos (Pos.size p) - 1)).
    { change 4503599627370496 with (2 ^ 52). rewrite <- Z.pow_add_r by lia.
      f_equal. lia. }
    assert (Z0 : b * (4503599627370496 * 2 ^ (E - e)) <= b * Zpos p)
      by (apply Z.mul_le_mono_nonneg_l; lia).
    lia. }
  pose proof (located_floor_lt _ _ _ _ Hl Hup) as Hlt.
  pose proof Hl as (_ & Hm0 & _).
  pose proof (rne_bounds mrs) as Hr.
  exists a, (b * 2 ^ (E - e)), E, mrs.
  split; [exact Hl|]. repeat split; try assumption.
  - replace (E + 1074) with (E - e + (e + 1074)) by lia.
    rewrite Z.pow_add_r by lia. ring.
  - unfold binary_round_aux, shr_fexp. cbn [Zdigits2].
    rewrite digits2_size. fold E. rewrite Hs.
    fold (rne mrs).
    apply (finish_tail (rne mrs) E); lia.
Qed.

Ltac finish_cases :=
  unfold finish;
  repeat match goal with
         | |- context [?x =? ?y] => destruct (Z.eqb_spec x y)
         | |- context [?x <=? ?y] => destruct (Z.leb_spec x y)
         end;
  cbn [sf_rank]; try rewrite !Z2Pos.id by lia;
  unfold lex3;
  repeat match goal with
         | |- context [?x ?= ?y] => destruct (Z.compare_spec x y)
         end;
  try congruence; try (exfalso; lia).

Lemma finish_mono_same k1 k2 e :
  0 <= k1 <= k2 -> k2 <= 9007199254740992 ->
  lex3 (sf_rank (finish k1 e)) (sf_rank (finish k2 e)) <> Gt.
Proof. intros H1 H2. finish_cases. Qed.

Lemma finish_mono_lower k1 k2 e1 e2 :
  e1 < e2 -> 0 <= k1 <= 9007199254740992 ->
  4503599627370496 <= k2 <= 9007199254740992 ->
  lex3 (sf_rank (finish k1 e1)) (sf_rank (finish k2 e2)) <> Gt.
Proof. intros He H1 H2. finish_cases. Qed.

Lemma frac_le a1 b1 n1 d1 a2 b2 n2 d2 :
  0 < d1 -> 0 < d2 -> 0 < b1 -> 0 < b2 ->
  a1 * d1 = b1 * n1 -> a2 * d2 = b2 * n2 -> n1 * d2 <= n2 * d1 ->
  a1 * b2 <= a2 * b1.
Proof.
  intros Hd1 Hd2 Hb1 Hb2 E1 E2 H.
  apply Z.mul_le_mono_pos_r with (p := d1 * d2); [now apply Z.mul_pos_pos|].
  replace (a1 * b2 * (d1 * d2)) with (a1 * d1 * (b2 * d2)) by ring.
  replace (a2 * b1 * (d1 * d2)) with (a2 * d2 * (b1 * d1)) by ring.
  rewrite E1, E2.
  replace (b1 * n1 * (b2 * d2)) with (b1 * b2 * (n1 * d2)) by ring.
  replace (b2 * n2 * (b1 * d1)) with (b1 * b2 * (n2 * d1)) by ring.
  apply Z.mul_le_mono_nonneg_l; [|assumption].
  apply Z.lt_le_incl. now apply Z.mul_pos_pos.
Qed.

(** Rounding keeps the order: of two numbers, the smaller is not rounded
    to the larger float. *)
Lemma rounds_mono n1 d1 f1 n2 d2 f2 :
  rounds_to n1 d1 f1 -> rounds_to n2 d2 f2 -> n1 * d2 <= n2 * d1 ->
  lex3 (sf_rank f1) (sf_rank f2) <> Gt.
Proof.
  intros (a1 & b1 & e1 & mrs1 & L1 & E1 & U1 & N1 & D1 & V1 & ->)
         (a2 & b2 & e2 & mrs2 & L2 & E2 & U2 & N2 & D2 & V2 & ->) H.
  pose proof L1 as (B1 & M1 & _). pose proof L2 as (B2 & M2 & _).
  pose proof (rne_bounds mrs1) as R1. pose proof (rne_bounds mrs2) as R2.
  pose proof (located_floor_lt _ _ _ _ L1 U1) as F1.
  pose proof (located_floor_lt _ _ _ _ L2 U2) as F2.
  assert (P1 : 0 < 2 ^ (e1 + 1074)) by (apply Z.pow_pos_nonneg; lia).
  assert (P2 : 0 < 2 ^ (e2 + 1074)) by (apply Z.pow_pos_nonneg; lia).
  assert (C : a1 * 2 ^ (e1 + 1074) * b2 <= a2 * 2 ^ (e2 + 1074) * b1)
    by (apply (frac_le _ _ n1 d1 _ _ n2 d2); assumption).
  destruct (Z.lt_trichotomy e1 e2) as [Lt|[Eq|Gt]].
  - apply finish_mono_lower; try lia.
    pose proof (located_floor_ge _ _ _ _ L2 (N2 ltac:(lia))). lia.
  - subst e2. apply finish_mono_same; [|lia]. split; [lia|].
    apply (rne_mono (a1 * b2) (a2 * b1) (b1 * b2)).
    + now apply located_scale.
    + rewrite (Z.mul_comm b1 b2). now apply located_scale.
    + apply Z.mul_le_mono_pos_r with (p := 2 ^ (e1 + 1074)); [assumption|].
      lia.
  - exfalso.
    assert (X : 2 * 2 ^ (e2 + 1074) <= 2 ^ (e1 + 1074)).
    { replace (e1 + 1074) with (1 + (e1 - e2 - 1) + (e2 + 1074)) by lia.
      rewrite (Z.pow_add_r 2 (1 + (e1 - e2 - 1)) (e2 + 1074)),
        (Z.pow_add_r 2 1 (e1 - e2 - 1)) by lia.
      change (2 ^ 1) with 2.
      assert (0 < 2 ^ (e1 - e2 - 1)) by (apply Z.pow_pos_nonneg; lia).
      nia. }
    specialize (N1 ltac:(lia)).
    assert (Y : 9007199254740992 * b2 * (2 ^ (e2 + 1074) * b1)
                <= a1 * 2 ^ (e1 + 1074) * b2).
    { replace (9007199254740992 * b2 * (2 ^ (e2 + 1074) * b1))
        with (4503599627370496 * b1 * (2 * 2 ^ (e2 + 1074)) * b2) by ring.
      apply Z.mul_le_mono_nonneg_r; [lia|].
      apply Z.mul_le_mono_nonneg; lia. }
    assert (Z0 : a2 * (2 ^ (e2 + 1074) * b1)
                 < 9007199254740992 * b2 * (2 ^ (e2 + 1074) * b1)).
    { apply Z.mul_lt_mono_pos_r; [|assumption]. now apply Z.mul_pos_pos. }
    lia.
Qed.

Lemma located_exact p : located (Zpos p) 1 (shr_record_of_loc (Zpos p) loc_Exact).
Proof.
  unfold located. cbn [shr_record_of_loc shr_m shr_r shr_s].
  show_bits; lia.
Qed.

Lemma iter_xO_value p d : Zpos (Pos.iter xO p d) = Zpos p * 2 ^ Zpos d.
Proof.
  induction d as [|d IH] using Pos.peano_ind.
  - cbn. lia.
  - rewrite Pos.iter_succ, Pos2Z.inj_xO, IH, Pos2Z.inj_succ.
    rewrite Z.pow_succ_r by lia. ring.
Qed.

Lemma shl_align_fst mx ex ex' :
  ex' <= ex -> Zpos (fst (shl_align mx ex ex')) = Zpos mx * 2 ^ (ex - ex').
Proof.
  intros H. unfold shl_align.
  destruct (ex' - ex) as [|d|d] eqn:D; cbn [fst]; try lia.
  - replace (ex - ex') with 0 by lia. lia.
  - rewrite iter_xO_value. f_equal. f_equal. lia.
Qed.

(** [binary_round] rounds [p * 2 ^ e]. *)
Lemma binary_round_rounds p e :
  -1074 <= e ->
  rounds_to (Zpos p * 2 ^ (e + 1074)) 1 (binary_round prec emax false p e).
Proof.
  intros He. unfold binary_round. rewrite digits2_size.
  set (E := fexp prec emax (Zpos (Pos.size p) + e)).
  assert (HE : -1074 <= E) by (unfold E, fexp, emin, prec, emax; lia).
  unfold shl_align. destruct (E - e) as [|d|d] eqn:D.
  - apply round_aux_rounds; [apply located_exact | assumption | fold E; lia].
  - apply round_aux_rounds; [apply located_exact | assumption | fold E; lia].
  - replace (Zpos p * 2 ^ (e + 1074))
      with (Zpos (Pos.iter xO p d) * 2 ^ (E + 1074)).
    + apply round_aux_rounds; [apply located_exact | assumption |].
      rewrite size_iter_xO, Pos2Z.inj_add.
      replace (Zpos (Pos.size p) + Zpos d + E) with (Zpos (Pos.size p) + e)
        by lia.
      fold E. lia.
    + rewrite iter_xO_value.
      replace (e + 1074) with (Zpos d + (E + 1074)) by lia.
      rewrite (Z.pow_add_r 2 (Zpos d) (E + 1074)) by lia. ring.
Qed.

Lemma valid_finite s m e :
  valid_binary (S754_finite s m e) = true ->
  -1074 <= e <= 971
  /\ Zpos m < 9007199254740992
  /\ (-1074 < e -> Zpos (Pos.size m) = 53 /\ 4503599627370496 <= Zpos m).
Proof.
  cbn [SpecFloat.valid_binary]. unfold bounded, canonical_mantissa.
  rewrite andb_true_iff, Z.eqb_eq, Z.leb_le, digits2_size.
  unfold fexp, emin, prec, emax. intros [C B].
  pose proof (size_lower m) as L. pose proof (size_upper m) as U.
  assert (S : Zpos (Pos.size m) <= 53) by lia.
  split; [lia|]. split.
  - assert (2 ^ Zpos (Pos.size m) <= 2 ^ 53) by (apply Z.pow_le_mono_r; lia).
    change (2 ^ 53) with 9007199254740992 in *. lia.
  - intros N. assert (S' : Zpos (Pos.size m) = 53) by lia.
    split; [assumption|]. rewrite S' in L. exact L.
Qed.

Lemma one_rounds : rounds_to (4503599627370496 * 2 ^ (-52 + 1074)) 1 sf_one.
Proof. exact (binary_round_rounds 4503599627370496 (-52) ltac:(lia)). Qed.

(** [1 + m * 2 ^ e] in binary64 is the rounding of that sum. *)
Lemma add_one_rounds m e :
  -1074 <= e ->
  rounds_to (4503599627370496 * 2 ^ (-52 + 1074) + Zpos m * 2 ^ (e + 1074)) 1
    (SFadd prec emax sf_one (S754_finite false m e)).
Proof.
  intros He. unfold sf_one, SFadd, cond_Zopp.
  set (ez := Z.min (-52) e).
  set (a := fst (shl_align 4503599627370496 (-52) ez)).
  set (b := fst (shl_align m e ez)).
  change (Zpos a + Zpos b) with (Zpos (a + b)).
  unfold binary_normalize.
  replace (4503599627370496 * 2 ^ (-52 + 1074) + Zpos m * 2 ^ (e + 1074))
    with (Zpos (a + b) * 2 ^ (ez + 1074)).
  - apply binary_round_rounds. lia.
  - rewrite Pos2Z.inj_add. unfold a, b.
    rewrite !shl_align_fst by lia.
    replace (-52 + 1074) with (-52 - ez + (ez + 1074)) by lia.
    replace (e + 1074) with (e - ez + (ez + 1074)) by lia.
    rewrite (Z.pow_add_r 2 (-52 - ez) (ez + 1074)),
      (Z.pow_add_r 2 (e - ez) (ez + 1074)) by lia.
    ring.
Qed.

(** The remainder of a division is located as [new_location] says. *)
Lemma div_located a m q r :
  a = Zpos m * q + r -> 0 <= r < Zpos m -> 0 <= q ->
  located a (Zpos m) (shr_record_of_loc q (new_location (Zpos m) r)).
Proof.
  intros E Hr Hq. unfold located, new_location.
  destruct (Z.even (Zpos m)) eqn:Ev.
  - unfold new_location_even.
    destruct (Z.eqb_spec r 0) as [R|R];
      [|destruct (Z.compare_spec (2 * r) (Zpos m))];
      cbn [shr_record_of_loc shr_m shr_r shr_s]; show_bits; lia.
  - rewrite <- Z.negb_odd in Ev. apply negb_false_iff, Z.odd_spec in Ev.
    destruct Ev as [k Ev]. unfold new_location_odd.
    destruct (Z.eqb_spec r 0) as [R|R];
      [|destruct (Z.compare_spec (2 * r + 1) (Zpos m))];
      cbn [shr_record_of_loc shr_m shr_r shr_s]; show_bits; lia.
Qed.

(** [1 / (m * 2 ^ e)] in binary64, for a normal divisor, is the rounding
    of that quotient. *)
Lemma inv_rounds m e :
  e <= 971 -> Zpos (Pos.size m) = 53 ->
  rounds_to (2 ^ (1074 - e)) (Zpos m)
    (SFdiv prec emax sf_one (S754_finite false m e)).
Proof.
  intros He Hs. unfold sf_one, SFdiv, SFdiv_core_binary. cbn [xorb].
  cbn [Zdigits2]. rewrite (digits2_size m), Hs.
  change (Zpos (digits2_pos 4503599627370496)) with 53.
  set (e' := Z.min (fexp prec emax (53 + -52 - (53 + e))) (-52 - e)).
  assert (He' : e' = Z.max (-105 - e) (-1074))
    by (unfold e', fexp, emin, prec, emax; lia).
  clearbody e'. set (s := -52 - e - e').
  assert (Hs0 : 51 <= s <= 53 /\ s = -52 - e - e') by lia.
  clearbody s.
  assert (M : match s with
              | 0 => 4503599627370496
              | Zpos _ => Z.shiftl 4503599627370496 s
              | Zneg _ => 0
              end = 4503599627370496 * 2 ^ s).
  { destruct s; try lia. apply Z.shiftl_mul_pow2. lia. }
  rewrite M. clear M.
  pose proof (Z_div_mod (4503599627370496 * 2 ^ s) (Zpos m) ltac:(lia)) as D.
  destruct (Z.div_eucl (4503599627370496 * 2 ^ s) (Zpos m)) as [q r].
  destruct D as [D R].
  pose proof (size_lower m) as Lm. pose proof (size_upper m) as Um.
  rewrite Hs in Lm, Um. change (2 ^ (53 - 1)) with 4503599627370496 in Lm.
  change (2 ^ 53) with 9007199254740992 in Um.
  assert (P : 0 < 2 ^ (s - 1)) by (apply Z.pow_pos_nonneg; lia).
  assert (P2 : 2 ^ s = 2 * 2 ^ (s - 1)).
  { replace s with (1 + (s - 1)) at 1 by lia.
    now rewrite Z.pow_add_r by lia. }
  assert (Q : 2 ^ (s - 1) <= q).
  { destruct (Z_le_gt_dec (2 ^ (s - 1)) q) as [L|G]; [assumption|]. exfalso.
    assert (Zpos m * (q + 1) <= Zpos m * 2 ^ (s - 1))
      by (apply Z.mul_le_mono_nonneg_l; lia).
    assert (Zpos m * 2 ^ (s - 1) <= 9007199254740992 * 2 ^ (s - 1))
      by (apply Z.mul_le_mono_nonneg_r; lia).
    lia. }
  destruct q as [|q|q]; try lia.
  replace (2 ^ (1074 - e)) with (4503599627370496 * 2 ^ s * 2 ^ (e' + 1074)).
  - apply round_aux_rounds.
    + apply div_located; [assumption | assumption | lia].
    + lia.
    + assert (s <= Zpos (Pos.size q)) by (apply size_at_least; assumption).
      unfold fexp, emin, prec, emax. lia.
  - change 4503599627370496 with (2 ^ 52).
    rewrite <- !Z.pow_add_r by lia. f_equal. lia.
Qed.

Lemma scaled_le m1 m2 c1 c2 :
  0 <= c1 < c2 -> 0 <= m1 -> m1 <= 2 * m2 -> m1 * 2 ^ c1 <= m2 * 2 ^ c2.
Proof.
  intros Hc Hm H.
  replace c2 with (1 + (c2 - c1 - 1) + c1) by lia.
  rewrite (Z.pow_add_r 2 (1 + (c2 - c1 - 1)) c1),
    (Z.pow_add_r 2 1 (c2 - c1 - 1)) by lia.
  change (2 ^ 1) with 2.
  assert (P : 0 < 2 ^ (c2 - c1 - 1)) by (apply Z.pow_pos_nonneg; lia).
  assert (Q : 0 < 2 ^ c1) by (apply Z.pow_pos_nonneg; lia).
  replace (m2 * (2 * 2 ^ (c2 - c1 - 1) * 2 ^ c1))
    with (2 * m2 * 2 ^ (c2 - c1 - 1) * 2 ^ c1) by ring.
  apply Z.mul_le_mono_nonneg_r; [lia|].
  assert (2 * m2 * 1 <= 2 * m2 * 2 ^ (c2 - c1 - 1))
    by (apply Z.mul_le_mono_nonneg_l; lia).
  lia.
Qed.

Lemma rounds_to_unsigned n d f :
  rounds_to n d f ->
  f = S754_zero false \/ f = S754_infinity false
  \/ exists m e, f = S754_finite false m e.
Proof.
  intros (a & b & e & mrs & _ & _ & _ & _ & _ & _ & ->). unfold finish.
  destruct (rne mrs =? 0); [now left|].
  destruct (rne mrs =? 9007199254740992).
  - destruct (e + 1 <=? 971); eauto.
  - destruct (e <=? 971); eauto.
Qed.

Lemma rounds_leb n1 d1 f1 n2 d2 f2 :
  rounds_to n1 d1 f1 -> rounds_to n2 d2 f2 -> n1 * d2 <= n2 * d1 ->
  SFleb f1 f2 = true.
Proof.
  intros R1 R2 H. pose proof (rounds_mono _ _ _ _ _ _ R1 R2 H) as L.
  unfold SFleb. rewrite SFcompare_rank.
  - now destruct (lex3 (sf_rank f1) (sf_rank f2)).
  - destruct (rounds_to_unsigned _ _ _ R1) as [->|[->|(m & e & ->)]];
      discriminate.
  - destruct (rounds_to_unsigned _ _ _ R2) as [->|[->|(m & e & ->)]];
      discriminate.
Qed.

Lemma rounds_below_infinity n d f :
  rounds_to n d f -> SFleb f (S754_infinity false) = true.
Proof.
  intros R.
  now destruct (rounds_to_unsigned _ _ _ R) as [->|[->|(m & e & ->)]].
Qed.

Lemma rounds_above_zero n d f :
  rounds_to n d f -> SFleb (S754_zero false) f = true.
Proof.
  intros R.
  now destruct (rounds_to_unsigned _ _ _ R) as [->|[->|(m & e & ->)]].
Qed.

Lemma finite_leb m1 e1 m2 e2 :
  SFleb (S754_finite false m1 e1) (S754_finite false m2 e2) = true ->
  e1 < e2 \/ (e1 = e2 /\ Zpos m1 <= Zpos m2).
Proof.
  unfold SFleb. rewrite SFcompare_rank by discriminate. cbn [sf_rank].
  lex3_cases; lia.
Qed.

(** The order of two binary64 numbers is the order of their values. *)
Lemma finite_value_le m1 e1 m2 e2 :
  valid_binary (S754_finite false m1 e1) = true ->
  valid_binary (S754_finite false m2 e2) = true ->
  SFleb (S754_finite false m1 e1) (S754_finite false m2 e2) = true ->
  Zpos m1 * 2 ^ (e1 + 1074) <= Zpos m2 * 2 ^ (e2 + 1074).
Proof.
  intros V1 V2 H.
  destruct (valid_finite _ _ _ V1) as (E1 & U1 & _).
  destruct (valid_finite _ _ _ V2) as (E2 & _ & N2).
  destruct (finite_leb _ _ _ _ H) as [L|[<- L]].
  - apply scaled_le; lia.
  - apply Z.mul_le_mono_nonneg_r; [|assumption].
    apply Z.pow_nonneg. lia.
Qed.

(** Adding to one keeps the order. *)
Lemma SFadd_one_mono x1 x2 :
  valid_binary x1 = true -> valid_binary x2 = true ->
  SFleb (S754_zero false) x1 = true -> SFleb x1 x2 = true ->
  SFleb (SFadd prec emax sf_one x1) (SFadd prec emax sf_one x2) = true.
Proof.
  intros V1 V2 H0 H.
  destruct x1 as [s1|[]| |[] m1 e1]; try discriminate H0;
    destruct x2 as [s2|[]| |[] m2 e2]; try discriminate H;
    try reflexivity.
  - assert (E2 : -1074 <= e2) by (destruct (valid_finite _ _ _ V2); lia).
    apply (rounds_leb _ _ _ _ _ _ one_rounds (add_one_rounds m2 e2 E2)).
    assert (0 <= Zpos m2 * 2 ^ (e2 + 1074))
      by (apply Z.mul_nonneg_nonneg; [lia | apply Z.pow_nonneg; lia]).
    lia.
  - assert (E1 : -1074 <= e1) by (destruct (valid_finite _ _ _ V1); lia).
    exact (rounds_below_infinity _ _ _ (add_one_rounds m1 e1 E1)).
  - assert (E1 : -1074 <= e1) by (destruct (valid_finite _ _ _ V1); lia).
    assert (E2 : -1074 <= e2) by (destruct (valid_finite _ _ _ V2); lia).
    pose proof (finite_value_le _ _ _ _ V1 V2 H).
    apply (rounds_leb _ _ _ _ _ _ (add_one_rounds m1 e1 E1)
             (add_one_rounds m2 e2 E2)).
    lia.
Qed.

(** Dividing one by a number of at least one reverses the order. *)
Lemma SFinv_mono x1 x2 :
  valid_binary x1 = true -> valid_binary x2 = true ->
  SFleb sf_one x1 = true -> SFleb x1 x2 = true ->
  SFleb (SFdiv prec emax sf_one x2) (SFdiv prec emax sf_one x1) = true.
Proof.
  intros V1 V2 H0 H.
  destruct x1 as [s1|[]| |[] m1 e1]; try discriminate H0;
    destruct x2 as [s2|[]| |[] m2 e2]; try discriminate H;
    try reflexivity.
  - destruct (valid_finite _ _ _ V1) as (E1 & U1 & N1).
    assert (L1 : -52 <= e1) by (destruct (finite_leb _ _ _ _ H0); lia).
    apply (rounds_above_zero (2 ^ (1074 - e1)) (Zpos m1)).
    apply inv_rounds; [|apply N1]; lia.
  - destruct (valid_finite _ _ _ V1) as (E1 & U1 & N1).
    destruct (valid_finite _ _ _ V2) as (E2 & U2 & N2).
    assert (L1 : -52 <= e1) by (destruct (finite_leb _ _ _ _ H0); lia).
    assert (L2 : e1 <= e2) by (destruct (finite_leb _ _ _ _ H); lia).
    destruct (N1 ltac:(lia)) as [S1 B1]. destruct (N2 ltac:(lia)) as [S2 B2].
    apply (rounds_leb (2 ^ (1074 - e2)) (Zpos m2) _
                      (2 ^ (1074 - e1)) (Zpos m1));
      try (apply inv_rounds; lia).
    rewrite (Z.mul_comm (2 ^ (1074 - e2))), (Z.mul_comm (2 ^ (1074 - e1))).
    destruct (finite_leb _ _ _ _ H) as [L|[<- L]].
    + apply scaled_le; lia.
    + apply Z.mul_le_mono_nonneg_r; [|assumption].
      apply Z.pow_nonneg. lia.
Qed.

End Monotone.

Lemma add_one_mono (d1 d2 : float) :
  (0 <=? d1)%float = true -> (d1 <=? d2)%float = true ->
  (1 + d1 <=? 1 + d2)%float = true.
Proof.
  rewrite !FloatAxioms.leb_spec, !FloatAxioms.add_spec.
  apply SFadd_one_mono; apply FloatAxioms.Prim2SF_valid.
Qed.

Lemma inv_mono (x1 x2 : float) :
  (1 <=? x1)%float = true -> (x1 <=? x2)%float = true ->
  (1 / x2 <=? 1 / x1)%float = true.
Proof.
  rewrite !FloatAxioms.leb_spec, !FloatAxioms.div_spec.
  apply SFinv_mono; apply FloatAxioms.Prim2SF_valid.
Qed.

Lemma py_min_mono (c y1 y2 : float) :
  (c <=? c)%float = true -> (y1 <=? y2)%float = true ->
  (py_min c y1 <=? py_min c y2)%float = true.
Proof.
  intros Hc H. destruct (float_leb_number _ _ H) as [N1 N2].
  destruct (float_leb_number _ _ Hc) as [Nc _]. unfold py_min.
  destruct (y1 <? c)%float eqn:A, (y2 <? c)%float eqn:B.
  - assumption.
  - now apply float_ltb_leb.
  - apply float_leb_trans with (b := y1); [|assumption].
    now apply float_not_ltb.
  - assumption.
Qed.

Lemma py_max_mono (c z1 z2 : float) :
  (c <=? c)%float = true -> (z1 <=? z2)%float = true ->
  (py_max c z1 <=? py_max c z2)%float = true.
Proof.
  intros Hc H. destruct (float_leb_number _ _ H) as [N1 N2].
  destruct (float_leb_number _ _ Hc) as [Nc _]. unfold py_max.
  destruct (c <? z1)%float eqn:A, (c <? z2)%float eqn:B.
  - assumption.
  - apply float_leb_trans with (b := z2); [assumption|].
    now apply float_not_ltb.
  - now apply float_ltb_leb.
  - assumption.
Qed.

(** The relevance does not grow with the distance. *)
Lemma relevance_non_increasing (d1 d2 : float) :
  (0 <=? d1)%float = true -> (d1 <=? d2)%float = true ->
  (_distance_to_relevance d2 <=? _distance_to_relevance d1)%float = true.
Proof.
  intros H0 H.
  pose proof (float_leb_trans _ _ _ H0 H) as H2.
  unfold _distance_to_relevance.
  rewrite (one_plus_nonneg d1 H0), (one_plus_nonneg d2 H2).
  apply py_max_mono; [reflexivity|].
  apply py_min_mono; [reflexivity|].
  apply inv_mono.
  - exact (add_one_mono 0 d1 eq_refl H0).
  - now apply add_one_mono.
Qed.

(** ** Relevance *)

Lemma clamp_in_unit (x : float) :
  let r := py_max 0 (py_min 1 x) in
  (0 <=? r)%float = true /\ (r <=? 1)%float = true.
Proof.
  unfold py_max, py_min.
  destruct (x <? 1)%float eqn:Hx1.
  - destruct (0 <? x)%float eqn:H0x.
    + split; apply float_ltb_leb; assumption.
    + split; reflexivity.
  - split; reflexivity.
Qed.

(** C9 (amended).  [_distance_to_relevance] is
    [clamp(1 / (1 + d), 0, 1)] in binary64 arithmetic when [1 + d] is not
    zero, as for every [d >= 0], and [0.0] when it is; it maps [0.0] to
    [1.0] and every distance into [[0, 1]].  It never grows with the
    distance: for [0 <= d1 <= d2], and so for [0 <= d1 < d2], the
    relevance of [d2] is at most the relevance of [d1].  Two distances
    may have the same relevance, so the decrease is not strict. *)
Theorem relevance_of_distance :
  _distance_to_relevance 0 = 1%float
  /\ (forall d : float,
        _distance_to_relevance d
        = if (1 + d =? 0)%float then 0%float
          else py_max 0 (py_min 1 (1 / (1 + d))%float))
  /\ (forall d : float,
        (0 <=? d)%float = true ->
        _distance_to_relevance d = py_max 0 (py_min 1 (1 / (1 + d))%float))
  /\ (forall d : float,
        (0 <=? _distance_to_relevance d)%float = true
        /\ (_distance_to_relevance d <=? 1)%float = true)
  /\ (forall d1 d2 : float,
        (0 <=? d1)%float = true -> (d1 <=? d2)%float = true ->
        (_distance_to_relevance d2 <=? _distance_to_relevance d1)%float = true)
  /\ (forall d1 d2 : float,
        (0 <=? d1)%float = true -> (d1 <? d2)%float = true ->
        (_distance_to_relevance d2 <=? _distance_to_relevance d1)%float = true).
Proof.
  split; [reflexivity|]. split; [reflexivity|].
  split; [|split; [|split]].
  - intros d Hd. unfold _distance_to_relevance.
    now rewrite (one_plus_nonneg d Hd).
  - intros d. unfold _distance_to_relevance.
    destruct (1 + d =? 0)%float; [split; reflexivity|].
    apply clamp_in_unit.
  - apply relevance_non_increasing.
  - intros d1 d2 H0 H. apply relevance_non_increasing; [assumption|].
    now apply float_ltb_leb.
Qed.

(** C9 as stated fails in binary64: [0 <= 0 < 2^-60], and both distances
    have relevance [1.0]. *)
Lemma relevance_ties :
  (0 <=? 0)%float = true
  /\ (0 <? 0x1p-60)%float = true
  /\ _distance_to_relevance 0x1p-60%float = _distance_to_relevance 0
  /\ (_distance_to_relevance 0x1p-60 <? _distance_to_relevance 0)%float = false.
Proof. repeat split; reflexivity. Qed.

(** ** Strings *)


Lemma list_of_str_of_list (l : list N) : list_of_str (str_of_list l) = l.
Proof. induction l as [|c l IH]; cbn; [reflexivity | now rewrite IH]. Qed.

Lemma in_table_points table c :
  Unicode.in_table table c = true -> In c (table_points table).
Proof.
  unfold Unicode.in_table, table_points. intros H.
  apply existsb_exists in H as ([lo hi] & Hin & H). cbn [fst snd] in H.
  apply andb_true_iff in H as [Hlo Hhi]. apply N.leb_le in Hlo, Hhi.
  apply in_flat_map. exists (lo, hi). split; [assumption|].
  cbn [fst snd]. apply in_map_iff. exists (N.to_nat (c - lo)). split.
  - rewrite N2Nat.id. lia.
  - apply in_seq. lia.
Qed.

Lemma word_not_space c : PyStr.is_word c = true -> PyStr.is_space c = false.
Proof.
  intros Hw. destruct (PyStr.is_space c) eqn:Hs; [|reflexivity].
  apply in_table_points in Hs.
  assert (H : forallb (fun c => negb (PyStr.is_word c))
                (table_points Unicode.whitespace_table) = true)
    by (vm_compute; reflexivity).
  rewrite forallb_forall in H. specialize (H c Hs).
  rewrite Hw in H. discriminate H.
Qed.

Lemma prefix_head c r s :
  PyStr.prefix (Str c r) s = true -> exists s', s = Str c s'.
Proof.
  destruct s as [|c' s']; cbn; [discriminate|].
  destruct (N.eqb_spec c c') as [->|]; [eauto | discriminate].
Qed.

Lemma contains_head c r s :
  PyStr.contains (Str c r) s = true -> In c (chars s).
Proof.
  induction s as [|c' s' IH].
  - cbn. discriminate.
  - cbn [PyStr.contains]. intros H. apply orb_true_iff in H as [H|H].
    + apply prefix_head in H as (s'' & [= -> _]). now left.
    + right. auto.
Qed.

Lemma lstrip_nonblank c s :
  In c (chars s) -> PyStr.is_space c = false ->
  exists c' s',
    PyStr.lstrip_by PyStr.is_space s = Str c' s'
    /\ PyStr.is_space c' = false.
Proof.
  induction s as [|a s IH]; cbn; [tauto|].
  intros Hin Hc. destruct (PyStr.is_space a) eqn:Ha.
  - destruct Hin as [->|Hin]; [congruence | auto].
  - eauto.
Qed.

Lemma strip_nonblank c s :
  In c (chars s) -> PyStr.is_space c = false ->
  PyStr.is_empty (PyStr.strip s) = false.
Proof.
  intros Hin Hc. unfold PyStr.strip.
  destruct (lstrip_nonblank c s Hin Hc) as (c' & s' & -> & Hc').
  cbn. now rewrite Hc'.
Qed.

Lemma re_split_W_wordy s :
  forall cur in_sep field,
  Forall (fun c => PyStr.is_word c = true) cur ->
  In field (PyStr.re_split_W_aux s cur in_sep) ->
  Forall (fun c => PyStr.is_word c = true) (chars field).
Proof.
  unfold chars.
  induction s as [|c s IH]; cbn; intros cur in_sep field Hcur Hin.
  - destruct Hin as [<-|[]]. rewrite list_of_str_of_list.
    now apply Forall_rev.
  - destruct (PyStr.is_word c) eqn:Hc.
    + eapply IH; [|exact Hin]. now constructor.
    + destruct in_sep.
      * eapply IH; eassumption.
      * destruct Hin as [<-|Hin].
        -- rewrite list_of_str_of_list. now apply Forall_rev.
        -- eapply IH; [|exact Hin]. constructor.
Qed.

Lemma query_token_head query token :
  In token (query_tokens query) ->
  exists c r, token = Str c r /\ PyStr.is_word c = true.
Proof.
  unfold query_tokens, PyStr.re_split_W. intros H.
  apply filter_In in H as [H Hne].
  apply re_split_W_wordy in H; [|constructor].
  destruct token as [|c r]; [discriminate|].
  inversion H; subst. eauto.
Qed.

(** ** The tool matcher *)

Section SortOrder.
Context {A K : Type} (key : A -> K) (lt : K -> K -> bool).
Hypothesis lt_asym : forall a b, lt a b = true -> lt b a = false.
Hypothesis lt_negtrans :
  forall a b c, lt a b = false -> lt b c = false -> lt a c = false.


Lemma insert_desc_sorted x l :
  StronglySorted (not_below key lt) l -> StronglySorted (not_below key lt) (insert_desc key lt x l).
Proof.
  induction 1 as [|y l Hl IH Hy]; cbn.
  - repeat constructor.
  - destruct (lt (key x) (key y)) eqn:E.
    + constructor; [assumption|].
      rewrite Forall_forall in *. intros z Hz.
      apply (Permutation_in _ (insert_desc_perm key lt x l)) in Hz.
      destruct Hz as [<-|Hz]; [now apply lt_asym | auto].
    + constructor; [now constructor|].
      constructor; [exact E|].
      rewrite Forall_forall in *. intros z Hz.
      eapply lt_negtrans; [exact E | now apply Hy].
Qed.

Lemma sort_desc_sorted l : StronglySorted (not_below key lt) (sort_desc key lt l).
Proof.
  induction l as [|x l IH]; cbn; [constructor|].
  now apply insert_desc_sorted.
Qed.

End SortOrder.

Lemma insert_desc_map {A B K} (key : A -> K) (key' : B -> K)
  (lt : K -> K -> bool) (f : A -> B) (x : A) (m : list A) :
  key x = key' (f x) ->
  (forall y, In y m -> key y = key' (f y)) ->
  map f (insert_desc key lt x m) = insert_desc key' lt (f x) (map f m).
Proof.
  intros Hx. induction m as [|y m IH]; cbn; intros Hm; [reflexivity|].
  rewrite <- Hx, <- (Hm y) by now left.
  destruct (lt (key x) (key y)); cbn; [|reflexivity].
  f_equal. apply IH. intros z Hz. apply Hm. now right.
Qed.

Lemma sort_desc_map {A B K} (key : A -> K) (key' : B -> K)
  (lt : K -> K -> bool) (f : A -> B) (l : list A) :
  (forall x, In x l -> key x = key' (f x)) ->
  map f (sort_desc key lt l) = sort_desc key' lt (map f l).
Proof.
  unfold sort_desc.
  induction l as [|x l IH]; cbn [map fold_right]; intros H; [reflexivity|].
  rewrite <- IH by (intros y Hy; apply H; now right).
  apply insert_desc_map; [apply H; now left|].
  intros y Hy. apply H. right.
  apply (proj1 (sort_desc_In key lt y l)). exact Hy.
Qed.

Lemma Qltb_asym a b : Qltb a b = true -> Qltb b a = false.
Proof.
  unfold Qltb. intros H. apply negb_true_iff in H. apply negb_false_iff.
  apply Qle_bool_iff.
  destruct (Qlt_le_dec a b) as [L|L]; [now apply Qlt_le_weak|].
  apply Qle_bool_iff in L. congruence.
Qed.

Lemma Qltb_negtrans a b c :
  Qltb a b = false -> Qltb b c = false -> Qltb a c = false.
Proof.
  unfold Qltb. intros H1 H2.
  apply negb_false_iff, Qle_bool_iff in H1, H2.
  apply negb_false_iff, Qle_bool_iff. now apply Qle_trans with b.
Qed.

Lemma Qltb_false a b : Qltb a b = false <-> (b <= a)%Q.
Proof.
  unfold Qltb. split; intros H.
  - now apply negb_false_iff, Qle_bool_iff in H.
  - now apply negb_false_iff, Qle_bool_iff.
Qed.

(** A tool with a blank text has no token in it: the test on the blank
    text in the loop never decides. *)
Lemma hits_not_blank query tool :
  token_hits (query_tokens query) tool <> 0%nat ->
  PyStr.is_empty (PyStr.strip (searchable_text tool)) = false.
Proof.
  unfold token_hits, matches_found. intros H.
  destruct (filter _ _) as [|token l] eqn:F; [now elim H|].
  assert (Hin : In token (token :: l)) by now left.
  rewrite <- F in Hin. apply filter_In in Hin as [Hin Hc].
  apply query_token_head in Hin as (c & r & -> & Hw).
  apply contains_head in Hc.
  eapply strip_nonblank; [exact Hc | now apply word_not_space].
Qed.

Lemma match_tool_hits query tool :
  let tokens := query_tokens query in
  match_tool tokens tool
  = if (0 <? token_hits tokens tool)%nat
    then [(coverage_of (token_hits tokens tool) (List.length tokens),
           matched_tool tokens tool)]
    else [].
Proof.
  intros tokens. unfold match_tool.
  fold (token_hits tokens tool).
  destruct (token_hits tokens tool) as [|n] eqn:E.
  - cbn. now destruct (PyStr.is_empty _).
  - rewrite (hits_not_blank query tool) by (fold tokens; rewrite E; discriminate).
    cbn. unfold matched_tool. rewrite E. reflexivity.
Qed.

Lemma flat_map_match_tool query tools :
  let tokens := query_tokens query in
  flat_map (match_tool tokens) tools
  = map (fun tool =>
           (coverage_of (token_hits tokens tool) (List.length tokens),
            matched_tool tokens tool))
        (filter (fun tool => (0 <? token_hits tokens tool)%nat) tools).
Proof.
  intros tokens. induction tools as [|tool tools IH]; cbn; [reflexivity|].
  rewrite IH. unfold tokens at 1. rewrite match_tool_hits. fold tokens.
  now destruct (0 <? token_hits tokens tool)%nat.
Qed.

(** What [_extract_matching_tools] returns. *)
Lemma extract_matching_tools_run query server_info :
  let tokens := query_tokens query in
  _extract_matching_tools query server_info
  = sort_desc tm_raw_score Qltb
      (map (matched_tool tokens)
         (filter (fun tool => (0 <? token_hits tokens tool)%nat)
            (tools_of server_info))).
Proof.
  intros tokens. unfold _extract_matching_tools.
  destruct (tools_of server_info) as [|tool tools] eqn:T; [reflexivity|].
  fold tokens. destruct tokens as [|token tokens'] eqn:Tk.
  - unfold token_hits, matches_found. cbn. clear.
    induction tools as [|t l IH]; [reflexivity | exact IH].
  - rewrite <- Tk. unfold tokens in *.
    rewrite flat_map_match_tool.
    rewrite (sort_desc_map fst tm_raw_score Qltb snd) by
      (intros x Hx; apply in_map_iff in Hx as (t & <- & _); reflexivity).
    now rewrite map_map.
Qed.


Lemma StronglySorted_weaken {A} (R R' : A -> A -> Prop) l :
  (forall a b, R a b -> R' a b) -> StronglySorted R l -> StronglySorted R' l.
Proof.
  intros HR. induction 1 as [|a l Hl IH Ha]; constructor; [assumption|].
  eapply Forall_impl; [|exact Ha]. auto.
Qed.

Lemma filter_nonempty {A} (f : A -> bool) (l : list A) :
  (0 <? List.length (filter f l))%nat = true
  <-> exists x, In x l /\ f x = true.
Proof.
  split.
  - destruct (filter f l) as [|x m] eqn:F; [discriminate|].
    intros _. exists x. apply filter_In. rewrite F. now left.
  - intros (x & Hx). apply filter_In in Hx.
    destruct (filter f l); [destruct Hx | reflexivity].
Qed.

(** C4 (amended).  The tool matcher returns nothing for a query without
    tokens; otherwise it returns, for exactly the tools whose lowercase
    text contains at least one query token (such a text is never blank),
    the record of the tool, in descending order of score (ties in the
    order of the tool list), the score being the number of query tokens
    found in the text, each occurrence of a token in the query counted,
    over the number of query tokens. *)
Theorem tool_matcher_result (query : str) (server_info : ServerInfo) :
  let tokens := query_tokens query in
  let tools := tools_of server_info in
  let kept := filter (fun tool => (0 <? token_hits tokens tool)%nat) tools in
  let result := _extract_matching_tools query server_info in
  (tokens = [] -> result = [])
  /\ result = sort_desc tm_raw_score Qltb (map (matched_tool tokens) kept)
  /\ Permutation result (map (matched_tool tokens) kept)
  /\ StronglySorted (fun a b => (tm_raw_score b <= tm_raw_score a)%Q) result
  /\ (forall tool,
        tm_raw_score (matched_tool tokens tool)
        = Qmake (Z.of_nat
                   (List.length
                      (filter (fun token =>
                                 PyStr.contains token (searchable_text tool))
                              tokens)))
                (Pos.of_nat (List.length tokens)))
  /\ (forall tool,
        In tool kept <->
        In tool tools
        /\ exists token,
             In token tokens
             /\ PyStr.contains token (searchable_text tool) = true)
  /\ (forall tool, In tool kept ->
        PyStr.is_empty (PyStr.strip (searchable_text tool)) = false).
Proof.
  intros tokens tools kept result.
  assert (Hrun : result
                 = sort_desc tm_raw_score Qltb (map (matched_tool tokens) kept))
    by apply extract_matching_tools_run.
  split; [|split; [exact Hrun|split; [|split; [|split; [|split]]]]].
  - intros Hnil. rewrite Hrun. unfold kept, token_hits. rewrite Hnil. cbn.
    clear. induction tools as [|t l IH]; [reflexivity | exact IH].
  - rewrite Hrun. apply sort_desc_perm.
  - rewrite Hrun.
    eapply StronglySorted_weaken;
      [|apply sort_desc_sorted; [apply Qltb_asym | apply Qltb_negtrans]].
    intros a b H. now apply Qltb_false.
  - reflexivity.
  - intros tool. unfold kept. rewrite filter_In.
    unfold token_hits, matches_found. now rewrite filter_nonempty.
  - intros tool Hin. apply filter_In in Hin as [_ Hin].
    apply (hits_not_blank query). intros E. fold tokens in E.
    rewrite E in Hin. discriminate.
Qed.

(** C4 as stated fails on a query that repeats a token: in ["a a b"] the
    token ["a"] is counted twice, which gives the tool ["a"] the score
    2/3, where the distinct tokens found are one of three (or one of the
    two distinct ones). *)
Lemma repeated_token_counted_twice :
  let tokens := query_tokens "a a b" in
  tokens = ["a"; "a"; "b"]
  /\ map tm_raw_score (_extract_matching_tools "a a b" server_a)
     = [Qmake 2 3]
  /\ coverage_distinct tokens (searchable_text tool_a) = Qmake 1 3
  /\ ~ (Qmake 2 3 == Qmake 1 3)%Q
  /\ ~ (Qmake 2 3 == Qmake 1 2)%Q.
Proof.
  vm_compute. repeat split; try reflexivity; discriminate.
Qed.

(** ** The theorems at work on the sample data *)


Lemma fresh_ids_in_order_witness :
  let s := run_ops sample_ops
             (empty_store (Some working_model) (Some (empty_index 2))) in
  next_id_counter s = 2%Z
  /\ path_ids s = [("/weather", 0%Z); ("/agents/bot1", 1%Z)]
  /\ index_ids s = [0%Z; 1%Z].
Proof.
  destruct (fresh_ids_in_order working_model 2 sample_ops
              ["/weather"; "/agents/bot1"]) as (H1 & H2 & H3 & _).
  - reflexivity.
  - constructor; [|constructor; [|constructor]]; cbn.
    + intros [H|[]]. discriminate H.
    + intros [].
  - intros o text _ _. exists [1%float; 0%float]. split; reflexivity.
  - cbv zeta. split; [exact H1|]. split; [exact H2 | exact H3].
Defined.

Lemma remove_frame_witness :
  let r := remove_service "/weather" sample_store in
  let r' := remove_agent "/nowhere" sample_store in
  outcome r = inr tt
  /\ faiss_index (post r) = faiss_index sample_store
  /\ next_id_counter (post r) = next_id_counter sample_store
  /\ metadata_store (post r) = []
  /\ saves (effects r)
     = [EvSave {| index_d := 2;
                  index_vectors := [(0%Z, [1%float; 0%float])] |} [] 1%Z]
  /\ post r' = sample_store
  /\ saves (effects r') = [].
Proof.
  destruct (remove_frame remove_service "/weather" sample_store
              (or_introl eq_refl)) as (H1 & _ & H3 & H4 & _ & H6).
  destruct (H6 sample_entry) as (H7 & _ & _ & _ & H8 & _);
    [vm_compute; reflexivity|].
  specialize (H8 {| index_d := 2;
                    index_vectors := [(0%Z, [1%float; 0%float])] |} eq_refl).
  destruct (remove_frame remove_agent "/nowhere" sample_store
              (or_intror eq_refl)) as (_ & _ & _ & _ & H9 & _).
  destruct H9 as [H10 H11]; [reflexivity|].
  cbv zeta.
  split; [exact H1|]. split; [exact H3|]. split; [exact H4|].
  split; [exact H7|]. split; [exact H8|]. split; [exact H10 | exact H11].
Defined.

Lemma removed_path_not_found_witness :
  let s' := run_ops [AddAgent "/agents/bot1" sample_agent false]
              (post (run_op (RemoveService "/weather") sample_store)) in
  index_ids s' = [0%Z; 1%Z]
  /\ faiss_index (post (run_op (RemoveService "/weather") sample_store))
     = faiss_index sample_store
  /\ Dict.get Z.eqb 0%Z (id_to_path_of (metadata_store s')) = None
  /\ match outcome (search_mixed sample_search "forecast" None 5 s') with
     | inr results =>
         Forall (fun r => sr_path r <> "/weather") (servers results)
         /\ Forall (fun r => tr_server_path r <> "/weather") (tools results)
         /\ map ar_path (agents results) = ["/agents/bot1"]
     | inl _ => False
     end.
Proof.
  destruct (removed_path_not_found sample_search "/weather" sample_store
              (RemoveService "/weather")
              [AddAgent "/agents/bot1" sample_agent false]
              "forecast" None 5) as (Hix & Hres & Hid).
  - left. reflexivity.
  - intros o [<-|[]]. discriminate.
  - cbv zeta. split; [reflexivity|]. split; [exact Hix|]. split.
    + apply (Hid sample_entry); [|vm_compute; reflexivity].
      unfold ids_consistent, live_ids, Dict.keys.
      change (metadata_store sample_store) with [("/weather", sample_entry)].
      change (next_id_counter sample_store) with 1%Z. cbn.
      split; [|split; [|split]].
      * constructor; [intros [] | constructor].
      * constructor; [intros [] | constructor].
      * constructor; [lia | constructor].
      * lia.
    + remember (outcome (search_mixed sample_search "forecast" None 5 _))
        as o eqn:E in |- *.
      symmetry in E.
      destruct o as [e|results]; [vm_compute in E; discriminate E|].
      destruct (Hres results E) as (Hs & Ht & _).
      split; [now apply Forall_forall|]. split; [now apply Forall_forall|].
      vm_compute in E. injection E as <-. reflexivity.
Defined.

(** A query of a space, a no-break space (U+00A0), an ideographic space
    (U+3000) and a tab. *)
Lemma blank_query_rejected_witness :
  search_mixed sample_search (str_of_list [32; 160; 12288; 9]%N) None 5
    sample_store
  = mkRun (inl (ValueError "Query text is required for semantic search"))
      sample_store [].
Proof.
  apply (blank_query_rejected sample_search
           (str_of_list [32; 160; 12288; 9]%N) None 5 sample_store).
  reflexivity.
Defined.

(* ================================================================= *)

(** * More of the service *)

(** ** Upserts and removals as functions on the state *)

Lemma run_op_post o s : post (run_op o s) = op_post o s.
Proof.
  destruct o as [path info en | path card en | path | path | path];
    cbn [run_op op_post].
  - unfold upsert_post, add_or_update_service, service_entry,
      with_metadata, with_index, with_counter.
    destruct s as [model ix md next].
    upsert_cases model ix md path; reflexivity.
  - unfold upsert_post, add_or_update_agent, agent_entry,
      with_metadata, with_index, with_counter.
    destruct s as [model ix md next].
    upsert_cases model ix md path; reflexivity.
  - apply remove_post.
  - destruct (remove_post path s) as (Hs & Ha & _). congruence.
  - destruct (remove_post path s) as (Hs & _ & He). congruence.
Qed.

Lemma upsert_calls_embedder o s path text :
  upsert_path o = Some path -> upsert_text o = Some text ->
  embedder_calls (effects (run_op o s))
  = if initialised s && needs_embedding path text s
    then [EvEncode text] else [].
Proof.
  intros Hp Ht. unfold initialised, needs_embedding.
  destruct o as [p info en | p card en | p | p | p]; cbn in Hp, Ht;
    try discriminate; injection Hp as ->; injection Ht as <-; cbn [run_op];
    [unfold add_or_update_service | unfold add_or_update_agent];
    destruct s as [model ix md next];
    upsert_cases model ix md path; rewrite ?T; reflexivity.
Qed.

Lemma removal_calls_nothing o s :
  upsert_path o = None -> embedder_calls (effects (run_op o s)) = [].
Proof.
  destruct o as [p info en | p card en | p | p | p]; cbn [upsert_path run_op];
    try discriminate; intros _;
    rewrite ?remove_entity_run, ?remove_agent_run, ?remove_service_run;
    (destruct (Dict.mem _ _ _); [destruct (faiss_index s)|]); reflexivity.
Qed.

(** X2.  An upsert calls the embedder once, on the text it renders, when
    the service is initialised and the path is new or its stored text is
    another one; otherwise, and in every removal, the embedder is not
    called. *)
Theorem embedder_called_when_needed (o : op) (s : FaissService) :
  embedder_calls (effects (run_op o s))
  = match upsert_path o, upsert_text o with
    | Some path, Some text =>
        if initialised s && needs_embedding path text s
        then [EvEncode text] else []
    | _, _ => []
    end.
Proof.
  destruct (upsert_path o) as [path|] eqn:Hp.
  - destruct (upsert_text o) as [text|] eqn:Ht.
    + now apply upsert_calls_embedder.
    + destruct o; discriminate.
  - now apply removal_calls_nothing.
Qed.

(** The saves of a call: none, or one of the state it leaves. *)
Lemma run_op_saves o s :
  saves (effects (run_op o s)) = []
  /\ metadata_store (post (run_op o s)) = metadata_store s
  \/ saves (effects (run_op o s)) = save_of (post (run_op o s))
     /\ (faiss_index s <> None -> faiss_index (post (run_op o s)) <> None).
Proof.
  destruct o as [path info en | path card en | path | path | path];
    cbn [run_op];
    try (rewrite ?remove_entity_run, ?remove_agent_run, ?remove_service_run;
         unfold save_of;
         destruct (Dict.mem _ _ _);
         [destruct (faiss_index s) eqn:F; cbn; rewrite ?F; auto | cbn; auto]).
  - unfold add_or_update_service, save_of. destruct s as [model ix md next].
    upsert_cases model ix md path;
      first [left; split; reflexivity
            | right; split; [reflexivity | cbn; congruence]].
  - unfold add_or_update_agent, save_of. destruct s as [model ix md next].
    upsert_cases model ix md path;
      first [left; split; reflexivity
            | right; split; [reflexivity | cbn; congruence]].
Qed.

(** X1.  With an index in place, a call either saves nothing and leaves
    the metadata mapping as it was, or saves once, and what it saves is
    the index, the mapping and the counter it leaves. *)
Theorem writes_are_saved (o : op) (s : FaissService) (ix0 : Index) :
  faiss_index s = Some ix0 ->
  let r := run_op o s in
  saves (effects r) = [] /\ metadata_store (post r) = metadata_store s
  \/ exists ix,
       faiss_index (post r) = Some ix
       /\ saves (effects r)
          = [EvSave ix (metadata_store (post r)) (next_id_counter (post r))].
Proof.
  intros F r. destruct (run_op_saves o s) as [H | [H Hix]]; [now left|].
  right. fold r in H, Hix. unfold save_of in H.
  destruct (faiss_index (post r)) as [ix|] eqn:E.
  - now exists ix.
  - exfalso. apply Hix; [congruence | reflexivity].
Qed.

Ltac upsert_of o Hp Ht :=
  destruct o as [?p ?info ?en | ?p ?card ?en | ?p | ?p | ?p];
  cbn in Hp, Ht; try discriminate;
  injection Hp as ->; injection Ht as <-; cbn [run_op];
  [unfold add_or_update_service | unfold add_or_update_agent].

(** X3.  An upsert of a path of the store whose text has changed, when the
    embedder answers with a vector of the dimension of the index: one call
    of the embedder; the entry keeps its id and takes the new text, the
    other entries and the counter are untouched; in the index the vectors
    under that id are replaced by the new one, the others stay; and the
    resulting state is saved. *)
Theorem update_replaces_vector (o : op) (s : FaissService)
  (model : EmbeddingsClient) (ix : Index) (path text : str) (old : Entry)
  (v : Vector) :
  upsert_path o = Some path ->
  upsert_text o = Some text ->
  embedding_model s = Some model ->
  faiss_index s = Some ix ->
  Dict.get PyStr.eqb path (metadata_store s) = Some old ->
  text_for_embedding old <> text ->
  model text = Some v ->
  List.length v = index_d ix ->
  let r := run_op o s in
  let ix' :=
    {| index_d := index_d ix;
       index_vectors :=
         (filter (fun iv => negb (Z.eqb (fst iv) (entry_id old)))
                 (index_vectors ix)
          ++ [(entry_id old, v)])%list |} in
  embedder_calls (effects r) = [EvEncode text]
  /\ next_id_counter (post r) = next_id_counter s
  /\ (exists e',
        Dict.get PyStr.eqb path (metadata_store (post r)) = Some e'
        /\ entry_id e' = entry_id old
        /\ text_for_embedding e' = text)
  /\ (forall q, q <> path ->
        Dict.get PyStr.eqb q (metadata_store (post r))
        = Dict.get PyStr.eqb q (metadata_store s))
  /\ faiss_index (post r) = Some ix'
  /\ saves (effects r)
     = [EvSave ix' (metadata_store (post r)) (next_id_counter s)].
Proof.
  intros Hp Ht Hm Hi G Hne V L r ix'. subst r ix'.
  destruct s as [model' ix0 md next]. cbn in Hm, Hi, G |- *.
  subst model' ix0.
  upsert_of o Hp Ht; run_upsert; rewrite G; run_upsert;
    (match goal with
     | |- context [PyStr.eqb (text_for_embedding old) ?t] =>
         destruct (str_eqb_spec (text_for_embedding old) t) as [E|_];
         [contradiction|]
     end);
    run_upsert; rewrite V; run_upsert;
    destruct (Nat.ltb _ _); run_upsert;
    rewrite L, Nat.eqb_refl; run_upsert;
    (split; [reflexivity|]; split; [reflexivity|];
     split; [eexists; split; [apply get_set_same | split; reflexivity]|];
     split; [intros q Hq; now apply get_set_other|];
     split; reflexivity).
Qed.

(** X4.  The same upsert when the index refuses the vector (its length is
    not the dimension of the index): the call returns without an error,
    the old vectors of the entry have been removed and nothing has been
    added; the metadata mapping, which still holds the old entry, and the
    counter are unchanged and nothing is saved. *)
Theorem index_failure_drops_vector (o : op) (s : FaissService)
  (model : EmbeddingsClient) (ix : Index) (path text : str) (old : Entry)
  (v : Vector) :
  upsert_path o = Some path ->
  upsert_text o = Some text ->
  embedding_model s = Some model ->
  faiss_index s = Some ix ->
  Dict.get PyStr.eqb path (metadata_store s) = Some old ->
  text_for_embedding old <> text ->
  model text = Some v ->
  List.length v <> index_d ix ->
  let r := run_op o s in
  outcome r = inr tt
  /\ metadata_store (post r) = metadata_store s
  /\ next_id_counter (post r) = next_id_counter s
  /\ faiss_index (post r)
     = Some {| index_d := index_d ix;
               index_vectors :=
                 filter (fun iv => negb (Z.eqb (fst iv) (entry_id old)))
                        (index_vectors ix) |}
  /\ saves (effects r) = [].
Proof.
  intros Hp Ht Hm Hi G Hne V L r. subst r.
  destruct s as [model' ix0 md next]. cbn in Hm, Hi, G |- *.
  subst model' ix0.
  apply Nat.eqb_neq in L.
  upsert_of o Hp Ht; run_upsert; rewrite G; run_upsert;
    (match goal with
     | |- context [PyStr.eqb (text_for_embedding old) ?t] =>
         destruct (str_eqb_spec (text_for_embedding old) t) as [E|_];
         [contradiction|]
     end);
    run_upsert; rewrite V; run_upsert;
    destruct (Nat.ltb _ _); run_upsert;
    rewrite L; run_upsert; repeat split; reflexivity.
Qed.

(** An upsert of what the store already holds does nothing. *)
Lemma upsert_noop o s path text old :
  upsert_path o = Some path ->
  upsert_text o = Some text ->
  Dict.get PyStr.eqb path (metadata_store s) = Some old ->
  text_for_embedding old = text ->
  match o with
  | AddService _ server_info is_enabled =>
      full_server_info old = Some (enrich server_info is_enabled)
  | AddAgent _ agent_card _ => full_agent_card old = Some agent_card
  | _ => True
  end ->
  post (run_op o s) = s
  /\ saves (effects (run_op o s)) = []
  /\ embedder_calls (effects (run_op o s)) = [].
Proof.
  intros Hp Ht G T P.
  destruct s as [model ix md next]. cbn in G.
  upsert_of o Hp Ht;
    (destruct model as [model|], ix as [ix|]; run_upsert;
     try (repeat split; reflexivity);
     rewrite G; run_upsert; rewrite T, str_eqb_refl; run_upsert;
     rewrite P, differs_same
       by first [apply ServerInfo_eqb_refl | apply AgentCard_eqb_refl];
     run_upsert; repeat split; reflexivity).
Qed.

(** X6.  An upsert that saved, made again, does nothing: the state is the
    one the first call left, the embedder is not called and nothing is
    saved. *)
Theorem saved_upsert_repeated (o : op) (s : FaissService) :
  upsert_path o <> None ->
  saves (effects (run_op o s)) <> [] ->
  let s1 := post (run_op o s) in
  post (run_op o s1) = s1
  /\ saves (effects (run_op o s1)) = []
  /\ embedder_calls (effects (run_op o s1)) = [].
Proof.
  intros Hp Hsaved s1.
  assert (exists path text e,
            upsert_path o = Some path /\ upsert_text o = Some text
            /\ Dict.get PyStr.eqb path (metadata_store s1) = Some e
            /\ text_for_embedding e = text
            /\ match o with
               | AddService _ server_info is_enabled =>
                   full_server_info e = Some (enrich server_info is_enabled)
               | AddAgent _ agent_card _ =>
                   full_agent_card e = Some agent_card
               | _ => True
               end) as (path & text & e & Hp' & Ht & G & T & P).
  { subst s1.
    destruct o as [path info en | path card en | path | path | path];
      try (now elim Hp); clear Hp; cbn [run_op] in *;
      [unfold add_or_update_service in * | unfold add_or_update_agent in *];
      destruct s as [model ix md next];
      revert Hsaved;
      upsert_cases model ix md path; intros Hsaved;
      try (now elim Hsaved);
      eexists _, _, _;
      (split; [reflexivity|]; split; [reflexivity|];
       split; [apply get_set_same|]; split; reflexivity). }
  eapply upsert_noop; eassumption.
Qed.

Lemma remove_appended (path : str) (e : Entry) (md : list (str * Entry)) :
  Dict.get PyStr.eqb path md = None ->
  Dict.remove PyStr.eqb path (md ++ [(path, e)])%list = md.
Proof.
  intros G. unfold Dict.remove. rewrite filter_app. cbn.
  rewrite str_eqb_refl. cbn. rewrite app_nil_r.
  now apply remove_absent.
Qed.

(** X5.  A new path upserted with success and then removed: the metadata
    mapping is what it was before the two calls, but the counter has
    moved on by one and the vector of the removed entry is still in the
    index, under an id that no entry has. *)
Theorem add_then_remove_leaves_vector (o rm : op) (s : FaissService)
  (model : EmbeddingsClient) (ix : Index) (path text : str) (v : Vector) :
  upsert_path o = Some path ->
  upsert_text o = Some text ->
  embedding_model s = Some model ->
  faiss_index s = Some ix ->
  Dict.get PyStr.eqb path (metadata_store s) = None ->
  model text = Some v ->
  List.length v = index_d ix ->
  rm = RemoveService path \/ rm = RemoveAgent path \/ rm = RemoveEntity path ->
  let s2 := post (run_op rm (post (run_op o s))) in
  metadata_store s2 = metadata_store s
  /\ next_id_counter s2 = (next_id_counter s + 1)%Z
  /\ faiss_index s2
     = Some {| index_d := index_d ix;
               index_vectors :=
                 (index_vectors ix ++ [(next_id_counter s, v)])%list |}.
Proof.
  intros Hp Ht Hm Hi G V L Hrm s2. subst s2.
  destruct (upsert_new_path o s model ix path text v Hp Ht Hm Hi G V L)
    as (e & _ & _ & ->).
  assert (Hpost : forall s', post (run_op rm s')
                  = with_metadata s'
                      (Dict.remove PyStr.eqb path (metadata_store s'))).
  { intros s'. destruct (remove_post path s') as (Hs & Ha & He).
    destruct Hrm as [-> | [-> | ->]]; cbn [run_op]; congruence. }
  rewrite Hpost. cbn. rewrite (remove_appended _ _ _ G). repeat split.
Qed.

Lemma enrich_flag server_info b :
  differs ServerInfo_eqb (Some (enrich server_info b))
    (Some (enrich server_info (negb b))) = true.
Proof.
  unfold differs, ServerInfo_eqb. apply negb_true_iff.
  destruct (ServerInfo_eq_dec _ _) as [E|]; [|reflexivity].
  apply (f_equal si_is_enabled) in E. unfold enrich in E. cbn in E.
  destruct b; discriminate.
Qed.

(** X7.  The enabled flag of a server: upserting a stored payload with
    the other flag calls no embedder and leaves the index and the counter
    alone; the entry is rewritten under its id with the new flag, and the
    state is saved.  For an agent the flag passed to the upsert is not
    read: the call is the same whatever it is. *)
Theorem enabled_flag_rewrites_entry (path : str) (server_info : ServerInfo)
  (b : bool) (s : FaissService) (old : Entry) (ix : Index) :
  embedding_model s <> None ->
  faiss_index s = Some ix ->
  Dict.get PyStr.eqb path (metadata_store s) = Some old ->
  text_for_embedding old = _get_text_for_embedding server_info ->
  full_server_info old = Some (enrich server_info b) ->
  let r := add_or_update_service path server_info (negb b) s in
  embedder_calls (effects r) = []
  /\ faiss_index (post r) = Some ix
  /\ next_id_counter (post r) = next_id_counter s
  /\ Dict.get PyStr.eqb path (metadata_store (post r))
     = Some (service_entry server_info (negb b) (entry_id old))
  /\ saves (effects r)
     = [EvSave ix (metadata_store (post r)) (next_id_counter s)]
  /\ (forall agent_card b1 b2,
        add_or_update_agent path agent_card b1 s
        = add_or_update_agent path agent_card b2 s).
Proof.
  intros Hm Hi G T P r. subst r.
  destruct s as [model ix' md next]. cbn in Hm, Hi, G |- *. subst ix'.
  destruct model as [model|]; [clear Hm | now elim Hm].
  unfold add_or_update_service, service_entry. run_upsert.
  rewrite G. run_upsert. rewrite T, str_eqb_refl. run_upsert.
  rewrite P, enrich_flag. run_upsert.
  repeat split; try reflexivity. apply get_set_same.
Qed.

(** ** One vector for each live entry *)

Lemma In_set_nodup {V} (k : str) (v : V) (d : list (str * V)) p x :
  NoDup (Dict.keys d) ->
  In (p, x) (Dict.set PyStr.eqb k v d) ->
  (p = k /\ x = v) \/ (p <> k /\ In (p, x) d).
Proof.
  unfold Dict.set, Dict.keys.
  induction d as [|[k' v'] d IH]; cbn; intros nd H.
  - destruct H as [[= -> ->]|[]]. now left.
  - inversion nd as [|? ? notin nd']; subst.
    destruct (str_eqb_spec k k') as [->|ne].
    + destruct H as [[= -> ->]|H]; [now left|].
      right. split; [|now right].
      intros ->. apply notin. apply in_map_iff. now exists (k', x).
    + destruct H as [[= -> ->]|H]; [right; split; [congruence | now left]|].
      destruct (IH nd' H) as [?|[? ?]]; [now left | right; auto].
Qed.

Lemma under_filtered_same i (l : list (Z * Vector)) :
  filter (fun iv => Z.eqb (fst iv) i)
    (filter (fun iv => negb (Z.eqb (fst iv) i)) l) = [].
Proof.
  induction l as [|a l IH]; cbn; [reflexivity|].
  destruct (Z.eqb (fst a) i) eqn:E; cbn; [assumption|].
  now rewrite E.
Qed.

Lemma under_filtered_other i j (l : list (Z * Vector)) :
  i <> j ->
  filter (fun iv => Z.eqb (fst iv) i)
    (filter (fun iv => negb (Z.eqb (fst iv) j)) l)
  = filter (fun iv => Z.eqb (fst iv) i) l.
Proof.
  intros ne. induction l as [|a l IH]; cbn; [reflexivity|].
  destruct (Z.eqb_spec (fst a) j) as [E|E]; cbn.
  - destruct (Z.eqb_spec (fst a) i); [congruence | assumption].
  - destruct (Z.eqb (fst a) i); [f_equal|]; assumption.
Qed.

Lemma under_none i (l : list (Z * Vector)) :
  (forall iv, In iv l -> fst iv <> i) ->
  filter (fun iv => Z.eqb (fst iv) i) l = [].
Proof.
  induction l as [|a l IH]; cbn; intros H; [reflexivity|].
  destruct (Z.eqb_spec (fst a) i) as [E|E].
  - exfalso. apply (H a); auto.
  - apply IH. auto.
Qed.

Lemma under_one_in i (l : list (Z * Vector)) :
  List.length (filter (fun iv => Z.eqb (fst iv) i) l) = 1%nat ->
  exists iv, In iv l /\ fst iv = i.
Proof.
  destruct (filter _ l) as [|iv m] eqn:F; [discriminate|]. intros _.
  assert (Hiv : In iv (iv :: m)) by now left.
  rewrite <- F in Hiv. apply filter_In in Hiv as [Hiv E].
  apply Z.eqb_eq in E. eauto.
Qed.

Section VectorsMatch.
Variables (model : EmbeddingsClient) (d : nat).
Hypothesis model_ok : well_dimensioned model d.

Lemma upsert_post_synchronised path text entry changed s :
  (forall i, entry_id (entry i) = i) ->
  ids_consistent (upsert_post path text entry changed s) ->
  synchronised model d s ->
  synchronised model d (upsert_post path text entry changed s).
Proof.
  intros Hid Hcons' (Hm & Hcons & ix & Hi & Hd & Hbound & Hone).
  split; [|split; [exact Hcons'|]].
  { unfold upsert_post. rewrite Hm, Hi.
    destruct (Dict.get _ _ _) as [old|].
    - destruct (PyStr.eqb _ _); [now destruct (changed old)|].
      destruct (model text); [|assumption].
      now destruct (add_with_ids _ _ _).
    - destruct (model text); [|assumption].
      now destruct (add_with_ids _ _ _). }
  clear Hcons'. destruct Hcons as (nk & ni & _ & pos).
  unfold vectors_match, upsert_post. rewrite Hm, Hi.
  destruct (Dict.get PyStr.eqb path (metadata_store s)) as [old|] eqn:G.
  - destruct (PyStr.eqb (text_for_embedding old) text).
    + destruct (changed old); [|exists ix; auto].
      exists ix. cbn. split; [assumption|]. split; [assumption|].
      split; [assumption|].
      intros p e Hin. apply In_set_nodup in Hin as [[-> ->]|[ne Hin]];
        [|eauto | assumption].
      rewrite Hid. apply (Hone path old). now apply get_In.
    + destruct (model text) as [v|] eqn:V; [|exists ix; auto].
      unfold add_with_ids. cbn. rewrite (model_ok _ _ V), Hd, Nat.eqb_refl.
      eexists. cbn. split; [reflexivity|]. split; [reflexivity|].
      pose proof (get_In _ _ _ G) as Hold.
      assert (Hb : (0 <= entry_id old < next_id_counter s)%Z).
      { destruct (under_one_in _ _ (Hone path old Hold)) as (iv & Hiv & <-).
        now apply Hbound. }
      split.
      * intros iv Hin. apply in_app_iff in Hin as [Hin|[<-|[]]];
          [|exact Hb].
        apply filter_In in Hin as [Hin _]. now apply Hbound.
      * intros p e Hin. unfold vectors_under. cbn. rewrite filter_app. cbn.
        apply In_set_nodup in Hin as [[-> ->]|[ne Hin]]; [| |assumption].
        -- rewrite Hid, under_filtered_same, Z.eqb_refl. reflexivity.
        -- assert (Hids : entry_id e <> entry_id old).
           { intros E.
             assert ((p, e) = (path, old)) as [= -> ->]; [|now apply ne].
             eapply (NoDup_map_inj (fun pe => entry_id (snd pe))); eauto. }
           rewrite under_filtered_other by assumption.
           destruct (Z.eqb_spec (entry_id old) (entry_id e)); [congruence|].
           rewrite app_nil_r. now apply (Hone p e).
  - destruct (model text) as [v|] eqn:V.
    + unfold add_with_ids. rewrite (model_ok _ _ V), Hd, Nat.eqb_refl.
      eexists. cbn. split; [reflexivity|]. split; [reflexivity|]. split.
      * intros iv Hin. apply in_app_iff in Hin as [Hin|[<-|[]]].
        -- apply Hbound in Hin. lia.
        -- cbn. lia.
      * intros p e Hin. rewrite (set_absent _ _ _ G) in Hin.
        unfold vectors_under. cbn. rewrite filter_app. cbn.
        apply in_app_iff in Hin as [Hin|[[= <- <-]|[]]].
        -- specialize (Hone p e Hin). unfold vectors_under in Hone.
           assert (Hlt : (entry_id e < next_id_counter s)%Z).
           { destruct (under_one_in _ _ Hone) as (iv & Hiv & <-).
             now apply Hbound. }
           destruct (Z.eqb_spec (next_id_counter s) (entry_id e)); [lia|].
           now rewrite app_nil_r.
        -- rewrite Hid, Z.eqb_refl.
           rewrite under_none; [reflexivity|].
           intros iv Hiv. apply Hbound in Hiv. lia.
    + exists ix. cbn. split; [assumption|]. split; [assumption|].
      split; [|assumption].
      intros iv Hin. apply Hbound in Hin. lia.
Qed.

Lemma op_post_synchronised o s :
  synchronised model d s -> synchronised model d (op_post o s).
Proof.
  intros H.
  assert (Hcons' : ids_consistent (op_post o s)).
  { rewrite <- run_op_post. apply run_op_consistent. apply H. }
  destruct o as [path info en | path card en | path | path | path];
    cbn [op_post] in *;
    try (apply upsert_post_synchronised; auto; fail);
    (destruct H as (Hm & Hcons & ix & Hi & Hd & Hbound & Hone);
     split; [exact Hm|]; split; [exact Hcons'|];
     exists ix; cbn; (split; [assumption|]); (split; [assumption|]);
     (split; [assumption|]);
     intros p e Hin; apply remove_incl in Hin; eauto).
Qed.

Lemma run_ops_synchronised ops s :
  synchronised model d s -> synchronised model d (run_ops ops s).
Proof.
  revert s. induction ops as [|o ops IH]; cbn; intros s H; [assumption|].
  apply IH. rewrite run_op_post. now apply op_post_synchronised.
Qed.

End VectorsMatch.

(** X8.  With an embedder whose vectors have the dimension of the index,
    in every state reached from the empty store by upserts and removals
    each live entry has exactly one vector in the index under its id, and
    every id in the index is below the counter. *)
Theorem live_entries_have_one_vector (model : EmbeddingsClient) (d : nat)
  (ops : list op) :
  well_dimensioned model d ->
  let s := run_ops ops (empty_store (Some model) (Some (empty_index d))) in
  exists ix,
    faiss_index s = Some ix
    /\ index_d ix = d
    /\ (forall iv, In iv (index_vectors ix) ->
          (0 <= fst iv < next_id_counter s)%Z)
    /\ (forall path e,
          Dict.get PyStr.eqb path (metadata_store s) = Some e ->
          List.length (vectors_under (entry_id e) ix) = 1%nat).
Proof.
  intros Hok s.
  assert (H : synchronised model d s).
  { apply run_ops_synchronised; [assumption|].
    split; [reflexivity|]. split.
    - unfold ids_consistent, live_ids. cbn.
      repeat split; try constructor; lia.
    - exists (empty_index d). cbn. split; [reflexivity|].
      split; [reflexivity|]. split; intros; contradiction. }
  destruct H as (_ & _ & ix & Hi & Hd & Hb & Hone).
  exists ix. split; [assumption|]. split; [assumption|].
  split; [assumption|].
  intros path e G. apply (Hone path e). now apply get_In.
Qed.

(** ** Search, hit by hit *)

Lemma visit_hit_app query entity_filter md acc hit :
  visit_hit query entity_filter md (id_to_path_of md) acc hit
  = (fst (fst acc) ++ hit_servers query entity_filter md hit,
     snd (fst acc) ++ hit_tools query entity_filter md hit,
     snd acc ++ hit_agents query entity_filter md hit)%list.
Proof.
  destruct acc as [[sr tr] ar], hit as [distance faiss_id].
  unfold hit_servers, hit_tools, hit_agents, hit_results, visit_hit.
  cbn [fst snd].
  destruct (Z.eqb faiss_id (-1)); [cbn; now rewrite !app_nil_r|].
  destruct (Dict.get Z.eqb faiss_id _) as [path|];
    [|cbn; now rewrite !app_nil_r].
  destruct (PyStr.is_empty path); [cbn; now rewrite !app_nil_r|].
  destruct (Dict.get PyStr.eqb path md) as [entry|];
    [|cbn; now rewrite !app_nil_r].
  destruct (PyStr.eqb (entity_type entry) "mcp_server").
  - destruct (full_server_info entry) as [info|];
      [|cbn; now rewrite !app_nil_r].
    destruct (in_filter "mcp_server" entity_filter),
      (in_filter "tool" entity_filter); cbn; now rewrite ?app_nil_r.
  - destruct (PyStr.eqb (entity_type entry) "a2a_agent");
      [|cbn; now rewrite !app_nil_r].
    destruct (negb (in_filter "a2a_agent" entity_filter));
      [cbn; now rewrite !app_nil_r|].
    destruct (full_agent_card entry) as [card|]; cbn; now rewrite ?app_nil_r.
Qed.

Lemma visit_hits_app query entity_filter md hits : forall acc,
  fold_left (visit_hit query entity_filter md (id_to_path_of md)) hits acc
  = (fst (fst acc) ++ flat_map (hit_servers query entity_filter md) hits,
     snd (fst acc) ++ flat_map (hit_tools query entity_filter md) hits,
     snd acc ++ flat_map (hit_agents query entity_filter md) hits)%list.
Proof.
  induction hits as [|hit hits IH]; intros acc; cbn [fold_left flat_map].
  - rewrite !app_nil_r. now destruct acc as [[? ?] ?].
  - rewrite IH, visit_hit_app. cbn [fst snd]. now rewrite !app_assoc.
Qed.

Section SearchRuns.
Variable index_search : Index -> Vector -> nat -> list (float * Z).

(** [search_mixed], case by case. *)
Lemma search_mixed_run query entity_types max_results s :
  search_mixed index_search query entity_types max_results s
  = if PyStr.is_empty query || PyStr.is_empty (PyStr.strip query) then
      mkRun (inl (ValueError "Query text is required for semantic search"))
        s []
    else
      match embedding_model s, faiss_index s with
      | Some model, Some ix =>
          if Z.eqb (Z.of_nat (ntotal ix)) 0 then
            mkRun (inr {| servers := []; tools := []; agents := [] |}) s []
          else
            match model (PyStr.strip query) with
            | Some v =>
                mkRun
                  (inr (results_of query entity_types max_results
                          (metadata_store s)
                          (index_search ix v
                             (Z.to_nat
                                (Z.min (Z.max 1 (Z.min max_results 50))
                                   (Z.of_nat (ntotal ix)))))))
                  s [EvEncode (PyStr.strip query)]
            | None => mkRun (inl EncodeError) s [EvEncode (PyStr.strip query)]
            end
      | _, _ =>
          mkRun (inl (RuntimeError "FAISS search service is not initialized"))
            s []
      end.
Proof.
  unfold search_mixed.
  destruct (_ || _); [reflexivity|].
  destruct s as [model ix md next]. run_monad.
  destruct model as [model|]; [|reflexivity].
  destruct ix as [ix|]; [|reflexivity].
  destruct (Z.eqb _ 0); [reflexivity|].
  unfold encode. run_monad.
  destruct (model _) as [v|]; [|reflexivity]. cbn.
  rewrite visit_hits_app. reflexivity.
Qed.

End SearchRuns.

Lemma hit_servers_In query entity_filter md distance faiss_id r :
  In r (hit_servers query entity_filter md (distance, faiss_id)) ->
  exists path entry server_info,
    resolves md faiss_id path entry
    /\ entity_type entry = "mcp_server"
    /\ full_server_info entry = Some server_info
    /\ in_filter "mcp_server" entity_filter = true
    /\ r = server_result_of query entity_filter path server_info
             (_distance_to_relevance distance).
Proof.
  unfold hit_servers, hit_results, visit_hit, resolves.
  destruct (Z.eqb faiss_id (-1)); [intros []|].
  destruct (Dict.get Z.eqb faiss_id _) as [path|] eqn:Hid; [|intros []].
  destruct (PyStr.is_empty path) eqn:Hp; [intros []|].
  destruct (Dict.get PyStr.eqb path md) as [entry|] eqn:Hmd; [|intros []].
  destruct (str_eqb_spec (entity_type entry) "mcp_server") as [Ht|Ht].
  - destruct (full_server_info entry) as [info|] eqn:Hi; [|intros []].
    cbn. destruct (in_filter "mcp_server" entity_filter) eqn:Hf; [|intros []].
    intros [<-|[]]. exists path, entry, info.
    repeat split; auto.
  - destruct (PyStr.eqb (entity_type entry) "a2a_agent"); [|intros []].
    destruct (negb (in_filter "a2a_agent" entity_filter)); [intros []|].
    destruct (full_agent_card entry); intros [].
Qed.

Lemma hit_tools_In query entity_filter md distance faiss_id r :
  In r (hit_tools query entity_filter md (distance, faiss_id)) ->
  exists path entry server_info,
    resolves md faiss_id path entry
    /\ entity_type entry = "mcp_server"
    /\ full_server_info entry = Some server_info
    /\ in_filter "tool" entity_filter = true
    /\ In r (tool_results_of query entity_filter path server_info
               (_distance_to_relevance distance)).
Proof.
  unfold hit_tools, hit_results, visit_hit, resolves.
  destruct (Z.eqb faiss_id (-1)); [intros []|].
  destruct (Dict.get Z.eqb faiss_id _) as [path|] eqn:Hid; [|intros []].
  destruct (PyStr.is_empty path) eqn:Hp; [intros []|].
  destruct (Dict.get PyStr.eqb path md) as [entry|] eqn:Hmd; [|intros []].
  destruct (str_eqb_spec (entity_type entry) "mcp_server") as [Ht|Ht].
  - destruct (full_server_info entry) as [info|] eqn:Hi; [|intros []].
    cbn. unfold tool_results_of, matching_tools_of.
    destruct (in_filter "tool" entity_filter) eqn:Hf; [|intros []].
    intros Hr. exists path, entry, info. repeat split; auto.
  - destruct (PyStr.eqb (entity_type entry) "a2a_agent"); [|intros []].
    destruct (negb (in_filter "a2a_agent" entity_filter)); [intros []|].
    destruct (full_agent_card entry); intros [].
Qed.

Lemma hit_agents_In query entity_filter md distance faiss_id r :
  In r (hit_agents query entity_filter md (distance, faiss_id)) ->
  exists path entry agent_card,
    resolves md faiss_id path entry
    /\ entity_type entry = "a2a_agent"
    /\ full_agent_card entry = Some agent_card
    /\ in_filter "a2a_agent" entity_filter = true
    /\ r = agent_result_of path agent_card (_distance_to_relevance distance).
Proof.
  unfold hit_agents, hit_results, visit_hit, resolves.
  destruct (Z.eqb faiss_id (-1)); [intros []|].
  destruct (Dict.get Z.eqb faiss_id _) as [path|] eqn:Hid; [|intros []].
  destruct (PyStr.is_empty path) eqn:Hp; [intros []|].
  destruct (Dict.get PyStr.eqb path md) as [entry|] eqn:Hmd; [|intros []].
  destruct (str_eqb_spec (entity_type entry) "mcp_server") as [Ht|Ht].
  - destruct (full_server_info entry) as [info|]; intros [].
  - destruct (str_eqb_spec (entity_type entry) "a2a_agent") as [Ha|Ha];
      [|intros []].
    destruct (in_filter "a2a_agent" entity_filter) eqn:Hf; [|intros []].
    destruct (full_agent_card entry) as [card|] eqn:Hc; [|intros []].
    cbn. intros [<-|[]]. exists path, entry, card. repeat split; auto.
Qed.

(** ** The order of the scores *)

Section SortNumbers.
Context {A : Type} (score : A -> float).

Lemma insert_desc_ranked x l :
  is_number (score x) ->
  Forall (fun y => is_number (score y)) l ->
  StronglySorted (ranked score) l ->
  StronglySorted (ranked score) (insert_desc score PrimFloat.ltb x l).
Proof.
  intros Hx Hl Hs. induction Hs as [|y l Hs IH Hy]; cbn.
  - repeat constructor.
  - apply Forall_cons_iff in Hl as [Hy' Hl].
    destruct (score x <? score y)%float eqn:E.
    + constructor; [now apply IH|].
      rewrite Forall_forall in *. intros z Hz.
      apply (Permutation_in _ (insert_desc_perm score PrimFloat.ltb x l)) in Hz.
      destruct Hz as [<-|Hz]; [|now apply Hy].
      now apply float_ltb_leb.
    + assert (Hyx : ranked score x y) by now apply float_not_ltb.
      constructor; [now constructor|].
      constructor; [exact Hyx|].
      rewrite Forall_forall in *. intros z Hz.
      eapply float_leb_trans; [now apply Hy | exact Hyx].
Qed.

Lemma sort_desc_ranked l :
  Forall (fun y => is_number (score y)) l ->
  StronglySorted (ranked score) (sort_desc score PrimFloat.ltb l).
Proof.
  induction 1 as [|x l Hx Hl IH]; cbn; [constructor|].
  apply insert_desc_ranked; [assumption | | assumption].
  rewrite Forall_forall in *. intros y Hy. apply Hl.
  now apply (sort_desc_In score PrimFloat.ltb).
Qed.

End SortNumbers.

Lemma StronglySorted_firstn {A} (R : A -> A -> Prop) n l :
  StronglySorted R l -> StronglySorted R (firstn n l).
Proof.
  intros H. revert n. induction H as [|x l Hl IH Hx]; intros [|n]; cbn;
    try constructor; [apply IH|].
  rewrite Forall_forall in *. intros y Hy. apply Hx.
  eapply firstn_In. exact Hy.
Qed.

(** ** What a search returns *)

Lemma relevance_in_unit (distance : float) :
  (0 <=? _distance_to_relevance distance)%float = true
  /\ (_distance_to_relevance distance <=? 1)%float = true.
Proof.
  unfold _distance_to_relevance.
  destruct (_ =? 0)%float; [split; reflexivity | apply clamp_in_unit].
Qed.

Lemma composite_at_most_one (relevance : float) (raw_score : Q) :
  (composite_score relevance raw_score <=? 1)%float = true.
Proof.
  unfold composite_score, py_min.
  destruct (_ <? 1)%float eqn:E; [now apply float_ltb_leb | reflexivity].
Qed.

(** ** The sign of the scores *)

Lemma binary_round_aux_unsigned m e l :
  unsigned_sf (binary_round_aux prec emax false m e l).
Proof.
  unfold binary_round_aux.
  destruct (shr_fexp prec emax m e l) as [mrs' e'].
  destruct (shr_fexp prec emax _ e' loc_Exact) as [mrs'' e''].
  destruct (shr_m mrs''); cbn; [reflexivity | | exact I].
  destruct (_ <=? _)%Z; reflexivity.
Qed.

Lemma binary_round_unsigned p e :
  unsigned_sf (binary_round prec emax false p e).
Proof.
  unfold binary_round. destruct (shl_align _ _ _) as [mz ez].
  apply binary_round_aux_unsigned.
Qed.

Lemma binary_normalize_unsigned m e :
  (0 <= m)%Z -> unsigned_sf (binary_normalize prec emax m e false).
Proof.
  intros H. destruct m as [|p|p]; cbn; [reflexivity | | lia].
  apply binary_round_unsigned.
Qed.

Lemma of_uint63_unsigned n : unsigned_sf (Prim2SF (of_uint63 n)).
Proof.
  rewrite FloatAxioms.of_uint63_spec. apply binary_normalize_unsigned.
  apply Uint63.to_Z_bounded.
Qed.

Lemma div_unsigned (x y : float) :
  unsigned_sf (Prim2SF x) -> unsigned_sf (Prim2SF y) ->
  unsigned_sf (Prim2SF (x / y)).
Proof.
  rewrite FloatAxioms.div_spec. unfold SF64div, SFdiv.
  destruct (Prim2SF x) as [sx|sx| |sx mx ex],
    (Prim2SF y) as [sy|sy| |sy my ey]; cbn;
    try (intros -> ->; reflexivity); try (intros; exact I).
  intros -> ->. cbn.
  destruct (SFdiv_core_binary _ _ _ _ _ _) as [[mz ez] lz].
  apply binary_round_aux_unsigned.
Qed.

Lemma add_unsigned (x y : float) :
  unsigned_sf (Prim2SF x) -> unsigned_sf (Prim2SF y) ->
  unsigned_sf (Prim2SF (x + y)).
Proof.
  rewrite FloatAxioms.add_spec. unfold SF64add, SFadd.
  destruct (Prim2SF x) as [sx|sx| |sx mx ex],
    (Prim2SF y) as [sy|sy| |sy my ey]; cbn;
    try (intros -> ->; reflexivity); try (intros; exact I).
  intros -> ->. cbn. apply binary_round_unsigned.
Qed.

Lemma unsigned_not_below_zero (x : float) :
  unsigned_sf (Prim2SF x) -> is_number x -> (0 <=? x)%float = true.
Proof.
  unfold is_number. rewrite FloatAxioms.leb_spec. unfold SFleb.
  change (Prim2SF 0) with (S754_zero false).
  destruct (Prim2SF x) as [s|s| |s m e]; cbn; try congruence;
    intros -> _; reflexivity.
Qed.

Lemma above_zero_unsigned (x : float) :
  (0 <? x)%float = true -> unsigned_sf (Prim2SF x).
Proof.
  rewrite FloatAxioms.ltb_spec. unfold SFltb.
  change (Prim2SF 0) with (S754_zero false).
  destruct (Prim2SF x) as [s|s| |s m e]; cbn; try discriminate;
    destruct s; try discriminate; reflexivity.
Qed.

Lemma relevance_unsigned (distance : float) :
  unsigned_sf (Prim2SF (_distance_to_relevance distance)).
Proof.
  unfold _distance_to_relevance, py_max.
  destruct (_ =? 0)%float; [reflexivity|].
  destruct (0 <? _)%float eqn:E; [now apply above_zero_unsigned|].
  reflexivity.
Qed.

Lemma composite_not_below_zero (relevance : float) (raw_score : Q) :
  unsigned_sf (Prim2SF relevance) ->
  (0 <=? composite_score relevance raw_score)%float = true.
Proof.
  intros Hr. unfold composite_score, py_min.
  destruct (_ <? 1)%float eqn:E; [|reflexivity].
  apply unsigned_not_below_zero.
  - apply div_unsigned; [|reflexivity].
    apply add_unsigned; [assumption|].
    unfold float_of_Q. apply div_unsigned; apply of_uint63_unsigned.
  - exact (proj1 (float_leb_number _ _ (float_ltb_leb _ _ E))).
Qed.

Lemma clamp_limit_range (max_results : Z) :
  (1 <= clamp_limit max_results <= 50)%nat.
Proof. unfold clamp_limit. lia. Qed.

Lemma firstn_sorted_In {A K} (key : A -> K) (lt : K -> K -> bool) n l x :
  In x (firstn n (sort_desc key lt l)) -> In x l.
Proof.
  intros H. apply firstn_In in H.
  exact (proj1 (sort_desc_In key lt x l) H).
Qed.

Lemma matching_tools_at_most_five query entity_filter server_info :
  (List.length (matching_tools_of query entity_filter server_info) <= 5)%nat.
Proof.
  unfold matching_tools_of. destruct (in_filter _ _); cbn; [|lia].
  apply firstn_le_length.
Qed.

Lemma results_of_servers query entity_types max_results md hits r :
  In r (servers (results_of query entity_types max_results md hits)) ->
  exists distance faiss_id,
    In (distance, faiss_id) hits
    /\ In r (hit_servers query (entity_filter_of entity_types) md
               (distance, faiss_id)).
Proof.
  cbn. intros H. apply firstn_sorted_In in H.
  apply in_flat_map in H as ([distance faiss_id] & Hh & Hr). eauto.
Qed.

Lemma results_of_tools query entity_types max_results md hits r :
  In r (tools (results_of query entity_types max_results md hits)) ->
  exists distance faiss_id,
    In (distance, faiss_id) hits
    /\ In r (hit_tools query (entity_filter_of entity_types) md
               (distance, faiss_id)).
Proof.
  cbn. intros H. apply firstn_sorted_In in H.
  apply in_flat_map in H as ([distance faiss_id] & Hh & Hr). eauto.
Qed.

Lemma results_of_agents query entity_types max_results md hits r :
  In r (agents (results_of query entity_types max_results md hits)) ->
  exists distance faiss_id,
    In (distance, faiss_id) hits
    /\ In r (hit_agents query (entity_filter_of entity_types) md
               (distance, faiss_id)).
Proof.
  cbn. intros H. apply firstn_sorted_In in H.
  apply in_flat_map in H as ([distance faiss_id] & Hh & Hr). eauto.
Qed.

Section SearchResults.
Variable index_search : Index -> Vector -> nat -> list (float * Z).

(** A search that returns has found nothing, or returns the results of
    some hits on the store. *)
Lemma search_mixed_returns query entity_types max_results s results :
  outcome (search_mixed index_search query entity_types max_results s)
  = inr results ->
  results = {| servers := []; tools := []; agents := [] |}
  \/ exists hits,
       results
       = results_of query entity_types max_results (metadata_store s) hits.
Proof.
  rewrite search_mixed_run.
  destruct (_ || _); [discriminate|].
  destruct (embedding_model s) as [model|]; [|discriminate].
  destruct (faiss_index s) as [ix|]; [|discriminate].
  destruct (Z.eqb _ 0); [intros [= <-]; now left|].
  destruct (model _) as [v|]; [|discriminate].
  intros [= <-]. right. eauto.
Qed.

Lemma search_agents_run query max_results s :
  search_agents index_search query max_results s
  = let r := search_mixed index_search query (Some ["a2a_agent"])
               max_results s in
    mkRun (match outcome r with
           | inl e => inl e
           | inr results => inr (agents results)
           end) (post r) (effects r).
Proof.
  unfold search_agents. run_monad.
  destruct (search_mixed _ _ _ _ s) as [[e|results] s' t]; cbn;
    [reflexivity|].
  unfold ret. cbn. now rewrite app_nil_r.
Qed.

End SearchResults.

(** ** The entity filter *)

Lemma in_filter_In t l : in_filter t l = true <-> In t l.
Proof.
  unfold in_filter. rewrite existsb_exists. split.
  - intros (u & Hu & E). apply str_eqb_eq in E. now subst.
  - intros H. exists t. split; [assumption | apply str_eqb_refl].
Qed.

Lemma entity_filter_allowed entity_types t :
  In t (entity_filter_of entity_types) -> In t allowed_entity_types.
Proof.
  unfold entity_filter_of.
  destruct (filter _ allowed_entity_types) as [|u f] eqn:F; [auto|].
  rewrite <- F. intros H. now apply filter_In in H.
Qed.

Lemma entity_filter_requested l t :
  (exists u, In u l /\ In u allowed_entity_types) ->
  In t (entity_filter_of (Some l)) -> In t l.
Proof.
  intros (u & Hl & Ha). unfold entity_filter_of.
  destruct l as [|a l]; [destruct Hl|].
  destruct (filter _ allowed_entity_types) as [|v f] eqn:F.
  - assert (Hu : In u []); [|destruct Hu].
    rewrite <- F. apply filter_In. split; [assumption|].
    exact (proj2 (in_filter_In u (a :: l)) Hl).
  - rewrite <- F. intros H. apply filter_In in H as [_ H].
    exact (proj1 (in_filter_In t (a :: l)) H).
Qed.

Lemma entity_filter_unknown l :
  (forall t, In t l -> ~ In t allowed_entity_types) ->
  entity_filter_of (Some l) = entity_filter_of None.
Proof.
  intros H. destruct l as [|a l]; [reflexivity|].
  unfold entity_filter_of.
  destruct (filter _ allowed_entity_types) as [|v f] eqn:F; [reflexivity|].
  assert (Hv : In v (v :: f)) by now left.
  rewrite <- F in Hv. apply filter_In in Hv as [Ha Hv].
  apply (proj1 (in_filter_In v (a :: l))) in Hv. now elim (H v).
Qed.

(** ** Matching tools *)

Lemma matching_tools_In query entity_filter server_info m :
  In m (matching_tools_of query entity_filter server_info) ->
  exists tool,
    In tool (tools_of server_info)
    /\ (0 < token_hits (query_tokens query) tool)%nat
    /\ m = matched_tool (query_tokens query) tool.
Proof.
  unfold matching_tools_of. destruct (in_filter _ _); [|intros []].
  intros H. apply firstn_In in H. rewrite extract_matching_tools_run in H.
  apply (proj1 (sort_desc_In tm_raw_score Qltb m _)) in H.
  apply in_map_iff in H as (tool & <- & H).
  apply filter_In in H as [Hin Hh]. apply Nat.ltb_lt in Hh. eauto.
Qed.

Lemma token_hits_witness tokens tool :
  (0 < token_hits tokens tool)%nat ->
  exists token,
    In token tokens /\ PyStr.contains token (searchable_text tool) = true.
Proof.
  unfold token_hits, matches_found. intros H.
  destruct (filter _ tokens) as [|token l] eqn:F; [cbn in H; lia|].
  exists token.
  apply (proj1 (filter_In
                  (fun token => PyStr.contains token (searchable_text tool))
                  token tokens)).
  rewrite F. now left.
Qed.

Lemma token_hits_bound tokens tool :
  (token_hits tokens tool <= List.length tokens)%nat.
Proof. unfold token_hits, matches_found. apply filter_length_le. Qed.

Section SearchGuarantees.
Variable index_search : Index -> Vector -> nat -> list (float * Z).

(** X9.  A search never writes: whatever the query, the filter, the limit
    and the state, [search_mixed] and [search_agents] leave the service as
    it was and save nothing, and they call the embedder at most once, on
    the stripped query. *)
Theorem search_is_read_only (query : str)
  (entity_types : option (list str)) (max_results : Z)
  (s : FaissService) :
  let r := search_mixed index_search query entity_types max_results s in
  let r' := search_agents index_search query max_results s in
  post r = s /\ post r' = s
  /\ saves (effects r) = [] /\ saves (effects r') = []
  /\ (effects r = [] \/ effects r = [EvEncode (PyStr.strip query)])
  /\ effects r' = effects (search_mixed index_search query
                             (Some ["a2a_agent"]) max_results s).
Proof.
  assert (H : forall types,
             let r := search_mixed index_search query types max_results s in
             post r = s
             /\ (effects r = [] \/ effects r = [EvEncode (PyStr.strip query)])).
  { intros types. cbv zeta. rewrite search_mixed_run.
    destruct (_ || _); [cbn; auto|].
    destruct (embedding_model s) as [model|]; [|cbn; auto].
    destruct (faiss_index s) as [ix|]; [|cbn; auto].
    destruct (Z.eqb _ 0); [cbn; auto|].
    destruct (model _); cbn; auto. }
  cbv zeta. rewrite search_agents_run. cbv zeta. cbn [post effects].
  destruct (H entity_types) as [Hp He].
  destruct (H (Some ["a2a_agent"])) as [Hp' He'].
  repeat split; try assumption.
  - destruct He as [-> | ->]; reflexivity.
  - destruct He' as [-> | ->]; reflexivity.
Qed.

(** X10.  How a search with a query that is not blank fails or comes back
    empty: without an embedder or without an index it raises the
    [RuntimeError]; with an index that holds no vector it returns three
    empty lists; in both cases the embedder is not called.  When the
    embedder fails on the query the failure is raised to the caller. *)
Theorem search_without_vectors (query : str)
  (entity_types : option (list str)) (max_results : Z)
  (s : FaissService) :
  PyStr.is_empty query || PyStr.is_empty (PyStr.strip query) = false ->
  let r := search_mixed index_search query entity_types max_results s in
  (embedding_model s = None \/ faiss_index s = None ->
   outcome r = inl (RuntimeError "FAISS search service is not initialized")
   /\ effects r = [])
  /\ (forall model ix,
        embedding_model s = Some model -> faiss_index s = Some ix ->
        (ntotal ix = 0%nat ->
         outcome r = inr {| servers := []; tools := []; agents := [] |}
         /\ effects r = [])
        /\ (ntotal ix <> 0%nat -> model (PyStr.strip query) = None ->
            outcome r = inl EncodeError)).
Proof.
  intros Hq. cbv zeta. rewrite search_mixed_run, Hq. split.
  - intros [-> | Hix]; [now split|].
    rewrite Hix. destruct (embedding_model s); now split.
  - intros model ix -> ->. split.
    + intros ->. now split.
    + intros Hn ->.
      destruct (Z.eqb_spec (Z.of_nat (ntotal ix)) 0); [lia | reflexivity].
Qed.

(** X11.  The size of an answer: each of the three lists holds at most
    [max(1, min(max_results, 50))] results, hence at most 50 whatever
    limit is asked for and possibly one when the limit asked for is zero
    or negative; and a server result carries at most five matching
    tools. *)
Theorem search_result_limits (query : str)
  (entity_types : option (list str)) (max_results : Z)
  (s : FaissService) (results : SearchResults) :
  outcome (search_mixed index_search query entity_types max_results s)
  = inr results ->
  let limit := Z.to_nat (Z.max 1 (Z.min max_results 50)) in
  (1 <= limit <= 50)%nat
  /\ (List.length (servers results) <= limit)%nat
  /\ (List.length (tools results) <= limit)%nat
  /\ (List.length (agents results) <= limit)%nat
  /\ (forall r, In r (servers results) ->
        (List.length (sr_matching_tools r) <= 5)%nat).
Proof.
  intros H limit. split; [apply clamp_limit_range|].
  apply search_mixed_returns in H as [-> | (hits & ->)].
  - cbn. repeat split; try lia.
  - repeat split; try apply firstn_le_length.
    intros r Hr. apply results_of_servers in Hr as (d & i & _ & Hr).
    apply hit_servers_In in Hr as (path & entry & info & _ & _ & _ & _ & ->).
    cbn. rewrite length_map. apply matching_tools_at_most_five.
Qed.

(** X12.  A filter that names at least one known entity type is obeyed:
    servers are returned only when ["mcp_server"] is asked for, agents
    only when ["a2a_agent"] is, and tools, whether in their own list or
    attached to a server result, only when ["tool"] is. *)
Theorem search_obeys_filter (query : str) (requested : list str)
  (max_results : Z) (s : FaissService) (results : SearchResults) :
  outcome (search_mixed index_search query (Some requested) max_results s)
  = inr results ->
  (exists t, In t requested /\ In t allowed_entity_types) ->
  (~ In "mcp_server" requested -> servers results = [])
  /\ (~ In "a2a_agent" requested -> agents results = [])
  /\ (~ In "tool" requested ->
      tools results = []
      /\ forall r, In r (servers results) -> sr_matching_tools r = []).
Proof.
  intros H Hk.
  assert (Hf : forall t, ~ In t requested ->
                 in_filter t (entity_filter_of (Some requested)) = false).
  { intros t Hn. apply not_true_iff_false. intros E. apply Hn.
    apply in_filter_In in E. now apply entity_filter_requested. }
  apply search_mixed_returns in H as [-> | (hits & ->)];
    [cbn; repeat split; auto; intros r []|].
  split; [|split; [|intros Hn; split]].
  - intros Hn. destruct (servers _) as [|r l] eqn:E; [reflexivity|].
    assert (Hr : In r (r :: l)) by now left.
    rewrite <- E in Hr. apply results_of_servers in Hr as (d & i & _ & Hr).
    apply hit_servers_In in Hr as (? & ? & ? & _ & _ & _ & Hin & _).
    rewrite (Hf _ Hn) in Hin. discriminate.
  - intros Hn. destruct (agents _) as [|r l] eqn:E; [reflexivity|].
    assert (Hr : In r (r :: l)) by now left.
    rewrite <- E in Hr. apply results_of_agents in Hr as (d & i & _ & Hr).
    apply hit_agents_In in Hr as (? & ? & ? & _ & _ & _ & Hin & _).
    rewrite (Hf _ Hn) in Hin. discriminate.
  - destruct (tools _) as [|r l] eqn:E; [reflexivity|].
    assert (Hr : In r (r :: l)) by now left.
    rewrite <- E in Hr. apply results_of_tools in Hr as (d & i & _ & Hr).
    apply hit_tools_In in Hr as (? & ? & ? & _ & _ & _ & Hin & _).
    rewrite (Hf _ Hn) in Hin. discriminate.
  - intros r Hr. apply results_of_servers in Hr as (d & i & _ & Hr).
    apply hit_servers_In in Hr as (? & ? & ? & _ & _ & _ & _ & ->).
    cbn. unfold matching_tools_of. now rewrite (Hf _ Hn).
Qed.

(** X13.  A filter that names no known entity type filters nothing: the
    search runs exactly as the search without a filter, and so does the
    search with the empty filter. *)
Theorem unknown_filter_is_no_filter (query : str)
  (requested : list str) (max_results : Z) (s : FaissService) :
  (forall t, In t requested -> ~ In t allowed_entity_types) ->
  search_mixed index_search query (Some requested) max_results s
  = search_mixed index_search query None max_results s.
Proof.
  intros H. rewrite !search_mixed_run. unfold results_of.
  now rewrite (entity_filter_unknown requested H).
Qed.

(** X14.  Every result is read from the store: a server result names a
    path that is not empty and holds a server entry, and is built from
    the record stored there; a tool result names such a path and a tool
    of the stored tool list whose text contains a token of the query; an
    agent result names a path that holds an agent entry and carries the
    stored card. *)
Theorem search_results_from_store (query : str)
  (entity_types : option (list str)) (max_results : Z)
  (s : FaissService) (results : SearchResults) :
  outcome (search_mixed index_search query entity_types max_results s)
  = inr results ->
  (forall r, In r (servers results) ->
     exists entry server_info distance,
       PyStr.is_empty (sr_path r) = false
       /\ Dict.get PyStr.eqb (sr_path r) (metadata_store s) = Some entry
       /\ entity_type entry = "mcp_server"
       /\ full_server_info entry = Some server_info
       /\ r = server_result_of query (entity_filter_of entity_types)
                (sr_path r) server_info (_distance_to_relevance distance))
  /\ (forall r, In r (tools results) ->
        exists entry server_info tool,
          Dict.get PyStr.eqb (tr_server_path r) (metadata_store s)
          = Some entry
          /\ entity_type entry = "mcp_server"
          /\ full_server_info entry = Some server_info
          /\ In tool (tools_of server_info)
          /\ tr_tool_name r = field_get (tool_name tool) (Some "")
          /\ exists token,
               In token (query_tokens query)
               /\ PyStr.contains token (searchable_text tool) = true)
  /\ (forall r, In r (agents results) ->
        exists entry,
          PyStr.is_empty (ar_path r) = false
          /\ Dict.get PyStr.eqb (ar_path r) (metadata_store s) = Some entry
          /\ entity_type entry = "a2a_agent"
          /\ full_agent_card entry = Some (ar_agent_card r)
          /\ ar_agent_name r = ac_name (ar_agent_card r)).
Proof.
  intros H.
  apply search_mixed_returns in H as [-> | (hits & ->)];
    [cbn; repeat split; intros; contradiction|].
  split; [|split]; intros r Hr.
  - apply results_of_servers in Hr as (d & i & _ & Hr).
    apply hit_servers_In in Hr
      as (path & entry & info & (_ & Hp & Hg) & Ht & Hi & _ & ->).
    exists entry, info, d. cbn. auto.
  - apply results_of_tools in Hr as (d & i & _ & Hr).
    apply hit_tools_In in Hr
      as (path & entry & info & (_ & Hp & Hg) & Ht & Hi & _ & Hr).
    unfold tool_results_of in Hr.
    apply in_map_iff in Hr as (m & <- & Hm).
    apply matching_tools_In in Hm as (tool & Hin & Hh & ->).
    exists entry, info, tool. cbn.
    repeat split; auto. now apply token_hits_witness.
  - apply results_of_agents in Hr as (d & i & _ & Hr).
    apply hit_agents_In in Hr
      as (path & entry & card & (_ & Hp & Hg) & Ht & Hc & _ & ->).
    exists entry. cbn. auto.
Qed.

(** X15.  The scores of an answer lie between 0 and 1: the relevance of
    a server and of an agent, and the score of a tool, in the tool list
    or attached to a server; none of them is NaN. *)
Theorem search_scores_bounded (query : str)
  (entity_types : option (list str)) (max_results : Z)
  (s : FaissService) (results : SearchResults) :
  outcome (search_mixed index_search query entity_types max_results s)
  = inr results ->
  let in_unit (x : float) :=
    (0 <=? x)%float = true /\ (x <=? 1)%float = true in
  (forall r, In r (servers results) ->
     in_unit (sr_relevance_score r)
     /\ forall m, In m (sr_matching_tools r) ->
          in_unit (mt_relevance_score m))
  /\ (forall r, In r (tools results) -> in_unit (tr_relevance_score r))
  /\ (forall r, In r (agents results) -> in_unit (ar_relevance_score r)).
Proof.
  intros H in_unit. subst in_unit. cbv beta.
  apply search_mixed_returns in H as [-> | (hits & ->)];
    [cbn; repeat split; intros; contradiction|].
  split; [|split]; intros r Hr.
  - apply results_of_servers in Hr as (d & i & _ & Hr).
    apply hit_servers_In in Hr as (? & ? & ? & _ & _ & _ & _ & ->).
    cbn. split; [apply relevance_in_unit|].
    intros m Hm. apply in_map_iff in Hm as (tm & <- & _). cbn. split.
    + apply composite_not_below_zero, relevance_unsigned.
    + apply composite_at_most_one.
  - apply results_of_tools in Hr as (d & i & _ & Hr).
    apply hit_tools_In in Hr as (? & ? & ? & _ & _ & _ & _ & Hr).
    apply in_map_iff in Hr as (tm & <- & _). cbn. split.
    + apply composite_not_below_zero, relevance_unsigned.
    + apply composite_at_most_one.
  - apply results_of_agents in Hr as (d & i & _ & Hr).
    apply hit_agents_In in Hr as (? & ? & ? & _ & _ & _ & _ & ->).
    cbn. apply relevance_in_unit.
Qed.

(** X16.  An answer is ranked: in each of the three lists no result has a
    lower score than a result that comes after it. *)
Theorem search_results_ranked (query : str)
  (entity_types : option (list str)) (max_results : Z)
  (s : FaissService) (results : SearchResults) :
  outcome (search_mixed index_search query entity_types max_results s)
  = inr results ->
  StronglySorted (ranked sr_relevance_score) (servers results)
  /\ StronglySorted (ranked tr_relevance_score) (tools results)
  /\ StronglySorted (ranked ar_relevance_score) (agents results).
Proof.
  intros H.
  apply search_mixed_returns in H as [-> | (hits & ->)];
    [cbn; repeat split; constructor|].
  split; [|split]; cbn; apply StronglySorted_firstn, sort_desc_ranked;
    apply Forall_forall; intros r Hr;
    apply in_flat_map in Hr as ([d i] & _ & Hr).
  - apply hit_servers_In in Hr as (? & ? & ? & _ & _ & _ & _ & ->).
    cbn. exact (proj1 (float_leb_number _ _ (proj2 (relevance_in_unit d)))).
  - apply hit_tools_In in Hr as (? & ? & ? & _ & _ & _ & _ & Hr).
    apply in_map_iff in Hr as (tm & <- & _). cbn.
    exact (proj1 (float_leb_number _ _ (composite_at_most_one _ _))).
  - apply hit_agents_In in Hr as (? & ? & ? & _ & _ & _ & _ & ->).
    cbn. exact (proj1 (float_leb_number _ _ (proj2 (relevance_in_unit d)))).
Qed.

End SearchGuarantees.

(** ** Hits on live entries *)










Section SearchFinds.
Variable index_search : Index -> Vector -> nat -> list (float * Z).


End SearchFinds.

(** ** [search_entities] *)

Lemma slice_to_In {A} (l : list A) n x : In x (slice_to l n) -> In x l.
Proof. unfold slice_to. destruct (n <? 0)%Z; apply firstn_In. Qed.

Lemma slice_to_length {A} (l : list A) n :
  (0 <= n)%Z -> (List.length (slice_to l n) <= Z.to_nat n)%nat.
Proof.
  intros H. unfold slice_to.
  destruct (Z.ltb_spec n 0); [lia | apply firstn_le_length].
Qed.

Lemma combined_of_parts requested enabled_only results :
  combined_of requested enabled_only results
  = ((if in_filter "a2a_agent" requested then
        map AgentEntity
          (filter (fun agent =>
                     negb (enabled_only && negb (ar_is_enabled agent)))
                  (agents results))
      else [])
     ++ (if in_filter "mcp_server" requested then
           map ServerEntity
             (filter (fun server =>
                        negb (enabled_only && negb (sr_is_enabled server)))
                     (servers results))
         else [])
     ++ (if in_filter "tool" requested then map ToolEntity (tools results)
         else []))%list.
Proof.
  unfold combined_of.
  destruct (in_filter "a2a_agent" requested),
    (in_filter "mcp_server" requested), (in_filter "tool" requested);
    cbn [app]; rewrite ?app_nil_r, ?app_assoc; reflexivity.
Qed.

Ltac other_entity H :=
  match type of H with
  | In _ (if ?b then _ else _) =>
      destruct b; [apply in_map_iff in H as (? & [=] & _) | destruct H]
  end.

Lemma combined_of_agents requested enabled_only results a :
  In (AgentEntity a) (combined_of requested enabled_only results) ->
  In "a2a_agent" requested
  /\ In a (agents results)
  /\ (enabled_only = true -> ar_is_enabled a = true).
Proof.
  rewrite combined_of_parts. intros H.
  apply in_app_or in H as [H|H];
    [|apply in_app_or in H as [H|H]; other_entity H].
  destruct (in_filter "a2a_agent" requested) eqn:Hf; [|destruct H].
  apply in_map_iff in H as (a' & [= ->] & H).
  apply filter_In in H as [Hin He].
  split; [now apply in_filter_In|]. split; [assumption|].
  intros ->. cbn in He. now destruct (ar_is_enabled a).
Qed.

Lemma combined_of_servers requested enabled_only results r :
  In (ServerEntity r) (combined_of requested enabled_only results) ->
  In "mcp_server" requested
  /\ In r (servers results)
  /\ (enabled_only = true -> sr_is_enabled r = true).
Proof.
  rewrite combined_of_parts. intros H.
  apply in_app_or in H as [H|H]; [other_entity H|].
  apply in_app_or in H as [H|H]; [|other_entity H].
  destruct (in_filter "mcp_server" requested) eqn:Hf; [|destruct H].
  apply in_map_iff in H as (r' & [= ->] & H).
  apply filter_In in H as [Hin He].
  split; [now apply in_filter_In|]. split; [assumption|].
  intros ->. cbn in He. now destruct (sr_is_enabled r).
Qed.

Lemma combined_of_tools requested enabled_only results t :
  In (ToolEntity t) (combined_of requested enabled_only results) ->
  In "tool" requested /\ In t (tools results).
Proof.
  rewrite combined_of_parts. intros H.
  apply in_app_or in H as [H|H]; [other_entity H|].
  apply in_app_or in H as [H|H]; [other_entity H|].
  destruct (in_filter "tool" requested) eqn:Hf; [|destruct H].
  apply in_map_iff in H as (t' & [= ->] & H).
  split; [now apply in_filter_In | assumption].
Qed.

Lemma combined_of_length requested enabled_only results :
  (List.length (combined_of requested enabled_only results)
   <= List.length (agents results) + List.length (servers results)
      + List.length (tools results))%nat.
Proof.
  rewrite combined_of_parts, !length_app.
  pose proof (filter_length_le
                (fun agent => negb (enabled_only && negb (ar_is_enabled agent)))
                (agents results)).
  pose proof (filter_length_le
                (fun server =>
                   negb (enabled_only && negb (sr_is_enabled server)))
                (servers results)).
  destruct (in_filter "a2a_agent" requested),
    (in_filter "mcp_server" requested), (in_filter "tool" requested);
    rewrite ?length_map; cbn [List.length]; lia.
Qed.

Section EntitySearchFacts.
Variable index_search : Index -> Vector -> nat -> list (float * Z).

Lemma search_entities_run query entity_types enabled_only max_results s :
  let requested :=
    match entity_types with
    | None => ["a2a_agent"; "mcp_server"; "tool"]
    | Some l => l
    end in
  search_entities index_search query entity_types enabled_only max_results s
  = let r := search_mixed index_search query (Some requested)
               max_results s in
    mkRun (match outcome r with
           | inl e => inl e
           | inr results =>
               inr (slice_to (combined_of requested enabled_only results)
                      max_results)
           end) (post r) (effects r).
Proof.
  intros requested. unfold search_entities. fold requested. run_monad.
  destruct (search_mixed _ _ _ _ s) as [[e|results] s' t]; cbn;
    [reflexivity|].
  unfold ret. cbn. now rewrite app_nil_r.
Qed.

(** X18.  [search_entities] returns what was asked for and nothing else:
    an agent, a server or a tool is in the list only if its entity type
    is among the requested ones and the mixed search for these types
    returned it; with [enabled_only] every agent and every server of the
    list is enabled (tools are not filtered).  The requested types are
    taken as written: when none of them is a known type, and so when the
    list of types is empty, the result is empty, although the mixed
    search then runs over every type. *)
Theorem search_entities_selects (query : str)
  (entity_types : option (list str)) (enabled_only : bool)
  (max_results : Z) (s : FaissService) (found : list EntityResult) :
  outcome (search_entities index_search query entity_types enabled_only
             max_results s) = inr found ->
  let requested :=
    match entity_types with
    | None => ["a2a_agent"; "mcp_server"; "tool"]
    | Some l => l
    end in
  exists results,
    outcome (search_mixed index_search query (Some requested) max_results s)
    = inr results
    /\ (forall a, In (AgentEntity a) found ->
          In "a2a_agent" requested /\ In a (agents results)
          /\ (enabled_only = true -> ar_is_enabled a = true))
    /\ (forall r, In (ServerEntity r) found ->
          In "mcp_server" requested /\ In r (servers results)
          /\ (enabled_only = true -> sr_is_enabled r = true))
    /\ (forall t, In (ToolEntity t) found ->
          In "tool" requested /\ In t (tools results))
    /\ ((forall t, In t requested -> ~ In t allowed_entity_types) ->
        found = []).
Proof.
  intros H requested. rewrite search_entities_run in H. cbv zeta in H.
  fold requested in H. cbn [outcome] in H.
  destruct (outcome (search_mixed index_search query (Some requested)
                       max_results s)) as [e|results]; [discriminate|].
  injection H as <-. exists results. split; [reflexivity|].
  split; [|split; [|split]].
  - intros a Ha. apply slice_to_In in Ha. now apply combined_of_agents in Ha.
  - intros r Hr. apply slice_to_In in Hr. now apply combined_of_servers in Hr.
  - intros t Ht. apply slice_to_In in Ht. now apply combined_of_tools in Ht.
  - intros Hu.
    destruct (slice_to _ max_results) as [|x l] eqn:E; [reflexivity|].
    assert (Hx : In x (x :: l)) by now left.
    rewrite <- E in Hx. apply slice_to_In in Hx. exfalso.
    destruct x as [a|r|t].
    + apply combined_of_agents in Hx as [Hx _].
      apply (Hu _ Hx). cbn. auto.
    + apply combined_of_servers in Hx as [Hx _].
      apply (Hu _ Hx). cbn. auto.
    + apply combined_of_tools in Hx as [Hx _].
      apply (Hu _ Hx). cbn. auto.
Qed.

(** X19.  The size of the list [search_entities] returns: with a limit
    that is not negative it holds at most [max_results] elements, none
    when the limit is zero; whatever the limit it holds at most 150,
    since it is cut out of at most 50 agents, 50 servers and 50 tools.
    The service is left as it was and nothing is saved. *)
Theorem search_entities_limit (query : str)
  (entity_types : option (list str)) (enabled_only : bool)
  (max_results : Z) (s : FaissService) :
  let r := search_entities index_search query entity_types enabled_only
             max_results s in
  post r = s /\ saves (effects r) = []
  /\ forall found, outcome r = inr found ->
       ((0 <= max_results)%Z ->
        (List.length found <= Z.to_nat max_results)%nat)
       /\ (List.length found <= 150)%nat.
Proof.
  cbv zeta. rewrite search_entities_run. cbv zeta. cbn [post effects outcome].
  set (requested := match entity_types with
                    | None => _ | Some l => l end).
  pose proof (search_mixed_run index_search query (Some requested)
                max_results s) as R.
  split; [|split].
  - rewrite R. destruct (_ || _); [reflexivity|].
    destruct (embedding_model s) as [model|]; [|reflexivity].
    destruct (faiss_index s) as [ix|]; [|reflexivity].
    destruct (Z.eqb _ 0); [reflexivity|].
    destruct (model _); reflexivity.
  - rewrite R. destruct (_ || _); [reflexivity|].
    destruct (embedding_model s) as [model|]; [|reflexivity].
    destruct (faiss_index s) as [ix|]; [|reflexivity].
    destruct (Z.eqb _ 0); [reflexivity|].
    destruct (model _); reflexivity.
  - intros found H.
    destruct (outcome (search_mixed index_search query (Some requested)
                         max_results s)) as [e|results] eqn:E;
      [discriminate|].
    injection H as <-. split; [apply slice_to_length|].
    assert (Hl : (List.length (agents results) <= 50
                  /\ List.length (servers results) <= 50
                  /\ List.length (tools results) <= 50)%nat).
    { pose proof (clamp_limit_range max_results) as Hc.
      apply search_mixed_returns in E as [-> | (hits & ->)];
        [cbn; lia|].
      cbn.
      repeat split;
        (etransitivity; [apply firstn_le_length | apply Hc]). }
    pose proof (combined_of_length requested enabled_only results) as Hlen.
    assert (Hs : (List.length
                    (slice_to (combined_of requested enabled_only results)
                       max_results)
                  <= List.length
                       (combined_of requested enabled_only results))%nat).
    { unfold slice_to.
      destruct (max_results <? 0)%Z; rewrite length_firstn; lia. }
    lia.
Qed.

End EntitySearchFacts.

(** ** The tool matcher *)

Lemma take_length n s : (PyStr.len (PyStr.take n s) <= n)%nat.
Proof.
  revert s. induction n as [|n IH]; intros [|c r]; cbn; try lia.
  specialize (IH r). lia.
Qed.

Lemma coverage_in_unit found total :
  (0 < found <= total)%nat ->
  (0 < coverage_of found total)%Q /\ (coverage_of found total <= 1)%Q.
Proof.
  intros H. unfold coverage_of, Qlt, Qle. cbn [Qnum Qden].
  rewrite <- positive_nat_Z, Nat2Pos.id by lia. lia.
Qed.

(** X20.  What the tool matcher returns is bounded: no more matches than
    the server has tools; every match has a score above 0 and at most 1
    and a context of at most 180 characters, and it names a tool of the
    list, the schema of which it carries. *)
Theorem tool_matches_bounded (query : str) (server_info : ServerInfo) :
  let result := _extract_matching_tools query server_info in
  (List.length result <= List.length (tools_of server_info))%nat
  /\ forall m, In m result ->
       (0 < tm_raw_score m)%Q /\ (tm_raw_score m <= 1)%Q
       /\ (PyStr.len (tm_match_context m) <= 180)%nat
       /\ exists tool,
            In tool (tools_of server_info)
            /\ tm_tool_name m = field_get (tool_name tool) (Some "")
            /\ tm_schema m = tool_schema tool.
Proof.
  cbv zeta. rewrite extract_matching_tools_run. cbv zeta. split.
  - rewrite (Permutation_length (sort_desc_perm tm_raw_score Qltb _)).
    rewrite length_map. apply filter_length_le.
  - intros m Hm.
    apply (proj1 (sort_desc_In tm_raw_score Qltb m _)) in Hm.
    apply in_map_iff in Hm as (tool & <- & Hm).
    apply filter_In in Hm as [Hin Hh]. apply Nat.ltb_lt in Hh.
    pose proof (token_hits_bound (query_tokens query) tool) as Hb.
    destruct (coverage_in_unit (token_hits (query_tokens query) tool)
                (List.length (query_tokens query))) as [H0 H1]; [lia|].
    split; [exact H0|]. split; [exact H1|].
    split; [exact (take_length 180 _)|]. exists tool. auto.
Qed.

(** ** Federation configuration *)

(** X21.  The two readings of a federation configuration agree: some
    federation is enabled exactly when the list of the enabled ones is
    not empty; the list names ["anthropic"] exactly when that federation
    is enabled and ["asor"] exactly when that one is, and it names nothing
    else and nothing twice; no federation is enabled by default. *)
Theorem enabled_federations_agree (self : FederationConfig) :
  (is_any_federation_enabled self = true
   <-> get_enabled_federations self <> [])
  /\ (In "anthropic" (get_enabled_federations self)
      <-> afc_enabled (anthropic self) = true)
  /\ (In "asor" (get_enabled_federations self)
      <-> asor_enabled (asor self) = true)
  /\ (forall name, In name (get_enabled_federations self) ->
        name = "anthropic" \/ name = "asor")
  /\ NoDup (get_enabled_federations self)
  /\ get_enabled_federations default_federation = [].
Proof.
  unfold is_any_federation_enabled, get_enabled_federations.
  destruct (afc_enabled (anthropic self)), (asor_enabled (asor self));
    cbn [app orb In];
    repeat split; intros; try congruence; try tauto;
    try (intuition (subst; auto; congruence));
    repeat constructor; cbn [In]; intuition congruence.
Qed.

(** ** Start-up *)

Lemma load_embedding_model_run env s :
  servers_dir_mkdir env = true ->
  _load_embedding_model env s
  = mkRun (inr (effective_dimension env))
      {| embedding_model := loaded_model env;
         faiss_index := faiss_index s;
         metadata_store := metadata_store s;
         next_id_counter := next_id_counter s |}
      (effects (_load_embedding_model env s))
  /\ saves (effects (_load_embedding_model env s)) = []
  /\ embedder_calls (effects (_load_embedding_model env s)) = [].
Proof.
  intros Hdir.
  unfold _load_embedding_model, loaded_model, effective_dimension,
    set_embedding_model.
  rewrite Hdir.
  destruct (model_cache_mkdir env); run_monad; [|auto].
  destruct (create_embeddings_client env) as [[client [d|]]|]; run_monad;
    auto.
  destruct (Nat.eqb_spec d (embeddings_model_dimensions env)) as [->|ne];
    cbn; auto.
Qed.

Lemma load_embedding_model_fails env s :
  servers_dir_mkdir env = false ->
  _load_embedding_model env s
  = mkRun (inl OSError) s [EvLog INFO "Loading embedding model"].
Proof.
  intros Hdir. unfold _load_embedding_model. rewrite Hdir. reflexivity.
Qed.

Lemma load_faiss_data_run env s :
  let d := effective_dimension env in
  let r := _load_faiss_data env d s in
  outcome r = inr tt
  /\ saves (effects r) = []
  /\ embedder_calls (effects r) = []
  /\ post r
     = match faiss_index_file env, faiss_metadata_file env with
       | Some (Some ix), Some (Some loaded) =>
           if Nat.eqb (index_d ix) d then
             {| embedding_model := embedding_model s;
                faiss_index := Some ix;
                metadata_store :=
                  match lm_metadata loaded with Some m => m | None => [] end;
                next_id_counter :=
                  match lm_next_id loaded with Some n => n | None => 0%Z end |}
           else empty_store (embedding_model s) (Some (empty_index d))
       | _, _ => empty_store (embedding_model s) (Some (empty_index d))
       end.
Proof.
  cbv zeta. unfold _load_faiss_data, _initialize_new_index, empty_store.
  destruct (faiss_index_file env) as [[ix|]|],
    (faiss_metadata_file env) as [[loaded|]|]; run_monad; auto.
  destruct (Nat.eqb (index_d ix) (effective_dimension env)); cbn; auto.
Qed.

Lemma initialize_run env s :
  servers_dir_mkdir env = true ->
  let r := initialize env s in
  outcome r = inr tt
  /\ saves (effects r) = []
  /\ embedder_calls (effects r) = []
  /\ post r
     = match faiss_index_file env, faiss_metadata_file env with
       | Some (Some ix), Some (Some loaded) =>
           if Nat.eqb (index_d ix) (effective_dimension env) then
             {| embedding_model := loaded_model env;
                faiss_index := Some ix;
                metadata_store :=
                  match lm_metadata loaded with Some m => m | None => [] end;
                next_id_counter :=
                  match lm_next_id loaded with Some n => n | None => 0%Z end |}
           else empty_store (loaded_model env)
                  (Some (empty_index (effective_dimension env)))
       | _, _ => empty_store (loaded_model env)
                   (Some (empty_index (effective_dimension env)))
       end.
Proof.
  intros Hdir. cbv zeta. unfold initialize, bind.
  destruct (load_embedding_model_run env s Hdir) as (-> & Hs & He).
  set (s1 := {| embedding_model := loaded_model env;
                faiss_index := faiss_index s;
                metadata_store := metadata_store s;
                next_id_counter := next_id_counter s |}).
  destruct (load_faiss_data_run env s1) as (Ho & Hs' & He' & Hp).
  destruct (_load_faiss_data env (effective_dimension env) s1)
    as [o s2 t]. cbn in *. subst o s2.
  unfold saves, embedder_calls in *. rewrite !filter_app, Hs, He, Hs', He'.
  auto.
Qed.

Lemma initialize_fails env s :
  servers_dir_mkdir env = false ->
  initialize env s
  = mkRun (inl OSError) s [EvLog INFO "Loading embedding model"].
Proof.
  intros Hdir. unfold initialize, bind.
  now rewrite (load_embedding_model_fails env s Hdir).
Qed.

(** X22.  Start-up ends with an index of the right dimension or not at
    all.  When the servers directory cannot be made, [initialize] raises
    the error of the [mkdir] and leaves the service as it was.  Otherwise,
    whatever the files hold and whether or not an embedder could be
    created, it returns and leaves an index whose dimension is the one
    the embedder reports (the configured one when there is no embedder);
    the index and the store are then either both as read from the two
    files, or both new and empty with the counter at zero: a store is
    never kept beside a new index.  In both cases nothing is saved and
    nothing is embedded. *)
Theorem initialize_gives_index (env : Startup) (s : FaissService) :
  let r := initialize env s in
  saves (effects r) = []
  /\ embedder_calls (effects r) = []
  /\ (servers_dir_mkdir env = false ->
      outcome r = inl OSError /\ post r = s)
  /\ (servers_dir_mkdir env = true ->
      outcome r = inr tt
      /\ embedding_model (post r) = loaded_model env
      /\ exists ix,
           faiss_index (post r) = Some ix
           /\ index_d ix = effective_dimension env
           /\ ((ix = empty_index (effective_dimension env)
                /\ metadata_store (post r) = []
                /\ next_id_counter (post r) = 0%Z)
               \/ (exists loaded,
                     faiss_index_file env = Some (Some ix)
                     /\ faiss_metadata_file env = Some (Some loaded)
                     /\ metadata_store (post r)
                        = match lm_metadata loaded with
                          | Some m => m
                          | None => []
                          end
                     /\ next_id_counter (post r)
                        = match lm_next_id loaded with
                          | Some n => n
                          | None => 0%Z
                          end))).
Proof.
  cbv zeta. destruct (servers_dir_mkdir env) eqn:Hdir.
  - destruct (initialize_run env s Hdir) as (Ho & Hs & He & Hp).
    split; [exact Hs|]. split; [exact He|]. split; [discriminate|].
    intros _. rewrite Hp. split; [exact Ho|].
    destruct (faiss_index_file env) as [[ix|]|],
      (faiss_metadata_file env) as [[loaded|]|];
      try (split; [reflexivity|]; eexists; split; [reflexivity|];
           split; [reflexivity|]; left; now auto).
    destruct (Nat.eqb_spec (index_d ix) (effective_dimension env)) as [E|E].
    + split; [reflexivity|]. exists ix. split; [reflexivity|].
      split; [exact E|]. right. exists loaded. auto.
    + split; [reflexivity|]. eexists. split; [reflexivity|].
      split; [reflexivity|]. left. auto.
  - rewrite (initialize_fails env s Hdir). cbn.
    split; [reflexivity|]. split; [reflexivity|].
    split; [auto | discriminate].
Qed.

Section FreshService.
Variable index_search : Index -> Vector -> nat -> list (float * Z).

(** X23.  Files that cannot be used are dropped as a whole: when the
    servers directory can be made and one of the two files is missing or
    unreadable, or the index read has another dimension than the embedder
    reports, the service starts as the empty store over a new index,
    whatever the other file holds.
    Every search with a query that is not blank then returns three empty
    lists without calling the embedder, or raises the [RuntimeError]
    when no embedder could be created. *)
Theorem unusable_files_start_empty (env : Startup) (s : FaissService)
  (query : str) (entity_types : option (list str)) (max_results : Z) :
  servers_dir_mkdir env = true ->
  files_usable env = false ->
  PyStr.is_empty query || PyStr.is_empty (PyStr.strip query) = false ->
  let s' := post (initialize env s) in
  let r := search_mixed index_search query entity_types max_results s' in
  s' = empty_store (loaded_model env)
         (Some (empty_index (effective_dimension env)))
  /\ outcome r
     = match loaded_model env with
       | Some _ => inr {| servers := []; tools := []; agents := [] |}
       | None => inl (RuntimeError "FAISS search service is not initialized")
       end
  /\ effects r = [].
Proof.
  intros Hdir Hf Hq.
  destruct (initialize_run env s Hdir) as (_ & _ & _ & Hp).
  assert (E : post (initialize env s)
              = empty_store (loaded_model env)
                  (Some (empty_index (effective_dimension env)))).
  { rewrite Hp. unfold files_usable in Hf.
    destruct (faiss_index_file env) as [[ix|]|],
      (faiss_metadata_file env) as [[loaded|]|]; try reflexivity.
    now rewrite Hf. }
  cbv zeta. rewrite E. split; [reflexivity|].
  rewrite search_mixed_run, Hq. cbn.
  destruct (loaded_model env); split; reflexivity.
Qed.

End FreshService.

(** ** The added theorems at work on the sample data *)


Lemma writes_are_saved_witness :
  let r := run_op (RemoveService "/weather") sample_store in
  saves (effects r) = [] /\ metadata_store (post r) = metadata_store sample_store
  \/ exists ix,
       faiss_index (post r) = Some ix
       /\ saves (effects r)
          = [EvSave ix (metadata_store (post r)) (next_id_counter (post r))].
Proof.
  apply (writes_are_saved (RemoveService "/weather") sample_store sample_index).
  reflexivity.
Defined.

Lemma update_replaces_vector_witness :
  let r := run_op (AddService "/weather" server_a true) sample_store in
  embedder_calls (effects r) = [EvEncode (_get_text_for_embedding server_a)]
  /\ next_id_counter (post r) = 1%Z
  /\ faiss_index (post r) = Some sample_index.
Proof.
  destruct (update_replaces_vector (AddService "/weather" server_a true)
              sample_store working_model sample_index "/weather"
              (_get_text_for_embedding server_a) sample_entry
              [1%float; 0%float])
    as (H1 & H2 & _ & _ & H5 & _); try reflexivity.
  - intros H. vm_compute in H. discriminate H.
  - cbv zeta. split; [exact H1|]. split; [exact H2 | exact H5].
Defined.

Lemma index_failure_drops_vector_witness :
  let r := run_op (AddService "/weather" server_a true) short_store in
  outcome r = inr tt
  /\ metadata_store (post r) = metadata_store short_store
  /\ faiss_index (post r) = Some {| index_d := 2; index_vectors := [] |}
  /\ saves (effects r) = [].
Proof.
  destruct (index_failure_drops_vector (AddService "/weather" server_a true)
              short_store short_model sample_index "/weather"
              (_get_text_for_embedding server_a) sample_entry [1%float])
    as (H1 & H2 & _ & H4 & H5); try reflexivity.
  - intros H. vm_compute in H. discriminate H.
  - cbn. lia.
  - cbv zeta. split; [exact H1|]. split; [exact H2|].
    split; [exact H4 | exact H5].
Defined.

Lemma add_then_remove_leaves_vector_witness :
  let s2 := post (run_op (RemoveAgent "/agents/bot1")
                    (post (run_op (AddAgent "/agents/bot1" sample_agent false)
                             sample_store))) in
  metadata_store s2 = metadata_store sample_store
  /\ next_id_counter s2 = 2%Z
  /\ faiss_index s2
     = Some {| index_d := 2;
               index_vectors := [(0%Z, [1%float; 0%float]);
                                 (1%Z, [1%float; 0%float])] |}.
Proof.
  apply (add_then_remove_leaves_vector
           (AddAgent "/agents/bot1" sample_agent false)
           (RemoveAgent "/agents/bot1") sample_store working_model
           sample_index "/agents/bot1" (_get_text_for_agent sample_agent)
           [1%float; 0%float]); try reflexivity.
  right. left. reflexivity.
Defined.

Lemma saved_upsert_repeated_witness :
  let o := AddService "/weather" sample_server true in
  post (run_op o sample_store) = sample_store
  /\ saves (effects (run_op o sample_store)) = []
  /\ embedder_calls (effects (run_op o sample_store)) = [].
Proof.
  apply (saved_upsert_repeated (AddService "/weather" sample_server true)
           (empty_store (Some working_model) (Some (empty_index 2)))).
  - discriminate.
  - vm_compute. discriminate.
Defined.

Lemma enabled_flag_rewrites_entry_witness :
  let r := add_or_update_service "/weather" sample_server false sample_store in
  embedder_calls (effects r) = []
  /\ faiss_index (post r) = Some sample_index
  /\ Dict.get PyStr.eqb "/weather" (metadata_store (post r))
     = Some (service_entry sample_server false 0).
Proof.
  destruct (enabled_flag_rewrites_entry "/weather" sample_server true
              sample_store sample_entry sample_index)
    as (H1 & H2 & _ & H4 & _); try reflexivity.
  - discriminate.
  - cbv zeta. split; [exact H1|]. split; [exact H2 | exact H4].
Defined.

Lemma live_entries_have_one_vector_witness :
  let s := run_ops sample_ops
             (empty_store (Some working_model) (Some (empty_index 2))) in
  exists ix,
    faiss_index s = Some ix
    /\ index_d ix = 2%nat
    /\ (forall iv, In iv (index_vectors ix) ->
          (0 <= fst iv < next_id_counter s)%Z)
    /\ (forall path e,
          Dict.get PyStr.eqb path (metadata_store s) = Some e ->
          List.length (vectors_under (entry_id e) ix) = 1%nat).
Proof.
  apply (live_entries_have_one_vector working_model 2 sample_ops).
  intros text v [= <-]. reflexivity.
Defined.

Lemma search_without_vectors_witness :
  let r := search_mixed sample_search "forecast" None 5 __init__ in
  outcome r = inl (RuntimeError "FAISS search service is not initialized")
  /\ effects r = [].
Proof.
  destruct (search_without_vectors sample_search "forecast" None 5 __init__)
    as [H _]; [reflexivity|].
  apply H. left. reflexivity.
Defined.

Ltac sample_results o E :=
  match goal with
  | |- context [outcome ?r] =>
      remember (outcome r) as o eqn:E in |- *; symmetry in E;
      destruct o as [?e|?results]; [vm_compute in E; discriminate E|]
  end.

Lemma search_result_limits_witness :
  match outcome (search_mixed sample_search "forecast" None 0 sample_store)
  with
  | inr results =>
      (List.length (servers results) <= 1)%nat
      /\ (List.length (tools results) <= 1)%nat
      /\ (List.length (agents results) <= 1)%nat
  | inl _ => False
  end.
Proof.
  sample_results o E.
  destruct (search_result_limits sample_search "forecast" None 0 sample_store
              results E) as (_ & H1 & H2 & H3 & _).
  split; [exact H1|]. split; [exact H2 | exact H3].
Defined.

Lemma search_obeys_filter_witness :
  match outcome (search_mixed sample_search "forecast" (Some ["a2a_agent"]) 5
                   sample_store)
  with
  | inr results => servers results = [] /\ tools results = []
  | inl _ => False
  end.
Proof.
  sample_results o E.
  destruct (search_obeys_filter sample_search "forecast" ["a2a_agent"] 5
              sample_store results E) as (H1 & _ & H3).
  - exists "a2a_agent". split; [now left | cbn; auto].
  - split.
    + apply H1. intros [H|[]]. discriminate H.
    + apply H3. intros [H|[]]. discriminate H.
Defined.

Lemma unknown_filter_is_no_filter_witness :
  search_mixed sample_search "forecast" (Some ["widget"]) 5 sample_store
  = search_mixed sample_search "forecast" None 5 sample_store.
Proof.
  apply (unknown_filter_is_no_filter sample_search "forecast" ["widget"] 5
           sample_store).
  intros t [<-|[]] [H|[H|[H|[]]]]; discriminate H.
Defined.

Lemma search_results_from_store_witness :
  match outcome (search_mixed sample_search "forecast" None 5 sample_store)
  with
  | inr results =>
      Forall (fun r =>
                exists entry,
                  Dict.get PyStr.eqb (sr_path r) (metadata_store sample_store)
                  = Some entry
                  /\ entity_type entry = "mcp_server")
             (servers results)
  | inl _ => False
  end.
Proof.
  sample_results o E.
  destruct (search_results_from_store sample_search "forecast" None 5
              sample_store results E) as (H & _ & _).
  apply Forall_forall. intros r Hr.
  destruct (H r Hr) as (entry & info & d & _ & Hg & Ht & _).
  exists entry. split; [exact Hg | exact Ht].
Defined.

Lemma search_scores_bounded_witness :
  match outcome (search_mixed sample_search "forecast" None 5 sample_store)
  with
  | inr results =>
      Forall (fun r =>
                (0 <=? tr_relevance_score r)%float = true
                /\ (tr_relevance_score r <=? 1)%float = true)
             (tools results)
  | inl _ => False
  end.
Proof.
  sample_results o E.
  destruct (search_scores_bounded sample_search "forecast" None 5
              sample_store results E) as (_ & H & _).
  now apply Forall_forall.
Defined.

Lemma search_results_ranked_witness :
  match outcome (search_mixed sample_search "forecast" None 5 sample_store)
  with
  | inr results =>
      StronglySorted (ranked sr_relevance_score) (servers results)
      /\ StronglySorted (ranked tr_relevance_score) (tools results)
      /\ StronglySorted (ranked ar_relevance_score) (agents results)
  | inl _ => False
  end.
Proof.
  sample_results o E.
  exact (search_results_ranked sample_search "forecast" None 5 sample_store
           results E).
Defined.


Lemma search_entities_selects_witness :
  match outcome (search_entities sample_search "forecast" (Some []) false 5
                   sample_store)
  with
  | inr found => found = []
  | inl _ => False
  end.
Proof.
  sample_results o E.
  destruct (search_entities_selects sample_search "forecast" (Some []) false
              5 sample_store results E) as (r & _ & _ & _ & _ & H).
  apply H. intros t [].
Defined.

Lemma unusable_files_start_empty_witness :
  let s' := post (initialize sample_startup __init__) in
  let r := search_mixed sample_search "forecast" None 5 s' in
  s' = empty_store (Some working_model) (Some (empty_index 2))
  /\ outcome r = inr {| servers := []; tools := []; agents := [] |}
  /\ effects r = [].
Proof.
  apply (unusable_files_start_empty sample_search sample_startup __init__
           "forecast" None 5); reflexivity.
Defined.
